(** * Invoice QC service: amount parsing, date normalisation and validation rules

    A shallow embedding of [invoice_qc/extractor.py] (the amount parser and
    the date normaliser), [invoice_qc/validator.py] (the rule classes, the
    validator and its batch summary) and the endpoints of [api.py].

    Modelling conventions.
    - A Python [str] is a [string] that holds its UTF-8 encoding.  The
      development covers ASCII text: [str.strip], [str.lower], [str.upper],
      [float] and the patterns of [strptime] are the ASCII ones.  Only the
      class [\d] of the VAT id pattern is modelled on every decimal digit
      of Unicode, since the rule is applied to free text.
    - A Python [float] is an IEEE 754 binary64 value, modelled by the
      standard library's [spec_float] with [prec = 53] and [emax = 1024].
    - [None] is [None]; a raised [ValueError] is [None] in the result of
      the function that raises it. *)

From Stdlib Require Import ZArith Bool List Ascii String Lia Sorted.
From Stdlib Require Import SpecFloat PrimFloat FloatOps.
Import ListNotations.

Open Scope string_scope.
Open Scope Z_scope.

(** ** Python floats *)

Module PyFloat.

Definition float := spec_float.

Definition prec : Z := 53.
Definition emax : Z := 1024.

Definition add : float -> float -> float := SFadd prec emax.
Definition sub : float -> float -> float := SFsub prec emax.
Definition abs : float -> float := SFabs.
(** [ltb x y] is Python's [x < y]; it is [false] when either is a NaN. *)
Definition ltb : float -> float -> bool := SFltb.
(** [gtb x y] is Python's [x > y]. *)
Definition gtb (x y : float) : bool := SFltb y x.

Definition zero : float := S754_zero false.

(** The binary64 value nearest to [n / d] (ties to even), with sign [neg]. *)
Definition of_ratio (neg : bool) (n d : positive) : float :=
  SFdiv prec emax (S754_finite neg n 0) (S754_finite false d 0).

(** The binary64 value nearest to [m * 10 ^ e] (ties to even), with sign
    [neg]: the result of a correctly rounded decimal-to-binary conversion. *)
Definition of_decimal (neg : bool) (m : Z) (e : Z) : float :=
  match m with
  | Zpos p =>
      if 0 <=? e
      then binary_round prec emax neg (p * Z.to_pos (10 ^ e)) 0
      else of_ratio neg p (Z.to_pos (10 ^ (- e)))
  | _ => S754_zero neg
  end.

(** The float of an integer: what [float(n)] and the literal [n.0] denote. *)
Definition of_Z (n : Z) : float :=
  match n with
  | Z0 => zero
  | Zpos p => of_decimal false (Zpos p) 0
  | Zneg p => of_decimal true (Zpos p) 0
  end.

(** The literal [0.01]. *)
Definition lit_0_01 : float := of_decimal false 1 (-2).

(** Round half to even of the rational [n / d], [d > 0], to an integer. *)
Definition round_half_even (n d : Z) : Z :=
  let q := n / d in
  let r := n mod d in
  match 2 * r ?= d with
  | Lt => q
  | Gt => q + 1
  | Eq => if Z.even q then q else q + 1
  end.

(** Python's [round(x, 2)] on a float: the exact value of [x] is rounded
    half to even to two decimal places and the decimal result is converted
    back, correctly rounded.  Zeros, infinities and NaN are returned as
    they are. *)
Definition round2 (x : float) : float :=
  match x with
  | S754_finite s m e =>
      if 0 <=? e then x
      else of_decimal s (round_half_even (Zpos m * 100) (2 ^ (- e))) (-2)
  | _ => x
  end.

End PyFloat.

(** ** Python strings (ASCII) *)

Definition ascii_code (c : ascii) : Z := Z.of_nat (nat_of_ascii c).

(** [str.isspace] on ASCII: tab, line feed, vertical tab, form feed,
    carriage return, the four separators 0x1c-0x1f and the space. *)
Definition is_space (c : ascii) : bool :=
  let n := ascii_code c in
  ((9 <=? n) && (n <=? 13)) || ((28 <=? n) && (n <=? 32)).

Definition is_digit (c : ascii) : bool :=
  let n := ascii_code c in (48 <=? n) && (n <=? 57).

Definition digit_val (c : ascii) : Z := ascii_code c - 48.

Definition is_upper (c : ascii) : bool :=
  let n := ascii_code c in (65 <=? n) && (n <=? 90).

Definition is_lower (c : ascii) : bool :=
  let n := ascii_code c in (97 <=? n) && (n <=? 122).

Definition to_lower (c : ascii) : ascii :=
  if is_upper c then ascii_of_nat (nat_of_ascii c + 32) else c.

Definition to_upper (c : ascii) : ascii :=
  if is_lower c then ascii_of_nat (nat_of_ascii c - 32) else c.

Fixpoint map_string (f : ascii -> ascii) (s : string) : string :=
  match s with
  | EmptyString => EmptyString
  | String c r => String (f c) (map_string f r)
  end.

(** [s.lower()] and [s.upper()]. *)
Definition lower : string -> string := map_string to_lower.
Definition upper : string -> string := map_string to_upper.

(** [s.lstrip()]. *)
Fixpoint lstrip (s : string) : string :=
  match s with
  | EmptyString => EmptyString
  | String c r => if is_space c then lstrip r else s
  end.

(** [s.rstrip()]. *)
Fixpoint rstrip (s : string) : string :=
  match s with
  | EmptyString => EmptyString
  | String c r =>
      match rstrip r with
      | EmptyString => if is_space c then EmptyString else String c EmptyString
      | r' => String c r'
      end
  end.

(** [s.strip()]. *)
Definition strip (s : string) : string := rstrip (lstrip s).

(** [len(s)]. *)
Definition len (s : string) : Z := Z.of_nat (String.length s).

(** [c in s] for a one-character string [c]. *)
Fixpoint contains (c : ascii) (s : string) : bool :=
  match s with
  | EmptyString => false
  | String a r => Ascii.eqb a c || contains c r
  end.

(** [s.rfind(c)] for a one-character string [c]: the highest index of [c]
    in [s], or [-1]. *)
Fixpoint rfind_from (c : ascii) (s : string) (i : Z) (found : Z) : Z :=
  match s with
  | EmptyString => found
  | String a r => rfind_from c r (i + 1) (if Ascii.eqb a c then i else found)
  end.

Definition rfind (c : ascii) (s : string) : Z := rfind_from c s 0 (-1).

(** [s.replace(c, new)] for a one-character string [c]. *)
Fixpoint replace (c : ascii) (new : string) (s : string) : string :=
  match s with
  | EmptyString => EmptyString
  | String a r =>
      if Ascii.eqb a c then (new ++ replace c new r)%string
      else String a (replace c new r)
  end.

(** [s.endswith(suffix)]. *)
Fixpoint endswith (suffix s : string) : bool :=
  String.eqb s suffix
  || match s with
     | String _ r => endswith suffix r
     | EmptyString => false
     end.

(** [s.startswith(p)]. *)
Fixpoint startswith (p s : string) : bool :=
  match p, s with
  | EmptyString, _ => true
  | String a p', String b s' => Ascii.eqb a b && startswith p' s'
  | String _ _, EmptyString => false
  end.

(** Truthiness of an optional string: [None] and [""] are false. *)
Definition truthy (v : option string) : bool :=
  match v with
  | Some (String _ _) => true
  | _ => false
  end.

(** ** [float(s)]: the conversion of a string to a float

    The builtin accepts single underscores between digits, strips the
    surrounding white space, then reads an optional sign and either [inf],
    [infinity] or [nan] in any letter case, or a decimal numeral with an
    optional fraction and an optional exponent.  Anything else raises
    [ValueError], modelled as [None].  An overflowing numeral is an
    infinity. *)

(** The longest prefix of digits: its value, its number of digits, and the
    rest of the string. *)
Fixpoint span_digits (s : string) (acc : Z) (n : Z) : Z * Z * string :=
  match s with
  | String c r =>
      if is_digit c then span_digits r (10 * acc + digit_val c) (n + 1)
      else (acc, n, s)
  | EmptyString => (acc, n, s)
  end.

(** Underscores are dropped when each one stands between two digits. *)
Fixpoint drop_underscores (prev : option ascii) (s : string) : option string :=
  match s with
  | EmptyString =>
      match prev with
      | Some "_"%char => None
      | _ => Some EmptyString
      end
  | String c r =>
      if Ascii.eqb c "_" then
        match prev with
        | Some p => if is_digit p then drop_underscores (Some c) r else None
        | None => None
        end
      else
        match prev with
        | Some "_"%char =>
            if is_digit c
            then option_map (String c) (drop_underscores (Some c) r)
            else None
        | _ => option_map (String c) (drop_underscores (Some c) r)
        end
  end.

Definition split_sign (s : string) : bool * string :=
  match s with
  | String "-" r => (true, r)
  | String "+" r => (false, r)
  | _ => (false, s)
  end.

(** The exponent part: empty, or [e] or [E], an optional sign and at least
    one digit, up to the end of the string. *)
Definition parse_exponent (s : string) : option Z :=
  match s with
  | EmptyString => Some 0
  | String c r =>
      if Ascii.eqb c "e" || Ascii.eqb c "E" then
        let '(neg, r1) := split_sign r in
        match span_digits r1 0 0 with
        | (v, n, EmptyString) =>
            if 0 <? n then Some (if neg then - v else v) else None
        | _ => None
        end
      else None
  end.

(** An unsigned decimal numeral up to the end of the string, as a pair
    [(m, e)] denoting [m * 10 ^ e]. *)
Definition parse_decimal (s : string) : option (Z * Z) :=
  let '(ip, ni, r1) := span_digits s 0 0 in
  let '(m, nf, r2) :=
    match r1 with
    | String "." r => let '(v, nd, r') := span_digits r ip 0 in (v, nd, r')
    | _ => (ip, 0, r1)
    end in
  let total :=
    match r1 with
    | String "." _ => ni + nf
    | _ => ni
    end in
  if 0 <? total then
    match parse_exponent r2 with
    | Some e => Some (m, e - nf)
    | None => None
    end
  else None.

Definition parse_inf_or_nan (neg : bool) (s : string) : option PyFloat.float :=
  let l := lower s in
  if String.eqb l "inf" || String.eqb l "infinity" then Some (S754_infinity neg)
  else if String.eqb l "nan" then Some S754_nan
  else None.

(** The white space that [float] strips from an ASCII string: tab, line
    feed, vertical tab, form feed, carriage return and the space. *)
Definition is_c_space (c : ascii) : bool :=
  let n := ascii_code c in ((9 <=? n) && (n <=? 13)) || (n =? 32).

Fixpoint lstrip_c (s : string) : string :=
  match s with
  | EmptyString => EmptyString
  | String c r => if is_c_space c then lstrip_c r else s
  end.

Fixpoint rstrip_c (s : string) : string :=
  match s with
  | EmptyString => EmptyString
  | String c r =>
      match rstrip_c r with
      | EmptyString => if is_c_space c then EmptyString else String c EmptyString
      | r' => String c r'
      end
  end.

(** The conversion proper, once the underscores are gone. *)
Definition float_from_string_inner (s : string) : option PyFloat.float :=
  match rstrip_c (lstrip_c s) with
  | EmptyString => None
  | t =>
      let '(neg, body) := split_sign t in
      match parse_inf_or_nan neg body with
      | Some x => Some x
      | None =>
          match parse_decimal body with
          | Some (m, e) => Some (PyFloat.of_decimal neg m e)
          | None => None
          end
      end
  end.

Definition py_float (s : string) : option PyFloat.float :=
  match (if contains "_" s then drop_underscores None s else Some s) with
  | None => None
  | Some u => float_from_string_inner u
  end.

(** ** [InvoiceExtractor._parse_amount] *)

Definition _parse_amount (amount_str : string) : option PyFloat.float :=
  let amount_str := strip amount_str in
  let amount_str :=
    if contains "," amount_str && contains "." amount_str then
      if rfind "," amount_str >? rfind "." amount_str
      then replace "," "." (replace "." "" amount_str)
      else replace "," "" amount_str
    else if contains "," amount_str then
      let comma_pos := rfind "," amount_str in
      if (comma_pos >? 0) && (len amount_str - comma_pos =? 3)
      then replace "," "." amount_str
      else replace "," "" amount_str
    else amount_str in
  py_float amount_str.

(** ** Dates: [datetime.strptime] and [datetime.strftime]

    Only the date part matters here: every format used by the program has
    the three directives [%Y], [%m], [%d] and literal separators, so the
    time of day of every parsed value is midnight. *)

Record datetime : Set := mk_datetime { year : Z; month : Z; day : Z }.

Definition is_leap (y : Z) : bool :=
  (y mod 4 =? 0) && (negb (y mod 100 =? 0) || (y mod 400 =? 0)).

Definition days_in_month (y m : Z) : Z :=
  if (m =? 2) then (if is_leap y then 29 else 28)
  else if (m =? 4) || (m =? 6) || (m =? 9) || (m =? 11) then 30
  else 31.

(** The range check of the [datetime] constructor ([MINYEAR = 1],
    [MAXYEAR = 9999]); outside it the constructor raises [ValueError]. *)
Definition valid_date (y m d : Z) : bool :=
  (1 <=? y) && (y <=? 9999) && (1 <=? m) && (m <=? 12) &&
  (1 <=? d) && (d <=? days_in_month y m).

(** [a < b] on datetimes at midnight. *)
Definition datetime_ltb (a b : datetime) : bool :=
  (year a <? year b) ||
  ((year a =? year b) &&
   ((month a <? month b) || ((month a =? month b) && (day a <? day b)))).

Inductive directive : Set :=
| dir_Y
| dir_m
| dir_d
| dir_lit (c : ascii).

(** A format string as a sequence of directives; a directive other than
    [%Y], [%m], [%d] is not covered and yields [None]. *)
Fixpoint parse_format (fmt : string) : option (list directive) :=
  match fmt with
  | EmptyString => Some []
  | String "%" (String "Y" r) => option_map (cons dir_Y) (parse_format r)
  | String "%" (String "m" r) => option_map (cons dir_m) (parse_format r)
  | String "%" (String "d" r) => option_map (cons dir_d) (parse_format r)
  | String "%" _ => None
  | String c r => option_map (cons (dir_lit c)) (parse_format r)
  end.

Definition in_range (c : ascii) (lo hi : ascii) : bool :=
  (ascii_code lo <=? ascii_code c) && (ascii_code c <=? ascii_code hi).

(** One alternative made of two character classes, e.g. [1[0-2]]. *)
Definition alt2 (lo1 hi1 lo2 hi2 : ascii) (s : string) : list (Z * string) :=
  match s with
  | String a (String b r) =>
      if in_range a lo1 hi1 && in_range b lo2 hi2
      then [(10 * digit_val a + digit_val b, r)] else []
  | _ => []
  end.

(** One alternative made of one character class, e.g. [[1-9]]. *)
Definition alt1 (lo hi : ascii) (s : string) : list (Z * string) :=
  match s with
  | String a r => if in_range a lo hi then [(digit_val a, r)] else []
  | _ => []
  end.

(** The alternative [ [1-9]] of [%d]: a space, then a non-zero digit. *)
Definition alt_space_digit (s : string) : list (Z * string) :=
  match s with
  | String a (String b r) =>
      if Ascii.eqb a " " && in_range b "1" "9" then [(digit_val b, r)] else []
  | _ => []
  end.

(** The ways a directive can match a prefix of [s], in the priority order
    of the regular expression that [strptime] builds for it:
    [%Y] is [\d\d\d\d]; [%m] is [1[0-2]|0[1-9]|[1-9]];
    [%d] is [3[0-1]|[1-2]\d|0[1-9]|[1-9]| [1-9]]. *)
Definition directive_matches (d : directive) (s : string) : list (Z * string) :=
  match d with
  | dir_Y =>
      match s with
      | String a (String b (String c (String e r))) =>
          if is_digit a && is_digit b && is_digit c && is_digit e
          then [(1000 * digit_val a + 100 * digit_val b
                 + 10 * digit_val c + digit_val e, r)]
          else []
      | _ => []
      end
  | dir_m =>
      alt2 "1" "1" "0" "2" s ++ alt2 "0" "0" "1" "9" s ++ alt1 "1" "9" s
  | dir_d =>
      alt2 "3" "3" "0" "1" s ++ alt2 "1" "2" "0" "9" s
      ++ alt2 "0" "0" "1" "9" s ++ alt1 "1" "9" s ++ alt_space_digit s
  | dir_lit c =>
      match s with
      | String a r => if Ascii.eqb a c then [(0, r)] else []
      | EmptyString => []
      end
  end.

Definition set_field (d : directive) (v : Z) (dt : datetime) : datetime :=
  match d with
  | dir_Y => mk_datetime v (month dt) (day dt)
  | dir_m => mk_datetime (year dt) v (day dt)
  | dir_d => mk_datetime (year dt) (month dt) v
  | dir_lit _ => dt
  end.

Section FirstSome.
Context {A B : Type} (f : A -> option B).

Fixpoint first_some (l : list A) : option B :=
  match l with
  | [] => None
  | x :: r =>
      match f x with
      | Some y => Some y
      | None => first_some r
      end
  end.
End FirstSome.

(** Backtracking match of a directive sequence against a prefix of [s]:
    the first alternative whose continuation matches wins. *)
Fixpoint match_format (fmt : list directive) (s : string) (dt : datetime)
  : option (datetime * string) :=
  match fmt with
  | [] => Some (dt, s)
  | d :: fmt' =>
      first_some (fun vr => match_format fmt' (snd vr) (set_field d (fst vr) dt))
                 (directive_matches d s)
  end.

(** [datetime.strptime(s, fmt)]: the format must match a prefix of [s],
    nothing may remain after the match, and the fields must form a date. *)
Definition strptime (s fmt : string) : option datetime :=
  match parse_format fmt with
  | None => None
  | Some ds =>
      match match_format ds s (mk_datetime 1900 1 1) with
      | Some (dt, EmptyString) =>
          if valid_date (year dt) (month dt) (day dt) then Some dt else None
      | _ => None
      end
  end.

Definition digit_char (n : Z) : ascii := ascii_of_nat (Z.to_nat (48 + n)).

Definition pad2 (n : Z) : string :=
  String (digit_char (n / 10)) (String (digit_char (n mod 10)) EmptyString).

Definition pad4 (n : Z) : string :=
  String (digit_char (n / 1000))
    (String (digit_char (n / 100 mod 10))
       (String (digit_char (n / 10 mod 10))
          (String (digit_char (n mod 10)) EmptyString))).

(** The decimal digits of [n] without padding, for [0 <= n <= 9999]. *)
Definition unpadded (n : Z) : string :=
  if n <? 10 then String (digit_char n) EmptyString
  else if n <? 100 then pad2 n
  else if n <? 1000 then String (digit_char (n / 100)) (pad2 (n mod 100))
  else pad4 n.

(** What [strftime] prints for one directive.  CPython hands the format
    to the C library, and glibc prints [%Y] as the year in decimal without
    padding: the year 999 is printed [999], not [0999].  [%m] and [%d] are
    printed on two digits. *)
Definition format_directive (dt : datetime) (d : directive) : string :=
  match d with
  | dir_Y => unpadded (year dt)
  | dir_m => pad2 (month dt)
  | dir_d => pad2 (day dt)
  | dir_lit c => String c EmptyString
  end.

(** [dt.strftime(fmt)] for a [datetime], whose year is between 1 and
    9999. *)
Definition strftime (dt : datetime) (fmt : string) : string :=
  match parse_format fmt with
  | Some ds => String.concat "" (map (format_directive dt) ds)
  | None => EmptyString
  end.

(** ** [InvoiceExtractor._normalize_date] *)

Definition date_formats : list string :=
  ["%d.%m.%Y"; "%d/%m/%Y"; "%d-%m-%Y"; "%Y-%m-%d"; "%Y/%m/%d"].

Definition _normalize_date (date_str : string) : string :=
  match first_some (fun fmt => strptime date_str fmt) date_formats with
  | Some dt => strftime dt "%Y-%m-%d"
  | None => date_str
  end.

(** ** [invoice_qc/schema.py] *)

Record LineItem : Set := mk_LineItem {
  description : option string;
  quantity : option PyFloat.float;
  unit_price : option PyFloat.float;
  line_total : option PyFloat.float
}.

Record Invoice : Set := mk_Invoice {
  invoice_number : option string;
  external_reference : option string;
  invoice_date : option string;
  due_date : option string;
  seller_name : option string;
  seller_address : option string;
  seller_tax_id : option string;
  buyer_name : option string;
  buyer_address : option string;
  buyer_tax_id : option string;
  currency : option string;
  net_total : option PyFloat.float;
  tax_amount : option PyFloat.float;
  gross_total : option PyFloat.float;
  tax_rate : option PyFloat.float;
  line_items : list LineItem
}.

(** [Invoice()]: every field at its default. *)
Definition Invoice_default : Invoice :=
  mk_Invoice None None None None None None None None None None None
             None None None None [].

(** [getattr(invoice, field_name, None)] on the string-valued fields. *)
Definition getattr_str (invoice : Invoice) (field_name : string) : option string :=
  if String.eqb field_name "invoice_number" then invoice_number invoice
  else if String.eqb field_name "external_reference" then external_reference invoice
  else if String.eqb field_name "invoice_date" then invoice_date invoice
  else if String.eqb field_name "due_date" then due_date invoice
  else if String.eqb field_name "seller_name" then seller_name invoice
  else if String.eqb field_name "seller_address" then seller_address invoice
  else if String.eqb field_name "seller_tax_id" then seller_tax_id invoice
  else if String.eqb field_name "buyer_name" then buyer_name invoice
  else if String.eqb field_name "buyer_address" then buyer_address invoice
  else if String.eqb field_name "buyer_tax_id" then buyer_tax_id invoice
  else if String.eqb field_name "currency" then currency invoice
  else None.

(** [getattr(invoice, field_name, None)] on the float-valued fields. *)
Definition getattr_float (invoice : Invoice) (field_name : string)
  : option PyFloat.float :=
  if String.eqb field_name "net_total" then net_total invoice
  else if String.eqb field_name "tax_amount" then tax_amount invoice
  else if String.eqb field_name "gross_total" then gross_total invoice
  else if String.eqb field_name "tax_rate" then tax_rate invoice
  else None.

(** ** [invoice_qc/validator.py] *)

(** The rule classes.  Field rules carry the name of the field they were
    constructed with. *)
Inductive ValidationRule : Set :=
| CompletenessRule (field_name : string)
| DateFormatRule (field_name : string)
| CurrencyRule
| AmountSignRule (field_name : string)
| TotalConsistencyRule
| DueDateRule
| LineItemsConsistencyRule
| TaxIDFormatRule (field_name : string)
| PartyNamesRule.

Record ValidationResult : Set := mk_ValidationResult {
  invoice_id : string;
  is_valid : bool;
  errors : list string
}.

Record ValidationSummary : Set := mk_ValidationSummary {
  total_invoices : Z;
  valid_invoices : Z;
  invalid_invoices : Z;
  error_counts : list (string * Z);
  results : list ValidationResult
}.

Definition ALLOWED_CURRENCIES : list string :=
  ["EUR"; "USD"; "GBP"; "INR"; "CHF"; "JPY"; "AUD"; "CAD"].

(** [x in l] on a collection of strings. *)
Definition str_in (x : string) (l : list string) : bool :=
  existsb (String.eqb x) l.

(** *** Decimal digits in a pattern on [str]

    In a pattern on [str] the class [\d] matches every character that
    [Py_UNICODE_ISDECIMAL] accepts: the digits [0-9] and the decimal
    digits of the other scripts.  A character beyond ASCII takes two to
    four bytes of the text. *)

Definition ascii_of_code (n : Z) : ascii := ascii_of_nat (Z.to_nat n).

Definition is_continuation (c : ascii) : bool :=
  (128 <=? ascii_code c) && (ascii_code c <=? 191).

(** [chr(cp).encode("utf-8")]. *)
Definition utf8 (cp : Z) : string :=
  if cp <? 128 then String (ascii_of_code cp) EmptyString
  else if cp <? 2048 then
    String (ascii_of_code (192 + cp / 64))
      (String (ascii_of_code (128 + cp mod 64)) EmptyString)
  else if cp <? 65536 then
    String (ascii_of_code (224 + cp / 4096))
      (String (ascii_of_code (128 + cp / 64 mod 64))
         (String (ascii_of_code (128 + cp mod 64)) EmptyString))
  else
    String (ascii_of_code (240 + cp / 262144))
      (String (ascii_of_code (128 + cp / 4096 mod 64))
         (String (ascii_of_code (128 + cp / 64 mod 64))
            (String (ascii_of_code (128 + cp mod 64)) EmptyString))).

(** The first character of a text, as a code point, and the text after
    it; [None] on the empty text and on bytes that encode no character. *)
Definition utf8_head (s : string) : option (Z * string) :=
  match s with
  | EmptyString => None
  | String a r =>
      let x := ascii_code a in
      if x <? 128 then Some (x, r)
      else if x <? 194 then None
      else if x <? 224 then
        match r with
        | String b r1 =>
            if is_continuation b
            then Some (64 * (x - 192) + (ascii_code b - 128), r1)
            else None
        | _ => None
        end
      else if x <? 240 then
        match r with
        | String b (String c r2) =>
            let cp := 4096 * (x - 224) + 64 * (ascii_code b - 128)
                      + (ascii_code c - 128) in
            if is_continuation b && is_continuation c && (2048 <=? cp)
            then Some (cp, r2) else None
        | _ => None
        end
      else if x <? 245 then
        match r with
        | String b (String c (String d r3)) =>
            let cp := 262144 * (x - 240) + 4096 * (ascii_code b - 128)
                      + 64 * (ascii_code c - 128) + (ascii_code d - 128) in
            if is_continuation b && is_continuation c && is_continuation d
               && (65536 <=? cp) && (cp <? 1114112)
            then Some (cp, r3) else None
        | _ => None
        end
      else None
  end.

(** The code point of the digit zero of every run of ten decimal digits
    (general category [Nd]) in Unicode 14.0, the version of CPython 3.11:
    ASCII, Arabic-Indic, Devanagari, ..., full-width, mathematical. *)
Definition decimal_digit_runs : list Z :=
  [ 48; 1632; 1776; 1984; 2406; 2534; 2662; 2790; 2918; 3046; 3174; 3302;
    3430; 3558; 3664; 3792; 3872; 4160; 4240; 6112; 6160; 6470; 6608; 6784;
    6800; 6992; 7088; 7232; 7248; 42528; 43216; 43264; 43472; 43504; 43600;
    44016; 65296; 66720; 68912; 69734; 69872; 69942; 70096; 70384; 70736;
    70864; 71248; 71360; 71472; 71904; 72016; 72784; 73040; 73120; 92768;
    92864; 93008; 120782; 120792; 120802; 120812; 120822; 123200; 123632;
    125264; 130032 ].

(** [Py_UNICODE_ISDECIMAL(cp)]. *)
Definition is_decimal (cp : Z) : bool :=
  existsb (fun zero => (zero <=? cp) && (cp <? zero + 10)) decimal_digit_runs.

(** The greedy [\d*]: the number of decimal digits at the head of [s],
    added to [n], and the text after them.  Every digit takes at least one
    byte, so [fuel] need not exceed the length of [s]. *)
Fixpoint span_decimals (fuel : nat) (s : string) (n : Z) : Z * string :=
  match fuel with
  | O => (n, s)
  | S fuel' =>
      match utf8_head s with
      | Some (cp, r) =>
          if is_decimal cp then span_decimals fuel' r (n + 1) else (n, s)
      | None => (n, s)
      end
  end.

(** [re.match(r"^[A-Z]{2}\d{9,12}$", value)] succeeds: two capitals of
    ASCII, nine to twelve decimal digits, then the end of the string or
    one final line feed. *)
Definition matches_vat_id (value : string) : bool :=
  match value with
  | String a (String b r) =>
      if is_upper a && is_upper b then
        let '(n, rest) := span_decimals (String.length r) r 0 in
        (9 <=? n) && (n <=? 12)
        && (String.eqb rest "" || String.eqb rest (String "010" ""))
      else false
  | _ => false
  end.

(** [error_counts[error] += 1] on a [defaultdict(int)]: a dictionary keeps
    its keys in the order of their first insertion. *)
Fixpoint incr_count (error : string) (counts : list (string * Z))
  : list (string * Z) :=
  match counts with
  | [] => [(error, 1)]
  | (k, n) :: r =>
      if String.eqb k error then (k, n + 1) :: r
      else (k, n) :: incr_count error r
  end.

Section Validator.

(** The builtins and the environment the rules read:
    [float_repr] is [str.format] on a float as used in the f-strings,
    [float_sum] is the builtin [sum] on floats (its rounding depends on
    the interpreter version), [now_year] is [datetime.now().year]. *)
Variable float_repr : PyFloat.float -> string.
Variable float_sum : list PyFloat.float -> PyFloat.float.
Variable now_year : Z.

Definition CompletenessRule_validate (field_name : string) (invoice : Invoice)
  : option string :=
  let value := getattr_str invoice field_name in
  match value with
  | Some (String _ _ as v) =>
      match strip v with
      | EmptyString => Some ("missing_field: " ++ field_name)%string
      | _ => None
      end
  | _ => Some ("missing_field: " ++ field_name)%string
  end.

Definition DateFormatRule_validate (field_name : string) (invoice : Invoice)
  : option string :=
  let value := getattr_str invoice field_name in
  if negb (truthy value) then None
  else
    match value with
    | Some v =>
        match strptime v "%Y-%m-%d" with
        | Some dt =>
            if (year dt <? now_year - 50) || (year dt >? now_year + 10)
            then Some ("date_out_of_range: " ++ field_name)%string
            else None
        | None => Some ("invalid_date_format: " ++ field_name)%string
        end
    | None => None
    end.

Definition CurrencyRule_validate (invoice : Invoice) : option string :=
  if negb (truthy (currency invoice)) then None
  else
    match currency invoice with
    | Some c =>
        if negb (str_in (upper c) ALLOWED_CURRENCIES)
        then Some ("invalid_currency: " ++ c)%string
        else None
    | None => None
    end.

Definition AmountSignRule_validate (field_name : string) (invoice : Invoice)
  : option string :=
  match getattr_float invoice field_name with
  | Some value =>
      if PyFloat.ltb value PyFloat.zero
      then Some ("negative_amount: " ++ field_name)%string
      else None
  | None => None
  end.

Definition TotalConsistencyRule_validate (invoice : Invoice) : option string :=
  match net_total invoice, tax_amount invoice, gross_total invoice with
  | Some net, Some tax, Some gross =>
      let expected_gross := PyFloat.round2 (PyFloat.add net tax) in
      let actual_gross := PyFloat.round2 gross in
      if PyFloat.gtb (PyFloat.abs (PyFloat.sub expected_gross actual_gross))
                     PyFloat.lit_0_01
      then Some ("business_rule_failed: totals_mismatch "
                 ++ "(expected " ++ float_repr expected_gross
                 ++ ", got " ++ float_repr actual_gross ++ ")")%string
      else None
  | _, _, _ => None
  end.

Definition DueDateRule_validate (invoice : Invoice) : option string :=
  if truthy (invoice_date invoice) && truthy (due_date invoice) then
    match invoice_date invoice, due_date invoice with
    | Some i, Some d =>
        match strptime i "%Y-%m-%d" with
        | Some inv_date =>
            match strptime d "%Y-%m-%d" with
            | Some due =>
                if datetime_ltb due inv_date
                then Some "business_rule_failed: due_date_before_invoice_date"
                else None
            | None => None
            end
        | None => None
        end
    | _, _ => None
    end
  else None.

(** [item.line_total for item in items if item.line_total is not None]. *)
Fixpoint present_line_totals (items : list LineItem) : list PyFloat.float :=
  match items with
  | [] => []
  | item :: r =>
      match line_total item with
      | Some t => t :: present_line_totals r
      | None => present_line_totals r
      end
  end.

Definition LineItemsConsistencyRule_validate (invoice : Invoice)
  : option string :=
  match line_items invoice, net_total invoice with
  | _ :: _, Some net =>
      let items_sum := float_sum (present_line_totals (line_items invoice)) in
      if PyFloat.gtb items_sum PyFloat.zero
         && PyFloat.gtb (PyFloat.abs (PyFloat.sub items_sum net)) PyFloat.lit_0_01
      then Some ("business_rule_failed: line_items_sum_mismatch "
                 ++ "(items sum " ++ float_repr items_sum
                 ++ ", net total " ++ float_repr net ++ ")")%string
      else None
  | _, _ => None
  end.

Definition TaxIDFormatRule_validate (field_name : string) (invoice : Invoice)
  : option string :=
  let value := getattr_str invoice field_name in
  if negb (truthy value) then None
  else
    match value with
    | Some v =>
        if negb (matches_vat_id v)
        then Some ("invalid_tax_id_format: " ++ field_name)%string
        else None
    | None => None
    end.

Definition PartyNamesRule_validate (invoice : Invoice) : option string :=
  match seller_name invoice, buyer_name invoice with
  | Some s, Some b =>
      if truthy (Some s) && truthy (Some b)
         && String.eqb (strip (lower s)) (strip (lower b))
      then Some "business_rule_failed: seller_and_buyer_same"
      else None
  | _, _ => None
  end.

(** [rule.validate(invoice)]. *)
Definition validate (rule : ValidationRule) (invoice : Invoice)
  : option string :=
  match rule with
  | CompletenessRule f => CompletenessRule_validate f invoice
  | DateFormatRule f => DateFormatRule_validate f invoice
  | CurrencyRule => CurrencyRule_validate invoice
  | AmountSignRule f => AmountSignRule_validate f invoice
  | TotalConsistencyRule => TotalConsistencyRule_validate invoice
  | DueDateRule => DueDateRule_validate invoice
  | LineItemsConsistencyRule => LineItemsConsistencyRule_validate invoice
  | TaxIDFormatRule f => TaxIDFormatRule_validate f invoice
  | PartyNamesRule => PartyNamesRule_validate invoice
  end.

(** What one rule contributes to the error list. *)
Definition rule_errors (invoice : Invoice) (rule : ValidationRule)
  : list string :=
  match validate rule invoice with
  | Some (String c r) => [String c r]
  | _ => []
  end.

(** [InvoiceValidator.__init__]: the rule list of the validator. *)
Definition rules : list ValidationRule :=
  [ CompletenessRule "invoice_number";
    CompletenessRule "invoice_date";
    CompletenessRule "seller_name";
    CompletenessRule "buyer_name";
    DateFormatRule "invoice_date";
    DateFormatRule "due_date";
    CurrencyRule;
    AmountSignRule "net_total";
    AmountSignRule "tax_amount";
    AmountSignRule "gross_total";
    TotalConsistencyRule;
    DueDateRule;
    LineItemsConsistencyRule;
    PartyNamesRule ].

(** The loop of [validate_invoice]: a rule's message is appended when it
    is truthy. *)
Fixpoint collect_errors (rs : list ValidationRule) (invoice : Invoice)
         (errors : list string) : list string :=
  match rs with
  | [] => errors
  | rule :: rs' =>
      let error := validate rule invoice in
      collect_errors rs' invoice
        (if truthy error
         then match error with Some e => (errors ++ [e])%list | None => errors end
         else errors)
  end.

Definition validate_invoice (invoice : Invoice) : ValidationResult :=
  let errors := collect_errors rules invoice [] in
  let invoice_id :=
    if truthy (invoice_number invoice)
    then match invoice_number invoice with Some n => n | None => "UNKNOWN" end
    else "UNKNOWN" in
  mk_ValidationResult invoice_id (Z.of_nat (List.length errors) =? 0) errors.

(** The loop of [validate_invoices] over the pair
    [(results, error_counts)]. *)
Definition validate_step (st : list ValidationResult * list (string * Z))
           (invoice : Invoice) : list ValidationResult * list (string * Z) :=
  let result := validate_invoice invoice in
  ((fst st ++ [result])%list,
   fold_left (fun counts error => incr_count error counts)
             (errors result) (snd st)).

Definition validate_invoices (invoices : list Invoice) : ValidationSummary :=
  let '(results, error_counts) := fold_left validate_step invoices ([], []) in
  let valid_count :=
    fold_left (fun n r => if is_valid r then n + 1 else n) results 0 in
  let invalid_count := Z.of_nat (List.length results) - valid_count in
  mk_ValidationSummary (Z.of_nat (List.length invoices))
                       valid_count invalid_count error_counts results.

End Validator.

(** ** [api.py]: the endpoints [/validate-json] and
    [/extract-and-validate-pdfs] *)

Module Api.

Record LineItemModel : Set := mk_LineItemModel {
  description : option string;
  quantity : option PyFloat.float;
  unit_price : option PyFloat.float;
  line_total : option PyFloat.float
}.

Record InvoiceModel : Set := mk_InvoiceModel {
  invoice_number : option string;
  external_reference : option string;
  invoice_date : option string;
  due_date : option string;
  seller_name : option string;
  seller_address : option string;
  seller_tax_id : option string;
  buyer_name : option string;
  buyer_address : option string;
  buyer_tax_id : option string;
  currency : option string;
  net_total : option PyFloat.float;
  tax_amount : option PyFloat.float;
  gross_total : option PyFloat.float;
  tax_rate : option PyFloat.float;
  line_items : list LineItemModel
}.

Record HTTPException : Set := mk_HTTPException {
  status_code : Z;
  detail : string
}.

Definition to_LineItem (item : LineItemModel) : LineItem :=
  mk_LineItem (description item) (quantity item) (unit_price item)
              (line_total item).

Definition to_Invoice (inv_model : InvoiceModel) : Invoice :=
  mk_Invoice (invoice_number inv_model) (external_reference inv_model)
             (invoice_date inv_model) (due_date inv_model)
             (seller_name inv_model) (seller_address inv_model)
             (seller_tax_id inv_model) (buyer_name inv_model)
             (buyer_address inv_model) (buyer_tax_id inv_model)
             (currency inv_model) (net_total inv_model)
             (tax_amount inv_model) (gross_total inv_model)
             (tax_rate inv_model)
             (map to_LineItem (line_items inv_model)).

(** [validate_json]: [inl] is the raised [HTTPException], [inr] the
    summary that is returned. *)
Definition validate_json (float_repr : PyFloat.float -> string)
           (float_sum : list PyFloat.float -> PyFloat.float) (now_year : Z)
           (invoices : list InvoiceModel)
  : HTTPException + ValidationSummary :=
  match invoices with
  | [] => inl (mk_HTTPException 400 "Empty invoice list")
  | _ =>
      inr (validate_invoices float_repr float_sum now_year
                             (map to_Invoice invoices))
  end.

(** An uploaded file: its name and its bytes. *)
Record UploadFile : Set := mk_UploadFile {
  filename : string;
  content : string
}.

(** [extract_and_validate_pdfs]: [extract_from_folder] stands for saving
    the uploaded files in the temporary directory and running the PDF
    extractor on it.  [inl] is the raised [HTTPException]; [inr] is the
    response, the extracted invoices with the summary. *)
Definition extract_and_validate_pdfs (float_repr : PyFloat.float -> string)
           (float_sum : list PyFloat.float -> PyFloat.float) (now_year : Z)
           (extract_from_folder : list UploadFile -> list Invoice)
           (files : list UploadFile)
  : HTTPException + (list Invoice * ValidationSummary) :=
  match files with
  | [] => inl (mk_HTTPException 400 "No PDF files provided")
  | _ =>
      if forallb (fun file => endswith ".pdf" (lower (filename file))) files
      then
        match extract_from_folder files with
        | [] => inl (mk_HTTPException 400 "No invoices extracted from PDFs")
        | invoices =>
            inr (invoices,
                 validate_invoices float_repr float_sum now_year invoices)
        end
      else inl (mk_HTTPException 400 "Only PDF files are allowed")
  end.

End Api.

(** ** The separator policy of the amount parser, as the specification
    words it *)

(** The separator, [","] or ["."], that appears last in the string. *)
Fixpoint last_separator (s : string) : option ascii :=
  match s with
  | EmptyString => None
  | String c r =>
      match last_separator r with
      | Some d => Some d
      | None => if Ascii.eqb c "," || Ascii.eqb c "." then Some c else None
      end
  end.

Definition other_separator (d : ascii) : ascii :=
  if Ascii.eqb d "," then "."%char else ","%char.

(** The separator that appears last is the decimal separator: every
    occurrence of the other separator is stripped, then the decimal
    separator is replaced by a dot. *)
Definition decimal_by_last_separator (s : string) : string :=
  match last_separator s with
  | Some d => replace d "." (replace (other_separator d) "" s)
  | None => s
  end.

(** The directives of the format [%Y-%m-%d]. *)
Definition iso_directives : list directive :=
  [dir_Y; dir_lit "-"; dir_m; dir_lit "-"; dir_d].

(** [b] is strictly before [a], field by field. *)
Definition strictly_before (b a : datetime) : Prop :=
  year b < year a
  \/ (year b = year a
      /\ (month b < month a \/ (month b = month a /\ day b < day a))).

(** ** Invoices used in the statements below *)

(** An invoice with the three totals set and nothing else. *)
Definition invoice_with_totals (net tax gross : PyFloat.float) : Invoice :=
  mk_Invoice None None None None None None None None None None None
             (Some net) (Some tax) (Some gross) None [].

(** The floats [100.00], [20.00], [120.00], [120.01] and [120.02]. *)
Definition f100 : PyFloat.float := PyFloat.of_Z 100.
Definition f20 : PyFloat.float := PyFloat.of_Z 20.
Definition f120 : PyFloat.float := PyFloat.of_Z 120.
Definition f120_01 : PyFloat.float := PyFloat.of_decimal false 12001 (-2).
Definition f120_02 : PyFloat.float := PyFloat.of_decimal false 12002 (-2).

(** The invoice of the end-to-end example. *)
Definition invoice_INV_1 : Invoice :=
  mk_Invoice (Some "INV-1") None (Some "2024-01-10") (Some "2024-01-05")
             (Some "Acme") None None (Some "Acme") None None None
             None None None None [].

(** An invoice whose number is present and empty. *)
Definition invoice_empty_number : Invoice :=
  mk_Invoice (Some "") None None None None None None None None None None
             None None None None [].

(** An invoice whose seller tax id is not a VAT id. *)
Definition invoice_bad_tax_id : Invoice :=
  mk_Invoice (Some "INV-2") None None None None None (Some "12345") None
             None None None None None None None [].

(** The message of [TotalConsistencyRule]. *)
Definition totals_mismatch_message (float_repr : PyFloat.float -> string)
           (expected_gross actual_gross : PyFloat.float) : string :=
  ("business_rule_failed: totals_mismatch "
   ++ "(expected " ++ float_repr expected_gross
   ++ ", got " ++ float_repr actual_gross ++ ")")%string.

(** ** More of the program: dictionaries, the currency extractor, the
    command line and the JSON interchange *)

(** [counts.get(error, 0)] on the dictionary of error counts. *)
Fixpoint get_count (error : string) (counts : list (string * Z)) : Z :=
  match counts with
  | [] => 0
  | (k, n) :: r => if String.eqb k error then n else get_count error r
  end.

(** The sum of the values of the dictionary of error counts. *)
Definition sum_counts (counts : list (string * Z)) : Z :=
  fold_right (fun kv acc => snd kv + acc) 0 counts.

(** The position, in the rule list of the validator, of the rule that
    words a message this way; 14 when no rule does. *)
Definition rule_family (e : string) : nat :=
  if startswith "missing_field: invoice_number" e then 0
  else if startswith "missing_field: invoice_date" e then 1
  else if startswith "missing_field: seller_name" e then 2
  else if startswith "missing_field: buyer_name" e then 3
  else if startswith "date_out_of_range: invoice_date" e
          || startswith "invalid_date_format: invoice_date" e then 4
  else if startswith "date_out_of_range: due_date" e
          || startswith "invalid_date_format: due_date" e then 5
  else if startswith "invalid_currency: " e then 6
  else if startswith "negative_amount: net_total" e then 7
  else if startswith "negative_amount: tax_amount" e then 8
  else if startswith "negative_amount: gross_total" e then 9
  else if startswith "business_rule_failed: totals_mismatch " e then 10
  else if startswith "business_rule_failed: due_date_before_invoice_date" e
       then 11
  else if startswith "business_rule_failed: line_items_sum_mismatch " e
       then 12
  else if startswith "business_rule_failed: seller_and_buyer_same" e then 13
  else 14.

(** An invoice whose date is a single space. *)
Definition invoice_blank_date : Invoice :=
  mk_Invoice (Some "INV-3") None (Some " ") None (Some "Acme") None None
             (Some "Bolt") None None None None None None None [].

(** An invoice that passes every rule in 2024. *)
Definition invoice_INV_9 : Invoice :=
  mk_Invoice (Some "INV-9") None (Some "2024-01-10") (Some "2024-02-09")
             (Some "Acme") None None (Some "Bolt") None None (Some "eur")
             (Some f100) (Some f20) (Some f120) None [].

(** A float that compares below zero: a negative infinity or a negative
    finite number.  A NaN and the negative zero do not. *)
Definition below_zero (x : PyFloat.float) : bool :=
  match x with
  | S754_infinity true => true
  | S754_finite true _ _ => true
  | _ => false
  end.

(** [s.count(c)] for a one-character string [c]. *)
Fixpoint count_char (c : ascii) (s : string) : nat :=
  match s with
  | EmptyString => 0%nat
  | String a r => ((if Ascii.eqb a c then 1 else 0) + count_char c r)%nat
  end.

(** The text made of the characters with the code points [cps]. *)
Fixpoint utf8_text (cps : list Z) : string :=
  match cps with
  | [] => EmptyString
  | cp :: r => (utf8 cp ++ utf8_text r)%string
  end.

(** An invoice with the two party names and nothing else. *)
Definition invoice_with_parties (seller buyer : option string) : Invoice :=
  mk_Invoice None None None None seller None None buyer None None None
             None None None None [].

(** A posted invoice model with a number and nothing else. *)
Definition model_with_number (n : option string) : Api.InvoiceModel :=
  Api.mk_InvoiceModel n None None None None None None None None None None
                      None None None None [].

(** *** [InvoiceExtractor._extract_currency] *)

(** [re.search(p, text)] succeeds for a pattern [p] without special
    characters: [p] occurs somewhere in [text]. *)
Fixpoint occurs (p text : string) : bool :=
  startswith p text
  || match text with
     | EmptyString => false
     | String _ r => occurs p r
     end.

(** The table of [_extract_currency], in its order: each code with the
    alternatives of its pattern.  The currency signs are the bytes of their
    UTF-8 encoding; none of them occurs in an ASCII text. *)
Definition currencies : list (string * list string) :=
  [ ("EUR", ["EUR"; "€"]);
    ("USD", ["USD"; "$"]);
    ("GBP", ["GBP"; "£"]);
    ("INR", ["INR"; "₹"]);
    ("CHF", ["CHF"]);
    ("JPY", ["JPY"; "¥"]) ].

Definition _extract_currency (text : string) : option string :=
  first_some
    (fun entry : string * list string =>
       if existsb (fun p => occurs p text) (snd entry)
       then Some (fst entry) else None)
    currencies.

(** An invoice with a currency and nothing else. *)
Definition invoice_with_currency (c : option string) : Invoice :=
  mk_Invoice None None None None None None None None None None c
             None None None None [].

(** *** [cli.py]: the exit status of the commands

    The file system and the loading of the invoices are inputs: whether the
    path given on the command line exists, and the invoices read from it.
    A command that returns ends the process with status 0. *)

Module Cli.

Definition exit_status (float_repr : PyFloat.float -> string)
           (float_sum : list PyFloat.float -> PyFloat.float) (now_year : Z)
           (path_exists : bool) (invoices : list Invoice) : Z :=
  if negb path_exists then 1
  else
    let summary := validate_invoices float_repr float_sum now_year invoices in
    if invalid_invoices summary >? 0 then 1 else 0.

(** [cmd_validate]: [invoices] is what [load_invoices_from_json] read. *)
Definition cmd_validate := exit_status.

(** [cmd_full_run]: [invoices] is what [extract_invoices] produced. *)
Definition cmd_full_run := exit_status.

End Cli.

(** *** The interchange format: [Invoice.to_dict] and
    [load_invoices_from_json]

    A value read by [json.load] or built by [to_dict].  A dictionary is the
    list of its items in insertion order. *)

#[warnings="-register-all"]
Inductive pyval : Set :=
| VNone
| VBool (b : bool)
| VInt (n : Z)
| VFloat (x : PyFloat.float)
| VStr (s : string)
| VList (l : list pyval)
| VDict (d : list (string * pyval)).

(** The dataclasses as Python has them, with fields of any value: the
    constructors check no type. *)
Record RawLineItem : Set := mk_RawLineItem {
  raw_description : pyval;
  raw_quantity : pyval;
  raw_unit_price : pyval;
  raw_line_total : pyval
}.

Record RawInvoice : Set := mk_RawInvoice {
  raw_invoice_number : pyval;
  raw_external_reference : pyval;
  raw_invoice_date : pyval;
  raw_due_date : pyval;
  raw_seller_name : pyval;
  raw_seller_address : pyval;
  raw_seller_tax_id : pyval;
  raw_buyer_name : pyval;
  raw_buyer_address : pyval;
  raw_buyer_tax_id : pyval;
  raw_currency : pyval;
  raw_net_total : pyval;
  raw_tax_amount : pyval;
  raw_gross_total : pyval;
  raw_tax_rate : pyval;
  raw_line_items : list RawLineItem
}.

Definition of_opt_str (v : option string) : pyval :=
  match v with
  | Some s => VStr s
  | None => VNone
  end.

Definition of_opt_float (v : option PyFloat.float) : pyval :=
  match v with
  | Some x => VFloat x
  | None => VNone
  end.

(** A typed line item and a typed invoice, as Python objects. *)
Definition raw_of_LineItem (item : LineItem) : RawLineItem :=
  mk_RawLineItem (of_opt_str (description item)) (of_opt_float (quantity item))
                 (of_opt_float (unit_price item))
                 (of_opt_float (line_total item)).

Definition raw_of_Invoice (invoice : Invoice) : RawInvoice :=
  mk_RawInvoice
    (of_opt_str (invoice_number invoice))
    (of_opt_str (external_reference invoice))
    (of_opt_str (invoice_date invoice))
    (of_opt_str (due_date invoice))
    (of_opt_str (seller_name invoice))
    (of_opt_str (seller_address invoice))
    (of_opt_str (seller_tax_id invoice))
    (of_opt_str (buyer_name invoice))
    (of_opt_str (buyer_address invoice))
    (of_opt_str (buyer_tax_id invoice))
    (of_opt_str (currency invoice))
    (of_opt_float (net_total invoice))
    (of_opt_float (tax_amount invoice))
    (of_opt_float (gross_total invoice))
    (of_opt_float (tax_rate invoice))
    (map raw_of_LineItem (line_items invoice)).

(** The dictionary of one line item in [Invoice.to_dict]. *)
Definition LineItem_to_dict (item : LineItem) : list (string * pyval) :=
  [ ("description", of_opt_str (description item));
    ("quantity", of_opt_float (quantity item));
    ("unit_price", of_opt_float (unit_price item));
    ("line_total", of_opt_float (line_total item)) ].

(** [Invoice.to_dict]. *)
Definition to_dict (invoice : Invoice) : list (string * pyval) :=
  [ ("invoice_number", of_opt_str (invoice_number invoice));
    ("external_reference", of_opt_str (external_reference invoice));
    ("invoice_date", of_opt_str (invoice_date invoice));
    ("due_date", of_opt_str (due_date invoice));
    ("seller_name", of_opt_str (seller_name invoice));
    ("seller_address", of_opt_str (seller_address invoice));
    ("seller_tax_id", of_opt_str (seller_tax_id invoice));
    ("buyer_name", of_opt_str (buyer_name invoice));
    ("buyer_address", of_opt_str (buyer_address invoice));
    ("buyer_tax_id", of_opt_str (buyer_tax_id invoice));
    ("currency", of_opt_str (currency invoice));
    ("net_total", of_opt_float (net_total invoice));
    ("tax_amount", of_opt_float (tax_amount invoice));
    ("gross_total", of_opt_float (gross_total invoice));
    ("tax_rate", of_opt_float (tax_rate invoice));
    ("line_items",
     VList (map (fun item => VDict (LineItem_to_dict item))
                (line_items invoice))) ].

(** [d.get(key)] on a dictionary. *)
Fixpoint dict_get (key : string) (d : list (string * pyval)) : option pyval :=
  match d with
  | [] => None
  | (k, v) :: r => if String.eqb k key then Some v else dict_get key r
  end.

(** The value of a keyword argument, or the default [None] of the field. *)
Definition kwarg (key : string) (d : list (string * pyval)) : pyval :=
  match dict_get key d with
  | Some v => v
  | None => VNone
  end.

Definition LineItem_fields : list string :=
  ["description"; "quantity"; "unit_price"; "line_total"].

Definition Invoice_fields : list string :=
  ["invoice_number"; "external_reference"; "invoice_date"; "due_date";
   "seller_name"; "seller_address"; "seller_tax_id"; "buyer_name";
   "buyer_address"; "buyer_tax_id"; "currency"; "net_total"; "tax_amount";
   "gross_total"; "tax_rate"; "line_items"].

(** Every key of the dictionary is the name of a field. *)
Definition keys_among (fields : list string) (d : list (string * pyval))
  : bool :=
  forallb (fun kv => str_in (fst kv) fields) d.

(** [LineItem] called with the items of [item_dict] as keyword arguments:
    [None] is the [TypeError] raised for a value that is not a dictionary
    or for a key that is not a field. *)
Definition LineItem_of_kwargs (item_dict : pyval) : option RawLineItem :=
  match item_dict with
  | VDict d =>
      if keys_among LineItem_fields d
      then Some (mk_RawLineItem (kwarg "description" d) (kwarg "quantity" d)
                                (kwarg "unit_price" d) (kwarg "line_total" d))
      else None
  | _ => None
  end.

(** The elements a [for] loop or a comprehension draws from a value:
    [None] is the [TypeError] of a value that is not iterable.  A
    dictionary yields its keys and a string its characters. *)
Fixpoint chars (s : string) : list pyval :=
  match s with
  | EmptyString => []
  | String c r => VStr (String c EmptyString) :: chars r
  end.

Definition iterate (v : pyval) : option (list pyval) :=
  match v with
  | VList l => Some l
  | VDict d => Some (map (fun kv => VStr (fst kv)) d)
  | VStr s => Some (chars s)
  | _ => None
  end.

(** [[f(x) for x in l]] where [f] may raise. *)
Fixpoint map_or_raise {A B : Type} (f : A -> option B) (l : list A)
  : option (list B) :=
  match l with
  | [] => Some []
  | x :: r =>
      match f x with
      | None => None
      | Some y =>
          match map_or_raise f r with
          | None => None
          | Some ys => Some (y :: ys)
          end
      end
  end.

(** The body of the loop of [load_invoices_from_json] on one element of
    the data; [None] is the [TypeError] that ends the loading. *)
Definition load_invoice (raw_invoice_data : pyval) : option RawInvoice :=
  match raw_invoice_data with
  | VDict d =>
      match
        match dict_get "line_items" d with
        | Some raw_items =>
            match iterate raw_items with
            | Some items => map_or_raise LineItem_of_kwargs items
            | None => None
            end
        | None => Some []
        end
      with
      | None => None
      | Some line_item_objects =>
          if keys_among Invoice_fields d
          then Some (mk_RawInvoice
                       (kwarg "invoice_number" d)
                       (kwarg "external_reference" d)
                       (kwarg "invoice_date" d) (kwarg "due_date" d)
                       (kwarg "seller_name" d) (kwarg "seller_address" d)
                       (kwarg "seller_tax_id" d) (kwarg "buyer_name" d)
                       (kwarg "buyer_address" d) (kwarg "buyer_tax_id" d)
                       (kwarg "currency" d) (kwarg "net_total" d)
                       (kwarg "tax_amount" d) (kwarg "gross_total" d)
                       (kwarg "tax_rate" d) line_item_objects)
          else None
      end
  | _ => None
  end.

(** [load_invoices_from_json] on the value that [json.load] returned. *)
Definition load_invoices (data : pyval) : option (list RawInvoice) :=
  match iterate data with
  | Some elements => map_or_raise load_invoice elements
  | None => None
  end.

(** The value that [save_invoices_to_json] hands to [json.dump]. *)
Definition save_invoices (invoices : list Invoice) : pyval :=
  VList (map (fun inv => VDict (to_dict inv)) invoices).

(** * Properties *)

(** ** Strings *)

Lemma contains_app (c : ascii) (a b : string) :
  contains c (a ++ b) = contains c a || contains c b.
Proof.
  induction a as [|x a IH]; simpl; [reflexivity|].
  rewrite IH. now rewrite orb_assoc.
Qed.

Lemma contains_lstrip (c : ascii) (s : string) :
  is_space c = false -> contains c (lstrip s) = contains c s.
Proof.
  intros Hc. induction s as [|x s IH]; simpl; [reflexivity|].
  destruct (is_space x) eqn:Hx; simpl; [|reflexivity].
  destruct (Ascii.eqb_spec x c) as [->|_]; [congruence|]. exact IH.
Qed.

Lemma contains_rstrip (c : ascii) (s : string) :
  is_space c = false -> contains c (rstrip s) = contains c s.
Proof.
  intros Hc. induction s as [|x s IH]; simpl; [reflexivity|].
  destruct (rstrip s) as [|y r] eqn:Hr.
  - simpl in IH. rewrite <- IH.
    destruct (is_space x) eqn:Hx; simpl.
    + destruct (Ascii.eqb_spec x c) as [->|_]; [congruence|reflexivity].
    + reflexivity.
  - simpl. simpl in IH. now rewrite IH.
Qed.

Lemma contains_strip (c : ascii) (s : string) :
  is_space c = false -> contains c (strip s) = contains c s.
Proof.
  intros Hc. unfold strip.
  now rewrite contains_rstrip, contains_lstrip.
Qed.

Lemma len_app (a b : string) : len (a ++ b) = len a + len b.
Proof.
  unfold len. induction a as [|x a IH]; cbn [String.length append].
  - reflexivity.
  - rewrite !Nat2Z.inj_succ. lia.
Qed.

Lemma append_assoc (a b c : string) :
  (a ++ (b ++ c) = (a ++ b) ++ c)%string.
Proof.
  induction a as [|x a IH]; simpl; [reflexivity|]. now rewrite IH.
Qed.

Lemma replace_app (c : ascii) (new a b : string) :
  replace c new (a ++ b) = (replace c new a ++ replace c new b)%string.
Proof.
  induction a as [|x a IH]; simpl; [reflexivity|].
  rewrite IH. destruct (Ascii.eqb x c); simpl; [|reflexivity].
  apply append_assoc.
Qed.

Lemma replace_absent (c : ascii) (new s : string) :
  contains c s = false -> replace c new s = s.
Proof.
  induction s as [|x s IH]; simpl; [reflexivity|].
  intros H. apply orb_false_iff in H as [Hx Hs].
  rewrite Hx. now rewrite IH.
Qed.

Lemma replace_self (c : ascii) (s : string) :
  replace c (String c EmptyString) s = s.
Proof.
  induction s as [|x s IH]; simpl; [reflexivity|].
  destruct (Ascii.eqb_spec x c) as [->|_]; simpl; now rewrite IH.
Qed.

Lemma rfind_from_absent (c : ascii) (s : string) (i f : Z) :
  contains c s = false -> rfind_from c s i f = f.
Proof.
  revert i f. induction s as [|x s IH]; simpl; intros i f H; [reflexivity|].
  apply orb_false_iff in H as [Hx Hs]. rewrite Hx. now apply IH.
Qed.

(** [rfind] of a string cut at its last occurrence of [c]. *)
Lemma rfind_from_last (c : ascii) (a b : string) (i f : Z) :
  contains c b = false ->
  rfind_from c (a ++ String c b) i f = i + len a.
Proof.
  intros Hb. revert i f. induction a as [|x a IH]; intros i f; simpl.
  - rewrite Ascii.eqb_refl. rewrite rfind_from_absent by assumption.
    unfold len. simpl. lia.
  - rewrite IH. unfold len. cbn [String.length].
    rewrite Nat2Z.inj_succ. lia.
Qed.

Lemma last_separator_none (s : string) :
  last_separator s = None ->
  contains "," s = false /\ contains "." s = false.
Proof.
  induction s as [|x s IH]; simpl; [auto|].
  destruct (last_separator s) as [d|]; [discriminate|].
  destruct (IH eq_refl) as [H1 H2]. rewrite H1, H2.
  destruct (Ascii.eqb x ","), (Ascii.eqb x "."); simpl; intros H;
    try discriminate; auto.
Qed.

Lemma last_separator_some (s : string) (d : ascii) :
  last_separator s = Some d -> d = ","%char \/ d = "."%char.
Proof.
  revert d. induction s as [|x s IH]; simpl; intros d; [discriminate|].
  destruct (last_separator s) as [e|].
  - intros [= <-]. now apply IH.
  - destruct (Ascii.eqb_spec x ",") as [->|_]; simpl.
    + intros [= <-]. now left.
    + destruct (Ascii.eqb_spec x ".") as [->|_]; [|discriminate].
      intros [= <-]. now right.
Qed.

(** Comparing the last comma with the last dot by position decides which
    separator comes last. *)
Lemma rfind_from_compare (s : string) (i fc fd : Z) :
  fc < i -> fd < i ->
  (rfind_from "," s i fc >? rfind_from "." s i fd)
  = match last_separator s with
    | Some d => Ascii.eqb d ","
    | None => fc >? fd
    end.
Proof.
  revert i fc fd. induction s as [|x s IH]; intros i fc fd Hc Hd; simpl.
  - reflexivity.
  - destruct (last_separator s) as [d|] eqn:Hl.
    + rewrite IH.
      * reflexivity.
      * destruct (Ascii.eqb x ","); lia.
      * destruct (Ascii.eqb x "."); lia.
    + destruct (last_separator_none s Hl) as [H1 H2].
      rewrite !rfind_from_absent by assumption.
      destruct (Ascii.eqb_spec x ",") as [->|Hx]; simpl.
      * apply Z.gtb_lt. lia.
      * destruct (Ascii.eqb_spec x ".") as [->|_]; [|reflexivity].
        simpl. destruct (fc >? i) eqn:E; [|reflexivity].
        apply Z.gtb_lt in E. lia.
Qed.

(** ** The amount parser *)

Lemma comma_not_space : is_space "," = false.
Proof. reflexivity. Qed.

Lemma dot_not_space : is_space "." = false.
Proof. reflexivity. Qed.

(** The branch of [_parse_amount] for a string with both separators. *)
Lemma parse_amount_both (s : string) :
  contains "," (strip s) = true -> contains "." (strip s) = true ->
  _parse_amount s =
  py_float (if rfind "," (strip s) >? rfind "." (strip s)
            then replace "," "." (replace "." "" (strip s))
            else replace "," "" (strip s)).
Proof.
  intros Hc Hd. unfold _parse_amount. rewrite Hc, Hd. simpl.
  now destruct (rfind "," (strip s) >? rfind "." (strip s)).
Qed.

(** The branch of [_parse_amount] for a string with commas and no dot. *)
Lemma parse_amount_commas (s : string) :
  contains "," (strip s) = true -> contains "." (strip s) = false ->
  _parse_amount s =
  py_float (if (rfind "," (strip s) >? 0)
               && (len (strip s) - rfind "," (strip s) =? 3)
            then replace "," "." (strip s)
            else replace "," "" (strip s)).
Proof.
  intros Hc Hd. unfold _parse_amount. rewrite Hc, Hd. simpl.
  now destruct ((rfind "," (strip s) >? 0)
                && (len (strip s) - rfind "," (strip s) =? 3)).
Qed.

(** C2: for every string that contains both [","] and ["."],
    [_parse_amount] takes the separator that occurs last as the decimal
    separator, strips every occurrence of the other one and converts the
    result with [float]; ["1.234,56"] and ["1,234.56"] both give the
    float [1234.56]. *)
Theorem parse_amount_last_separator_is_decimal :
  (forall s : string,
      contains "," s = true -> contains "." s = true ->
      _parse_amount s = py_float (decimal_by_last_separator (strip s)))
  /\ _parse_amount "1.234,56" = Some (PyFloat.of_decimal false 123456 (-2))
  /\ _parse_amount "1,234.56" = Some (PyFloat.of_decimal false 123456 (-2)).
Proof.
  split; [|split; vm_compute; reflexivity].
  intros s Hc Hd.
  rewrite <- (contains_strip "," s comma_not_space) in Hc.
  rewrite <- (contains_strip "." s dot_not_space) in Hd.
  rewrite (parse_amount_both s Hc Hd).
  unfold decimal_by_last_separator, rfind.
  rewrite (rfind_from_compare (strip s) 0 (-1) (-1)) by lia.
  destruct (last_separator (strip s)) as [d|] eqn:Hl.
  - destruct (last_separator_some _ _ Hl) as [-> | ->]; simpl.
    + reflexivity.
    + now rewrite replace_self.
  - destruct (last_separator_none _ Hl) as [H _]. congruence.
Qed.

Lemma parse_amount_last_separator_is_decimal_witness :
  (contains "," "1.234,56" = true /\ contains "." "1.234,56" = true)
  /\ _parse_amount "1.234,56"
     = py_float (decimal_by_last_separator (strip "1.234,56")).
Proof.
  split; [split; reflexivity|].
  apply (proj1 parse_amount_last_separator_is_decimal); reflexivity.
Defined.

(** C1 (as stated): ["1,234"] is not read as [1.234]; the parser gives
    [1234.0]. *)
Lemma parse_amount_1_comma_234 :
  _parse_amount "1,234" = Some (PyFloat.of_Z 1234)
  /\ _parse_amount "1,234" <> Some (PyFloat.of_decimal false 1234 (-3)).
Proof.
  split; [vm_compute; reflexivity|].
  vm_compute. discriminate.
Qed.

(** C1 (amended): in a string with a comma and no dot, cut at its last
    comma as [a ++ "," ++ b], the comma is the decimal separator exactly
    when [a] is not empty and [b] has two characters; every comma is then
    replaced by a dot.  Otherwise all commas are stripped.  So ["1,234"]
    gives [1234.0] and ["1234,56"] gives [1234.56]. *)
Theorem parse_amount_comma_only :
  (forall s a b : string,
      strip s = (a ++ "," ++ b)%string ->
      contains "," b = false ->
      contains "." a = false -> contains "." b = false ->
      _parse_amount s =
      if negb (String.eqb a "") && (len b =? 2)
      then py_float (replace "," "." a ++ "." ++ b)
      else py_float (replace "," "" a ++ b))
  /\ _parse_amount "1,234" = Some (PyFloat.of_Z 1234)
  /\ _parse_amount "1234,56" = Some (PyFloat.of_decimal false 123456 (-2)).
Proof.
  split; [|split; vm_compute; reflexivity].
  intros s a b Hs Hb Hda Hdb.
  assert (Hc : contains "," (strip s) = true).
  { rewrite Hs, contains_app. simpl. apply orb_true_r. }
  assert (Hd : contains "." (strip s) = false).
  { rewrite Hs, contains_app, Hda. simpl. exact Hdb. }
  rewrite (parse_amount_commas s Hc Hd), Hs.
  unfold rfind. change ("," ++ b)%string with (String "," b).
  rewrite rfind_from_last by assumption.
  rewrite len_app, !replace_app.
  change (len (String "," b)) with (Z.of_nat (S (String.length b))).
  rewrite Nat2Z.inj_succ. fold (len b).
  simpl replace.
  rewrite (replace_absent "," "." b Hb), (replace_absent "," "" b Hb).
  assert (Ha : (0 + len a >? 0) = negb (String.eqb a "")).
  { destruct a as [|x a]; [reflexivity|].
    unfold len. cbn [String.length]. rewrite Nat2Z.inj_succ.
    simpl. apply Z.gtb_lt. lia. }
  rewrite Ha.
  replace (len a + Z.succ (len b) - (0 + len a) =? 3) with (len b =? 2).
  - destruct (negb (String.eqb a "") && (len b =? 2)); reflexivity.
  - destruct (Z.eqb_spec (len b) 2), (Z.eqb_spec (len a + Z.succ (len b) - (0 + len a)) 3);
      try reflexivity; lia.
Qed.

Lemma parse_amount_comma_only_witness :
  (strip "12,50" = ("12" ++ "," ++ "50")%string
   /\ contains "," "50" = false
   /\ contains "." "12" = false /\ contains "." "50" = false)
  /\ _parse_amount "12,50" = py_float "12.50".
Proof.
  split; [repeat split; reflexivity|].
  apply (proj1 parse_amount_comma_only "12,50" "12" "50"); reflexivity.
Defined.

(** ** The validator *)

Section ValidatorProperties.

Variable float_repr : PyFloat.float -> string.
Variable float_sum : list PyFloat.float -> PyFloat.float.
Variable now_year : Z.

Lemma collect_errors_flat_map (rs : list ValidationRule) (invoice : Invoice)
      (acc : list string) :
  collect_errors float_repr float_sum now_year rs invoice acc
  = (acc ++ flat_map (rule_errors float_repr float_sum now_year invoice) rs)%list.
Proof.
  revert acc. induction rs as [|r rs IH]; intros acc; simpl.
  - now rewrite app_nil_r.
  - rewrite IH. unfold rule_errors at 2.
    destruct (validate float_repr float_sum now_year r invoice) as [[|c e]|]; simpl;
      try reflexivity.
    now rewrite <- app_assoc.
Qed.

Lemma errors_flat_map (invoice : Invoice) :
  errors (validate_invoice float_repr float_sum now_year invoice)
  = flat_map (rule_errors float_repr float_sum now_year invoice) rules.
Proof.
  unfold validate_invoice. cbn [errors].
  now rewrite collect_errors_flat_map.
Qed.

(** Every reported error is the message of one of the active rules. *)
Lemma in_errors_inv (invoice : Invoice) (e : string) :
  In e (errors (validate_invoice float_repr float_sum now_year invoice)) ->
  exists rule, In rule rules /\ validate float_repr float_sum now_year rule invoice = Some e.
Proof.
  rewrite errors_flat_map. intros H.
  apply in_flat_map in H as [rule [Hr He]].
  exists rule. split; [assumption|].
  unfold rule_errors in He.
  destruct (validate float_repr float_sum now_year rule invoice) as [[|c r]|]; simpl in He;
    try contradiction.
  destruct He as [<-|[]]. reflexivity.
Qed.

(** A non-empty message of an active rule is reported. *)
Lemma in_errors_intro (invoice : Invoice) (rule : ValidationRule)
      (c : ascii) (e : string) :
  In rule rules -> validate float_repr float_sum now_year rule invoice = Some (String c e) ->
  In (String c e) (errors (validate_invoice float_repr float_sum now_year invoice)).
Proof.
  intros Hr He. rewrite errors_flat_map. apply in_flat_map.
  exists rule. split; [assumption|].
  unfold rule_errors. rewrite He. now left.
Qed.

Lemma is_valid_errors (invoice : Invoice) :
  is_valid (validate_invoice float_repr float_sum now_year invoice)
  = match errors (validate_invoice float_repr float_sum now_year invoice) with
    | [] => true
    | _ => false
    end.
Proof.
  unfold validate_invoice. cbn [is_valid errors].
  destruct (collect_errors float_repr float_sum now_year rules invoice []); [reflexivity|].
  cbn [List.length]. rewrite Nat2Z.inj_succ.
  apply Z.eqb_neq. lia.
Qed.

(** The loop of [validate_invoices] appends one result per invoice. *)
Lemma fold_validate_step_results (invoices : list Invoice)
      (st : list ValidationResult * list (string * Z)) :
  fst (fold_left (validate_step float_repr float_sum now_year) invoices st)
  = (fst st ++ map (validate_invoice float_repr float_sum now_year) invoices)%list.
Proof.
  revert st. induction invoices as [|i invoices IH]; intros st; simpl.
  - now rewrite app_nil_r.
  - rewrite IH. simpl. now rewrite <- app_assoc.
Qed.

Lemma results_map (invoices : list Invoice) :
  results (validate_invoices float_repr float_sum now_year invoices) = map (validate_invoice float_repr float_sum now_year) invoices.
Proof.
  unfold validate_invoices.
  pose proof (fold_validate_step_results invoices ([], [])) as H.
  destruct (fold_left (validate_step float_repr float_sum now_year) invoices ([], [])) as [rs cs].
  simpl in H. cbn [results]. exact H.
Qed.

Lemma valid_count_filter (rs : list ValidationResult) (n : Z) :
  fold_left (fun k r => if is_valid r then k + 1 else k) rs n
  = n + Z.of_nat (List.length (filter is_valid rs)).
Proof.
  revert n. induction rs as [|r rs IH]; intros n; simpl.
  - lia.
  - rewrite IH. destruct (is_valid r); cbn [List.length];
      rewrite ?Nat2Z.inj_succ; lia.
Qed.

(** The counts of the summary, in terms of the results. *)
Lemma summary_counts (invoices : list Invoice) :
let summary := validate_invoices float_repr float_sum now_year invoices in
total_invoices summary = Z.of_nat (List.length invoices)
/\ valid_invoices summary
   = Z.of_nat (List.length (filter is_valid (results summary)))
/\ invalid_invoices summary
   = Z.of_nat (List.length (results summary)) - valid_invoices summary.
Proof.
unfold validate_invoices.
destruct (fold_left (validate_step float_repr float_sum now_year)
                    invoices ([], [])) as [rs cs].
cbn [results total_invoices valid_invoices invalid_invoices].
split; [reflexivity|]. split; [|reflexivity].
rewrite valid_count_filter. lia.
Qed.

End ValidatorProperties.

(** ** The float model against the machine's binary64

    The same literals and operations, evaluated with the primitive floats
    of the kernel, give the values of the model. *)

#[warnings="-inexact-float"]
Lemma hardware_literals :
  Prim2SF 120.01%float = f120_01
  /\ Prim2SF 120.02%float = f120_02
  /\ Prim2SF 0.01%float = PyFloat.lit_0_01
  /\ Prim2SF 1234.56%float = PyFloat.of_decimal false 123456 (-2)
  /\ Prim2SF 1.234%float = PyFloat.of_decimal false 1234 (-3).
Proof.
  split; [|split; [|split; [|split]]]; vm_compute; reflexivity.
Qed.

#[warnings="-inexact-float"]
Lemma hardware_one_cent :
  Prim2SF (PrimFloat.abs (120 - 120.01))%float
  = PyFloat.abs (PyFloat.sub f120 f120_01)
  /\ PrimFloat.ltb 0.01%float (PrimFloat.abs (120 - 120.01))%float = true
  /\ PrimFloat.ltb 0.01%float (PrimFloat.abs (0.02 - 0.03))%float = false.
Proof.
  split; [|split]; vm_compute; reflexivity.
Qed.

(** ** [TotalConsistencyRule] *)

(** The rule reports a mismatch exactly when the float comparison of the
    source holds. *)
Lemma total_consistency_iff (float_repr : PyFloat.float -> string)
      (net tax gross : PyFloat.float) :
  TotalConsistencyRule_validate float_repr (invoice_with_totals net tax gross)
  = if PyFloat.gtb
         (PyFloat.abs (PyFloat.sub (PyFloat.round2 (PyFloat.add net tax))
                                   (PyFloat.round2 gross)))
         PyFloat.lit_0_01
    then Some (totals_mismatch_message float_repr
                 (PyFloat.round2 (PyFloat.add net tax)) (PyFloat.round2 gross))
    else None.
Proof. reflexivity. Qed.

(** The binary64 values behind the boundary case: [120.01] is stored as
    [8444952988761457 * 2^-46], a little above the decimal, so its distance
    to [120.0] is [5764607523037184 * 2^-59] while the literal [0.01] is
    [5764607523034235 * 2^-59]. *)
Lemma boundary_floats :
  f120_01 = S754_finite false 8444952988761457 (-46)
  /\ PyFloat.round2 f120_01 = f120_01
  /\ PyFloat.round2 (PyFloat.add f100 f20) = f120
  /\ PyFloat.abs (PyFloat.sub f120 f120_01)
     = S754_finite false 5764607523037184 (-59)
  /\ PyFloat.lit_0_01 = S754_finite false 5764607523034235 (-59).
Proof.
  split; [|split; [|split; [|split]]]; vm_compute; reflexivity.
Qed.

(** C3 (the code at the boundary): with [net_total = 100.00] and
    [tax_amount = 20.00], [TotalConsistencyRule.validate] reports
    [totals_mismatch] for [gross_total = 120.01] as it does for
    [120.02]; only [120.00] passes.  A difference of one cent is not
    always refused: [0.02] against [0.03] passes. *)
Theorem total_consistency_one_cent (float_repr : PyFloat.float -> string) :
  TotalConsistencyRule_validate float_repr (invoice_with_totals f100 f20 f120_01)
  = Some (totals_mismatch_message float_repr f120 f120_01)
  /\ TotalConsistencyRule_validate float_repr (invoice_with_totals f100 f20 f120_02)
     = Some (totals_mismatch_message float_repr f120 f120_02)
  /\ TotalConsistencyRule_validate float_repr (invoice_with_totals f100 f20 f120)
     = None
  /\ TotalConsistencyRule_validate float_repr
       (invoice_with_totals (PyFloat.of_decimal false 2 (-2)) PyFloat.zero
                            (PyFloat.of_decimal false 3 (-2)))
     = None.
Proof.
  split; [|split; [|split]]; rewrite total_consistency_iff.
  - replace (PyFloat.round2 (PyFloat.add f100 f20)) with f120
      by (vm_compute; reflexivity).
    replace (PyFloat.round2 f120_01) with f120_01 by (vm_compute; reflexivity).
    replace (PyFloat.gtb _ _) with true by (vm_compute; reflexivity).
    reflexivity.
  - replace (PyFloat.round2 (PyFloat.add f100 f20)) with f120
      by (vm_compute; reflexivity).
    replace (PyFloat.round2 f120_02) with f120_02 by (vm_compute; reflexivity).
    replace (PyFloat.gtb _ _) with true by (vm_compute; reflexivity).
    reflexivity.
  - replace (PyFloat.gtb _ _) with false by (vm_compute; reflexivity).
    reflexivity.
  - replace (PyFloat.gtb _ _) with false by (vm_compute; reflexivity).
    reflexivity.
Qed.

(** ** [validate_invoice] and [validate_invoices] *)

Section ValidatorClaims.

Variable float_repr : PyFloat.float -> string.
Variable float_sum : list PyFloat.float -> PyFloat.float.
Variable now_year : Z.

(** C4: the batch made of the single invoice [INV-1] (invoice date
    2024-01-10, due date 2024-01-05, seller and buyer both [Acme]) has one
    result; it is not valid, and its errors contain both
    [business_rule_failed: due_date_before_invoice_date] and
    [business_rule_failed: seller_and_buyer_same]. *)
Theorem end_to_end_INV_1 :
  let summary :=
    validate_invoices float_repr float_sum now_year [invoice_INV_1] in
  exists r : ValidationResult,
    results summary = [r]
    /\ is_valid r = false
    /\ In "business_rule_failed: due_date_before_invoice_date" (errors r)
    /\ In "business_rule_failed: seller_and_buyer_same" (errors r)
    /\ valid_invoices summary = 0
    /\ invalid_invoices summary = 1.
Proof.
  intros summary.
  exists (validate_invoice float_repr float_sum now_year invoice_INV_1).
  assert (Hdue : In "business_rule_failed: due_date_before_invoice_date"
                    (errors (validate_invoice float_repr float_sum now_year
                                              invoice_INV_1))).
  { apply in_errors_intro with (rule := DueDateRule).
    - unfold rules. simpl. tauto.
    - vm_compute. reflexivity. }
  assert (Hinv : is_valid (validate_invoice float_repr float_sum now_year
                                            invoice_INV_1) = false).
  { rewrite is_valid_errors.
    destruct (errors (validate_invoice float_repr float_sum now_year
                                       invoice_INV_1));
      [contradiction|reflexivity]. }
  assert (Hres : results summary
                 = [validate_invoice float_repr float_sum now_year
                                     invoice_INV_1])
    by apply results_map.
  destruct (summary_counts float_repr float_sum now_year [invoice_INV_1])
    as (_ & Hvalid & Hinvalid).
  fold summary in Hvalid, Hinvalid.
  rewrite Hres in Hvalid, Hinvalid. cbn [filter] in Hvalid.
  rewrite Hinv in Hvalid. cbn [List.length] in Hvalid, Hinvalid.
  split; [exact Hres|]. split; [exact Hinv|].
  split; [exact Hdue|]. split; [|split; lia].
  apply in_errors_intro with (rule := PartyNamesRule).
  - unfold rules. simpl. tauto.
  - vm_compute. reflexivity.
Qed.

(** C5 (amended): [validate_invoices] applied to the empty list does not
    fail; it returns the summary with every count zero, no error count and
    no result.  The failure for an empty batch is raised by the endpoints
    of [api.py], with status 400, before the validator is called:
    [validate_json] raises it on an empty list, and
    [extract_and_validate_pdfs] raises it when no file is uploaded and when
    the extractor finds no invoice in the uploaded PDF files.  On a
    non-empty list [validate_json] returns the summary of the validator,
    and so does [extract_and_validate_pdfs], with the invoices, when the
    extractor finds some. *)
Theorem empty_batch_is_rejected_by_endpoints :
  validate_invoices float_repr float_sum now_year []
  = mk_ValidationSummary 0 0 0 [] []
  /\ Api.validate_json float_repr float_sum now_year []
     = inl (Api.mk_HTTPException 400 "Empty invoice list")
  /\ (forall (m : Api.InvoiceModel) (ms : list Api.InvoiceModel),
         Api.validate_json float_repr float_sum now_year (m :: ms)
         = inr (validate_invoices float_repr float_sum now_year
                                  (map Api.to_Invoice (m :: ms))))
  /\ (forall extract_from_folder : list Api.UploadFile -> list Invoice,
         Api.extract_and_validate_pdfs float_repr float_sum now_year
                                       extract_from_folder []
         = inl (Api.mk_HTTPException 400 "No PDF files provided"))
  /\ (forall (extract_from_folder : list Api.UploadFile -> list Invoice)
             (files : list Api.UploadFile),
         files <> [] ->
         forallb (fun file => endswith ".pdf" (lower (Api.filename file)))
                 files = true ->
         (extract_from_folder files = [] ->
          Api.extract_and_validate_pdfs float_repr float_sum now_year
                                        extract_from_folder files
          = inl (Api.mk_HTTPException 400 "No invoices extracted from PDFs"))
         /\ (extract_from_folder files <> [] ->
             Api.extract_and_validate_pdfs float_repr float_sum now_year
                                           extract_from_folder files
             = inr (extract_from_folder files,
                    validate_invoices float_repr float_sum now_year
                                      (extract_from_folder files)))).
Proof.
  split; [reflexivity|]. split; [reflexivity|].
  split; [intros m ms; reflexivity|]. split; [intros; reflexivity|].
  intros extract_from_folder files Hne Hpdf.
  unfold Api.extract_and_validate_pdfs.
  destruct files as [|file files]; [congruence|]. rewrite Hpdf.
  destruct (extract_from_folder (file :: files)) as [|invoice invoices].
  - split; [reflexivity|congruence].
  - split; [discriminate|reflexivity].
Qed.

(** C6 (amended): [validate_invoice] returns the invoice number as
    [invoice_id] when the number is present and not empty, and the
    placeholder [UNKNOWN] when it is absent or the empty string. *)
Theorem invoice_id_number_or_unknown (invoice : Invoice) :
  (forall n : string,
      invoice_number invoice = Some n -> n <> "" ->
      invoice_id (validate_invoice float_repr float_sum now_year invoice) = n)
  /\ (invoice_number invoice = None \/ invoice_number invoice = Some "" ->
      invoice_id (validate_invoice float_repr float_sum now_year invoice)
      = "UNKNOWN").
Proof.
  unfold validate_invoice. cbn [invoice_id]. split.
  - intros n Hn Hne. rewrite Hn.
    destruct n as [|c n]; [congruence|reflexivity].
  - intros [H|H]; rewrite H; reflexivity.
Qed.

(** The message of a rule of the validator never starts a tax-id-format
    error. *)
Lemma active_rule_message (rule : ValidationRule) (invoice : Invoice)
      (e : string) :
  In rule rules ->
  validate float_repr float_sum now_year rule invoice = Some e ->
  startswith "invalid_tax_id_format: " e = false.
Proof.
  intros Hr He. unfold rules in Hr. simpl in Hr.
  repeat (destruct Hr as [<-|Hr]); try contradiction; simpl in He.
  1-4: unfold CompletenessRule_validate in He;
    destruct (getattr_str invoice _) as [[|c v]|];
    try destruct (strip (String c v));
    inversion He; reflexivity.
  1-2: unfold DateFormatRule_validate in He;
    destruct (getattr_str invoice _) as [[|c v]|]; cbn [truthy negb] in He;
    try discriminate;
    destruct (strptime (String c v) "%Y-%m-%d") as [dt|];
    try destruct ((year dt <? now_year - 50) || (year dt >? now_year + 10));
    inversion He; reflexivity.
  - unfold CurrencyRule_validate in He.
    destruct (currency invoice) as [[|c v]|]; cbn [truthy negb] in He;
      try discriminate.
    destruct (negb (str_in (upper (String c v)) ALLOWED_CURRENCIES));
      inversion He; reflexivity.
  - unfold AmountSignRule_validate in He.
    destruct (getattr_float invoice _) as [x|]; try discriminate.
    destruct (PyFloat.ltb x PyFloat.zero); inversion He; reflexivity.
  - unfold AmountSignRule_validate in He.
    destruct (getattr_float invoice _) as [x|]; try discriminate.
    destruct (PyFloat.ltb x PyFloat.zero); inversion He; reflexivity.
  - unfold AmountSignRule_validate in He.
    destruct (getattr_float invoice _) as [x|]; try discriminate.
    destruct (PyFloat.ltb x PyFloat.zero); inversion He; reflexivity.
  - unfold TotalConsistencyRule_validate in He.
    destruct (net_total invoice), (tax_amount invoice), (gross_total invoice);
      try discriminate.
    destruct (PyFloat.gtb _ _); inversion He; reflexivity.
  - unfold DueDateRule_validate in He.
    destruct (truthy (invoice_date invoice) && truthy (due_date invoice));
      try discriminate.
    destruct (invoice_date invoice), (due_date invoice); try discriminate.
    destruct (strptime _ _) as [a|]; try discriminate.
    destruct (strptime _ _) as [b|]; try discriminate.
    destruct (datetime_ltb b a); inversion He; reflexivity.
  - unfold LineItemsConsistencyRule_validate in He.
    destruct (line_items invoice), (net_total invoice); try discriminate.
    destruct (_ && _); inversion He; reflexivity.
  - unfold PartyNamesRule_validate in He.
    destruct (seller_name invoice), (buyer_name invoice); try discriminate.
    destruct (_ && _); inversion He; reflexivity.
Qed.

(** C7: no error reported by the validator has the form
    [invalid_tax_id_format: <field>].  [TaxIDFormatRule] is not in the rule
    list of the validator, although the rule itself reports such an error,
    for instance on a seller tax id [12345] that the validator accepts
    silently. *)
Theorem no_tax_id_format_error :
  (forall (invoice : Invoice) (e : string),
      In e (errors (validate_invoice float_repr float_sum now_year invoice)) ->
      startswith "invalid_tax_id_format: " e = false)
  /\ (forall f : string, ~ In (TaxIDFormatRule f) rules)
  /\ validate float_repr float_sum now_year (TaxIDFormatRule "seller_tax_id")
              invoice_bad_tax_id
     = Some "invalid_tax_id_format: seller_tax_id"
  /\ ~ In "invalid_tax_id_format: seller_tax_id"
          (errors (validate_invoice float_repr float_sum now_year
                                    invoice_bad_tax_id)).
Proof.
  assert (H : forall (invoice : Invoice) (e : string),
             In e (errors (validate_invoice float_repr float_sum now_year
                                            invoice)) ->
             startswith "invalid_tax_id_format: " e = false).
  { intros invoice e He.
    apply in_errors_inv in He as [rule [Hr Hv]].
    exact (active_rule_message rule invoice e Hr Hv). }
  split; [exact H|]. split; [|split].
  - intros f Hf. unfold rules in Hf. simpl in Hf.
    repeat (destruct Hf as [Hf|Hf]; [discriminate|]). exact Hf.
  - reflexivity.
  - intros Hin. apply H in Hin. discriminate.
Qed.

(** C10: [validate_invoices] returns one result per invoice, in input
    order, the result at each index being [validate_invoice] of the invoice
    at that index; [total_invoices] is the length of the input, and the
    valid and invalid counts add up to it. *)
Theorem validate_invoices_results_and_counts (invoices : list Invoice) :
  let summary := validate_invoices float_repr float_sum now_year invoices in
  results summary
  = map (validate_invoice float_repr float_sum now_year) invoices
  /\ List.length (results summary) = List.length invoices
  /\ (forall i : nat,
         nth_error (results summary) i
         = option_map (validate_invoice float_repr float_sum now_year)
                      (nth_error invoices i))
  /\ total_invoices summary = Z.of_nat (List.length invoices)
  /\ valid_invoices summary + invalid_invoices summary
     = total_invoices summary
  /\ valid_invoices summary
     = Z.of_nat (List.length (filter is_valid (results summary)))
  /\ 0 <= valid_invoices summary /\ 0 <= invalid_invoices summary.
Proof.
  intros summary.
  assert (Hr : results summary
               = map (validate_invoice float_repr float_sum now_year) invoices)
    by apply results_map.
  assert (Hl : List.length (results summary) = List.length invoices)
    by (rewrite Hr; apply length_map).
  destruct (summary_counts float_repr float_sum now_year invoices)
    as (Ht & Hv & Hi).
  fold summary in Ht, Hv, Hi.
  pose proof (filter_length_le is_valid (results summary)) as Hle.
  split; [exact Hr|]. split; [exact Hl|].
  split; [intros i; rewrite Hr; apply nth_error_map|].
  split; [exact Ht|]. split; [lia|]. split; [exact Hv|]. lia.
Qed.

End ValidatorClaims.

Lemma invoice_id_number_or_unknown_witness :
  (invoice_number invoice_INV_1 = Some "INV-1" /\ "INV-1" <> "")
  /\ forall float_repr float_sum now_year,
      invoice_id (validate_invoice float_repr float_sum now_year invoice_INV_1)
      = "INV-1".
Proof.
  split; [split; [reflexivity|discriminate]|].
  intros float_repr float_sum now_year.
  apply (proj1 (invoice_id_number_or_unknown float_repr float_sum now_year
                                             invoice_INV_1));
    [reflexivity|discriminate].
Defined.

(** C6 (as stated): an invoice whose number is present and empty gets the
    placeholder, not its number. *)
Lemma invoice_id_of_empty_number :
  invoice_number invoice_empty_number = Some ""
  /\ forall float_repr float_sum now_year,
      invoice_id (validate_invoice float_repr float_sum now_year
                                   invoice_empty_number)
      = "UNKNOWN".
Proof. split; [reflexivity|]. intros. reflexivity. Qed.

(** C5 (as stated): on the empty list [validate_invoices] does not fail;
    it returns the summary with zero counts. *)
Lemma validate_invoices_empty_list :
  exists summary : ValidationSummary,
    (forall float_repr float_sum now_year,
        validate_invoices float_repr float_sum now_year [] = summary)
    /\ total_invoices summary = 0
    /\ valid_invoices summary = 0
    /\ invalid_invoices summary = 0
    /\ results summary = [].
Proof.
  exists (mk_ValidationSummary 0 0 0 [] []).
  split; [intros; reflexivity|]. repeat split.
Qed.

Lemma no_tax_id_format_error_witness :
  (forall float_repr float_sum now_year,
      In "missing_field: invoice_number"
         (errors (validate_invoice float_repr float_sum now_year
                                   Invoice_default)))
  /\ startswith "invalid_tax_id_format: " "missing_field: invoice_number"
     = false.
Proof.
  assert (H : forall float_repr float_sum now_year,
             In "missing_field: invoice_number"
                (errors (validate_invoice float_repr float_sum now_year
                                          Invoice_default))).
  { intros. left. reflexivity. }
  split; [exact H|].
  exact (proj1 (no_tax_id_format_error (fun _ => "") (fun _ => PyFloat.zero)
                                       2024)
               Invoice_default "missing_field: invoice_number"
               (H (fun _ => "") (fun _ => PyFloat.zero) 2024)).
Defined.

(** ** Dates *)

Lemma datetime_ltb_spec (b a : datetime) :
  datetime_ltb b a = true <-> strictly_before b a.
Proof.
  unfold datetime_ltb, strictly_before.
  rewrite !orb_true_iff, !andb_true_iff, !orb_true_iff, !andb_true_iff.
  rewrite !Z.ltb_lt, !Z.eqb_eq. tauto.
Qed.

Lemma datetime_ltb_irrefl (a : datetime) : datetime_ltb a a = false.
Proof.
  destruct (datetime_ltb a a) eqn:E; [|reflexivity].
  apply datetime_ltb_spec in E. unfold strictly_before in E. lia.
Qed.

(** A parsed string is truthy. *)
Lemma strptime_truthy (s : string) (dt : datetime) :
  strptime s "%Y-%m-%d" = Some dt -> truthy (Some s) = true.
Proof.
  destruct s; [discriminate|reflexivity].
Qed.

(** C8: when both dates are set, [DueDateRule.validate] reports
    [business_rule_failed: due_date_before_invoice_date] if and only if
    both strings parse with [%Y-%m-%d] and the due date is strictly before
    the invoice date; it reports nothing else, nothing when the two parsed
    dates are equal, and nothing when either string does not parse. *)
Theorem due_date_rule_iff (invoice : Invoice) (i d : string) :
  invoice_date invoice = Some i -> due_date invoice = Some d ->
  (DueDateRule_validate invoice
   = Some "business_rule_failed: due_date_before_invoice_date"
   <-> exists a b : datetime,
        strptime i "%Y-%m-%d" = Some a /\ strptime d "%Y-%m-%d" = Some b
        /\ strictly_before b a)
  /\ (DueDateRule_validate invoice = None
      \/ DueDateRule_validate invoice
         = Some "business_rule_failed: due_date_before_invoice_date")
  /\ (forall a : datetime,
         strptime i "%Y-%m-%d" = Some a -> strptime d "%Y-%m-%d" = Some a ->
         DueDateRule_validate invoice = None)
  /\ (strptime i "%Y-%m-%d" = None \/ strptime d "%Y-%m-%d" = None ->
      DueDateRule_validate invoice = None).
Proof.
  intros Hi Hd. unfold DueDateRule_validate. rewrite Hi, Hd.
  destruct (strptime i "%Y-%m-%d") as [a|] eqn:Ha.
  - destruct (strptime d "%Y-%m-%d") as [b|] eqn:Hb.
    + rewrite (strptime_truthy i a Ha), (strptime_truthy d b Hb).
      cbn [andb].
      destruct (datetime_ltb b a) eqn:Hlt.
      * split; [|split; [|split]].
        -- split; [|reflexivity]. intros _. exists a, b.
           repeat split. now apply datetime_ltb_spec.
        -- now right.
        -- intros a' [= <-] [= <-].
           rewrite datetime_ltb_irrefl in Hlt. discriminate.
        -- intros [H|H]; discriminate.
      * split; [|split; [|split]].
        -- split; [discriminate|].
           intros (a' & b' & [= <-] & [= <-] & Hlt').
           apply datetime_ltb_spec in Hlt'. congruence.
        -- now left.
        -- reflexivity.
        -- reflexivity.
    + assert (E : (if truthy (Some i) && truthy (Some d)
                   then @None string else None) = None)
        by (destruct (truthy (Some i) && truthy (Some d)); reflexivity).
      rewrite E. split; [|split; [|split]].
      * split; [discriminate|]. intros (a' & b' & _ & [=] & _).
      * now left.
      * reflexivity.
      * reflexivity.
  - assert (E : (if truthy (Some i) && truthy (Some d)
                 then @None string else None) = None)
      by (destruct (truthy (Some i) && truthy (Some d)); reflexivity).
    rewrite E. split; [|split; [|split]].
    + split; [discriminate|]. intros (a' & b' & [=] & _).
    + now left.
    + reflexivity.
    + reflexivity.
Qed.

Lemma due_date_rule_iff_witness :
  (invoice_date invoice_INV_1 = Some "2024-01-10"
   /\ due_date invoice_INV_1 = Some "2024-01-05")
  /\ (DueDateRule_validate invoice_INV_1
      = Some "business_rule_failed: due_date_before_invoice_date"
      <-> exists a b : datetime,
           strptime "2024-01-10" "%Y-%m-%d" = Some a
           /\ strptime "2024-01-05" "%Y-%m-%d" = Some b
           /\ strictly_before b a).
Proof.
  split; [split; reflexivity|].
  exact (proj1 (due_date_rule_iff invoice_INV_1 "2024-01-10" "2024-01-05"
                                  eq_refl eq_refl)).
Defined.

(** *** Parsing back a formatted date *)

Lemma first_some_none {A B : Type} (f : A -> option B) (l : list A) :
  (forall x, In x l -> f x = None) -> first_some f l = None.
Proof.
  induction l as [|x l IH]; intros H; simpl; [reflexivity|].
  rewrite (H x) by now left. apply IH. intros y Hy. apply H. now right.
Qed.

Lemma first_some_head {A B : Type} (f : A -> option B) (x : A) (l : list A)
      (y : B) :
  f x = Some y -> first_some f (x :: l) = Some y.
Proof. intros H. simpl. now rewrite H. Qed.

Lemma digit_cases (k : Z) :
  0 <= k <= 9 ->
  k = 0 \/ k = 1 \/ k = 2 \/ k = 3 \/ k = 4 \/ k = 5 \/ k = 6 \/ k = 7
  \/ k = 8 \/ k = 9.
Proof. lia. Qed.

Lemma digit_char_is_digit (k : Z) :
  0 <= k <= 9 ->
  is_digit (digit_char k) = true /\ digit_val (digit_char k) = k.
Proof.
  intros H. apply digit_cases in H.
  repeat (destruct H as [->|H]); try subst k; split; reflexivity.
Qed.

Lemma is_digit_not_literal (c sep : ascii) :
  is_digit c = true -> is_digit sep = false -> Ascii.eqb c sep = false.
Proof.
  intros Hc Hs. destruct (Ascii.eqb_spec c sep) as [->|_]; congruence.
Qed.

Lemma alt2_rest (lo1 hi1 lo2 hi2 a b : ascii) (r : string) (x : Z * string) :
  In x (alt2 lo1 hi1 lo2 hi2 (String a (String b r))) -> snd x = r.
Proof.
  unfold alt2. destruct (_ && _); simpl; [|contradiction].
  intros [<-|[]]. reflexivity.
Qed.

Lemma alt1_rest (lo hi a : ascii) (r : string) (x : Z * string) :
  In x (alt1 lo hi (String a r)) -> snd x = r.
Proof.
  unfold alt1. destruct (in_range a lo hi); simpl; [|contradiction].
  intros [<-|[]]. reflexivity.
Qed.

(** After a day at the head of a string of three digits comes a digit. *)
Lemma day_rest_starts_with_digit (c1 c2 c3 : ascii) (r : string)
      (x : Z * string) :
  is_digit c1 = true -> is_digit c2 = true -> is_digit c3 = true ->
  In x (directive_matches dir_d (String c1 (String c2 (String c3 r)))) ->
  exists c r', snd x = String c r' /\ is_digit c = true.
Proof.
  intros H1 H2 H3 Hx. cbn [directive_matches] in Hx.
  repeat (apply in_app_or in Hx as [Hx|Hx]).
  - apply alt2_rest in Hx. eauto.
  - apply alt2_rest in Hx. eauto.
  - apply alt2_rest in Hx. eauto.
  - apply alt1_rest in Hx. eauto.
  - unfold alt_space_digit in Hx.
    rewrite (is_digit_not_literal c1 " " H1 eq_refl) in Hx.
    contradiction.
Qed.

(** A format that starts with a day and a separator does not match a
    string that starts with three digits. *)
Lemma match_format_day_first (sep : ascii) (fmt : list directive)
      (c1 c2 c3 : ascii) (r : string) (dt : datetime) :
  is_digit sep = false ->
  is_digit c1 = true -> is_digit c2 = true -> is_digit c3 = true ->
  match_format (dir_d :: dir_lit sep :: fmt)
               (String c1 (String c2 (String c3 r))) dt = None.
Proof.
  intros Hs H1 H2 H3. cbn [match_format].
  apply first_some_none. intros x Hx.
  destruct (day_rest_starts_with_digit c1 c2 c3 r x H1 H2 H3 Hx)
    as (c & r' & -> & Hc).
  cbn [directive_matches].
  now rewrite (is_digit_not_literal c sep Hc Hs).
Qed.

(** The month and the day, printed on two digits, are read back first. *)
Lemma month_matches_pad2 (m : Z) (r : string) :
  1 <= m <= 12 ->
  exists tl, directive_matches dir_m (pad2 m ++ r) = (m, r) :: tl.
Proof.
  intros H.
  assert (E : m = 1 \/ m = 2 \/ m = 3 \/ m = 4 \/ m = 5 \/ m = 6 \/ m = 7
              \/ m = 8 \/ m = 9 \/ m = 10 \/ m = 11 \/ m = 12) by lia.
  repeat (destruct E as [->|E]); try subst m; eexists; reflexivity.
Qed.

Lemma day_matches_pad2 (d : Z) (r : string) :
  1 <= d <= 31 ->
  exists tl, directive_matches dir_d (pad2 d ++ r) = (d, r) :: tl.
Proof.
  intros H.
  assert (E : (d = 1 \/ d = 2 \/ d = 3 \/ d = 4 \/ d = 5 \/ d = 6 \/ d = 7
               \/ d = 8 \/ d = 9 \/ d = 10)
              \/ (d = 11 \/ d = 12 \/ d = 13 \/ d = 14 \/ d = 15 \/ d = 16
                  \/ d = 17 \/ d = 18 \/ d = 19 \/ d = 20)
              \/ (d = 21 \/ d = 22 \/ d = 23 \/ d = 24 \/ d = 25 \/ d = 26
                  \/ d = 27 \/ d = 28 \/ d = 29 \/ d = 30 \/ d = 31)) by lia.
  destruct E as [E|[E|E]];
    repeat (destruct E as [->|E]); try subst d; eexists; reflexivity.
Qed.

Lemma year_digits (y : Z) :
  1 <= y <= 9999 ->
  0 <= y / 1000 <= 9 /\ 0 <= y / 100 mod 10 <= 9
  /\ 0 <= y / 10 mod 10 <= 9 /\ 0 <= y mod 10 <= 9
  /\ 1000 * (y / 1000) + 100 * (y / 100 mod 10) + 10 * (y / 10 mod 10)
     + y mod 10 = y.
Proof.
  intros H. Z.div_mod_to_equations. lia.
Qed.

Lemma year_matches_pad4 (y : Z) (r : string) :
  1 <= y <= 9999 ->
  directive_matches dir_Y (pad4 y ++ r) = [(y, r)].
Proof.
  intros H. destruct (year_digits y H) as (H1 & H2 & H3 & H4 & E).
  unfold pad4. cbn [append directive_matches].
  destruct (digit_char_is_digit _ H1) as [-> ->].
  destruct (digit_char_is_digit _ H2) as [-> ->].
  destruct (digit_char_is_digit _ H3) as [-> ->].
  destruct (digit_char_is_digit _ H4) as [-> ->].
  cbn [andb]. now rewrite E.
Qed.

Lemma valid_date_bounds (y m d : Z) :
  valid_date y m d = true ->
  1 <= y <= 9999 /\ 1 <= m <= 12 /\ 1 <= d <= 31.
Proof.
  unfold valid_date. rewrite !andb_true_iff, !Z.leb_le.
  intros (((((H1 & H2) & H3) & H4) & H5) & H6).
  assert (days_in_month y m <= 31).
  { unfold days_in_month.
    destruct (m =? 2); [destruct (is_leap y); lia|].
    destruct ((m =? 4) || (m =? 6) || (m =? 9) || (m =? 11)); lia. }
  lia.
Qed.

Lemma match_format_cons (d : directive) (fmt : list directive) (s : string)
      (dt : datetime) :
  match_format (d :: fmt) s dt
  = first_some (fun vr => match_format fmt (snd vr) (set_field d (fst vr) dt))
               (directive_matches d s).
Proof. reflexivity. Qed.

Lemma directive_matches_lit (c : ascii) (r : string) :
  directive_matches (dir_lit c) (String c r) = [(0, r)].
Proof. cbn [directive_matches]. now rewrite Ascii.eqb_refl. Qed.

Lemma strftime_iso (y m d : Z) :
  strftime (mk_datetime y m d) "%Y-%m-%d"
  = (unpadded y ++ String "-" (pad2 m ++ String "-" (pad2 d ++ "")))%string.
Proof. reflexivity. Qed.

(** From the year 1000 on, the year is printed on four digits. *)
Lemma unpadded_pad4 (y : Z) : 1000 <= y -> unpadded y = pad4 y.
Proof.
  intros H. unfold unpadded.
  destruct (Z.ltb_spec y 10); [lia|].
  destruct (Z.ltb_spec y 100); [lia|].
  destruct (Z.ltb_spec y 1000); [lia|]. reflexivity.
Qed.

(** Below it, the year is printed on one, two or three digits. *)
Lemma unpadded_short (y : Z) :
  1 <= y < 1000 ->
  (exists c1, unpadded y = String c1 "" /\ is_digit c1 = true)
  \/ (exists c1 c2,
         unpadded y = String c1 (String c2 "")
         /\ is_digit c1 = true /\ is_digit c2 = true)
  \/ (exists c1 c2 c3,
         unpadded y = String c1 (String c2 (String c3 ""))
         /\ is_digit c1 = true /\ is_digit c2 = true /\ is_digit c3 = true).
Proof.
  intros H. unfold unpadded, pad2.
  destruct (Z.ltb_spec y 10).
  { left. eexists. split; [reflexivity|].
    apply digit_char_is_digit. lia. }
  destruct (Z.ltb_spec y 100).
  { right. left. do 2 eexists. split; [reflexivity|].
    split; apply digit_char_is_digit; Z.div_mod_to_equations; lia. }
  destruct (Z.ltb_spec y 1000); [|lia].
  right. right. do 3 eexists. split; [reflexivity|].
  repeat split; apply digit_char_is_digit; Z.div_mod_to_equations; lia.
Qed.

Lemma unpadded_short_length (y : Z) :
  1 <= y < 1000 -> (String.length (unpadded y) < 4)%nat.
Proof.
  intros H.
  destruct (unpadded_short y H)
    as [(c1 & -> & _) | [(c1 & c2 & -> & _) | (c1 & c2 & c3 & -> & _)]];
    cbn [String.length]; lia.
Qed.

Lemma pad2_digits (n : Z) :
  0 <= n <= 99 ->
  is_digit (digit_char (n / 10)) = true
  /\ is_digit (digit_char (n mod 10)) = true.
Proof.
  intros H. split; apply digit_char_is_digit; Z.div_mod_to_equations; lia.
Qed.

(** Reading a printed date with [%Y-%m-%d] gives the date back. *)
Lemma match_format_iso (y m d : Z) (dt : datetime) :
  valid_date y m d = true ->
  match_format iso_directives
    (pad4 y ++ String "-" (pad2 m ++ String "-" (pad2 d ++ ""))) dt
  = Some (mk_datetime y m d, "").
Proof.
  intros Hv. destruct (valid_date_bounds y m d Hv) as (Hy & Hm & Hd).
  unfold iso_directives.
  rewrite match_format_cons, (year_matches_pad4 y _ Hy).
  apply first_some_head. cbn [fst snd].
  rewrite match_format_cons, directive_matches_lit.
  apply first_some_head. cbn [fst snd].
  rewrite match_format_cons.
  destruct (month_matches_pad2 m (String "-" (pad2 d ++ "")) Hm) as [tl ->].
  apply first_some_head. cbn [fst snd].
  rewrite match_format_cons, directive_matches_lit.
  apply first_some_head. cbn [fst snd].
  rewrite match_format_cons.
  destruct (day_matches_pad2 d "" Hd) as [tl' ->].
  apply first_some_head. reflexivity.
Qed.

Lemma strptime_strftime_iso (y m d : Z) :
  valid_date y m d = true -> 1000 <= y ->
  strptime (strftime (mk_datetime y m d) "%Y-%m-%d") "%Y-%m-%d"
  = Some (mk_datetime y m d).
Proof.
  intros Hv Hy. rewrite strftime_iso, (unpadded_pad4 y Hy). unfold strptime.
  change (parse_format "%Y-%m-%d") with (Some iso_directives).
  cbv beta iota.
  rewrite (match_format_iso y m d _ Hv). cbn [year month day].
  now rewrite Hv.
Qed.

(** The three day-first formats do not match a printed date. *)
Lemma strptime_day_first_strftime (y m d : Z) (fmt : string) :
  valid_date y m d = true -> 1000 <= y ->
  fmt = "%d.%m.%Y" \/ fmt = "%d/%m/%Y" \/ fmt = "%d-%m-%Y" ->
  strptime (strftime (mk_datetime y m d) "%Y-%m-%d") fmt = None.
Proof.
  intros Hv Hy4 Hf. destruct (valid_date_bounds y m d Hv) as (Hy & _ & _).
  destruct (year_digits y Hy) as (H1 & H2 & H3 & _ & _).
  rewrite strftime_iso, (unpadded_pad4 y Hy4). unfold pad4. cbn [append].
  unfold strptime.
  destruct Hf as [-> | [-> | ->]]; cbn [parse_format option_map];
    rewrite match_format_day_first;
    solve [reflexivity | apply digit_char_is_digit; assumption].
Qed.

Lemma normalize_date_strftime (y m d : Z) :
  valid_date y m d = true -> 1000 <= y ->
  _normalize_date (strftime (mk_datetime y m d) "%Y-%m-%d")
  = strftime (mk_datetime y m d) "%Y-%m-%d".
Proof.
  intros Hv Hy. unfold _normalize_date, date_formats. cbn [first_some].
  rewrite !(strptime_day_first_strftime y m d) by auto.
  now rewrite (strptime_strftime_iso y m d Hv Hy).
Qed.

(** *** A year below 1000 is not read back

    [%Y] reads four digits and nothing less, so a date whose year was
    printed on fewer digits is read by none of the formats. *)

Lemma directive_matches_year_few (s : string) :
  (String.length s < 4)%nat -> directive_matches dir_Y s = [].
Proof.
  intros H. destruct s as [|a [|b [|c [|e s]]]]; try reflexivity.
  cbn [String.length] in H. lia.
Qed.

(** Fewer than four characters and then a separator: no year. *)
Lemma directive_matches_year_separator (p : string) (sep : ascii)
      (r : string) :
  (String.length p < 4)%nat -> is_digit sep = false ->
  directive_matches dir_Y (p ++ String sep r) = [].
Proof.
  intros Hl Hs.
  destruct p as [|a [|b [|c [|e p]]]]; cbn [append];
    [| | | | cbn [String.length] in Hl; lia].
  - destruct r as [|x [|y [|z r]]]; cbn [directive_matches];
      try reflexivity. now rewrite Hs.
  - destruct r as [|x [|y r]]; cbn [directive_matches];
      try reflexivity. now rewrite Hs, andb_false_r.
  - destruct r as [|x r]; cbn [directive_matches];
      try reflexivity. now rewrite Hs, andb_false_r.
  - cbn [directive_matches]. now rewrite Hs, andb_false_r.
Qed.

Lemma match_format_year_separator (fmt : list directive) (p : string)
      (sep : ascii) (r : string) (dt : datetime) :
  (String.length p < 4)%nat -> is_digit sep = false ->
  match_format (dir_Y :: fmt) (p ++ String sep r) dt = None.
Proof.
  intros Hl Hs.
  now rewrite match_format_cons, (directive_matches_year_separator p sep r Hl Hs).
Qed.

(** What is left after a day, or a month, at the head of a string: the
    string without its first character, or without its first two. *)
Lemma day_rests (c1 : ascii) (r : string) (x : Z * string) :
  is_digit c1 = true ->
  In x (directive_matches dir_d (String c1 r)) ->
  snd x = r \/ exists c2, r = String c2 (snd x).
Proof.
  intros H1 Hx. cbn [directive_matches] in Hx.
  repeat (apply in_app_or in Hx as [Hx|Hx]).
  - destruct r as [|c2 r]; [contradiction|].
    apply alt2_rest in Hx. right. exists c2. now rewrite Hx.
  - destruct r as [|c2 r]; [contradiction|].
    apply alt2_rest in Hx. right. exists c2. now rewrite Hx.
  - destruct r as [|c2 r]; [contradiction|].
    apply alt2_rest in Hx. right. exists c2. now rewrite Hx.
  - apply alt1_rest in Hx. now left.
  - destruct r as [|c2 r]; [contradiction|].
    unfold alt_space_digit in Hx.
    rewrite (is_digit_not_literal c1 " " H1 eq_refl) in Hx.
    contradiction.
Qed.

Lemma month_rests (c1 : ascii) (r : string) (x : Z * string) :
  In x (directive_matches dir_m (String c1 r)) ->
  snd x = r \/ exists c2, r = String c2 (snd x).
Proof.
  intros Hx. cbn [directive_matches] in Hx.
  repeat (apply in_app_or in Hx as [Hx|Hx]).
  - destruct r as [|c2 r]; [contradiction|].
    apply alt2_rest in Hx. right. exists c2. now rewrite Hx.
  - destruct r as [|c2 r]; [contradiction|].
    apply alt2_rest in Hx. right. exists c2. now rewrite Hx.
  - apply alt1_rest in Hx. now left.
Qed.

Lemma match_format_lit (c a : ascii) (fmt : list directive) (r : string)
      (dt : datetime) :
  match_format (dir_lit c :: fmt) (String a r) dt
  = if Ascii.eqb a c then match_format fmt r dt else None.
Proof.
  rewrite match_format_cons. cbn [directive_matches].
  destruct (Ascii.eqb a c); cbn [first_some fst snd set_field].
  - now destruct (match_format fmt r dt).
  - reflexivity.
Qed.

(** A month, a separator and a year do not match a month that is
    followed by a separator and fewer than four characters. *)
Lemma match_format_month_short_year (f sep m1 m2 : ascii) (tail : string)
      (dt : datetime) :
  is_digit m2 = true -> is_digit f = false ->
  (String.length tail < 4)%nat ->
  match_format [dir_m; dir_lit f; dir_Y]
               (String m1 (String m2 (String sep tail))) dt = None.
Proof.
  intros H2 Hf Hl. rewrite match_format_cons.
  apply first_some_none. intros x Hx.
  destruct (month_rests _ _ x Hx) as [E | [c2 E]].
  - rewrite E, match_format_lit, (is_digit_not_literal m2 f H2 Hf).
    reflexivity.
  - injection E as _ E. rewrite <- E, match_format_lit.
    destruct (Ascii.eqb sep f); [|reflexivity].
    now rewrite match_format_cons, (directive_matches_year_few tail Hl).
Qed.

(** After a separator: a month and a short last field. *)
Lemma match_format_lit_month_short_year (f sep sep' m1 m2 : ascii)
      (tail : string) (dt : datetime) :
  is_digit m2 = true -> is_digit f = false ->
  (String.length tail < 4)%nat ->
  match_format [dir_lit f; dir_m; dir_lit f; dir_Y]
               (String sep' (String m1 (String m2 (String sep tail)))) dt
  = None.
Proof.
  intros H2 Hf Hl. rewrite match_format_lit.
  destruct (Ascii.eqb sep' f); [|reflexivity].
  now apply match_format_month_short_year.
Qed.

(** A day-first format does not match a date printed year first with a
    year below 1000. *)
Lemma match_format_day_first_short_year (f sep : ascii) (y : Z)
      (m1 m2 : ascii) (tail : string) (dt : datetime) :
  1 <= y < 1000 -> is_digit f = false ->
  is_digit m1 = true -> is_digit m2 = true ->
  (String.length tail < 4)%nat ->
  match_format [dir_d; dir_lit f; dir_m; dir_lit f; dir_Y]
    (unpadded y ++ String sep (String m1 (String m2 (String sep tail)))) dt
  = None.
Proof.
  intros Hy Hf H1 H2 Hl.
  destruct (unpadded_short y Hy)
    as [(c1 & -> & D1)
       | [(c1 & c2 & -> & D1 & D2) | (c1 & c2 & c3 & -> & D1 & D2 & D3)]];
    cbn [append].
  - rewrite match_format_cons. apply first_some_none. intros x Hx.
    destruct (day_rests _ _ x D1 Hx) as [E | [c E]].
    + rewrite E. now apply match_format_lit_month_short_year.
    + injection E as _ E. rewrite <- E, match_format_lit.
      now rewrite (is_digit_not_literal m1 f H1 Hf).
  - rewrite match_format_cons. apply first_some_none. intros x Hx.
    destruct (day_rests _ _ x D1 Hx) as [E | [c E]].
    + rewrite E, match_format_lit.
      now rewrite (is_digit_not_literal c2 f D2 Hf).
    + injection E as _ E. rewrite <- E.
      now apply match_format_lit_month_short_year.
  - now apply match_format_day_first.
Qed.

(** A day-first format does not match a date printed day first, with the
    same separator, when fewer than four characters stand for the year. *)
Lemma match_format_day_first_own_short_year (f d1 d2 m1 m2 : ascii)
      (tail : string) (dt : datetime) :
  is_digit f = false ->
  is_digit d1 = true -> is_digit d2 = true -> is_digit m2 = true ->
  (String.length tail < 4)%nat ->
  match_format [dir_d; dir_lit f; dir_m; dir_lit f; dir_Y]
    (String d1 (String d2 (String f (String m1 (String m2 (String f tail))))))
    dt = None.
Proof.
  intros Hf D1 D2 H2 Hl.
  rewrite match_format_cons. apply first_some_none. intros x Hx.
  destruct (day_rests _ _ x D1 Hx) as [E | [c E]].
  - rewrite E, match_format_lit.
    now rewrite (is_digit_not_literal d2 f D2 Hf).
  - injection E as _ E. rewrite <- E.
    now apply match_format_lit_month_short_year.
Qed.

(** None of the five formats reads the [YYYY-MM-DD] rendering of a date
    whose year is below 1000. *)
Lemma strptime_short_year_iso (y m d : Z) (fmt : string) :
  valid_date y m d = true -> y < 1000 -> In fmt date_formats ->
  strptime (strftime (mk_datetime y m d) "%Y-%m-%d") fmt = None.
Proof.
  intros Hv Hy Hf. destruct (valid_date_bounds y m d Hv) as (Hy' & Hm & Hd).
  destruct (pad2_digits m ltac:(lia)) as [M1 M2].
  rewrite strftime_iso. unfold pad2. cbn [append].
  unfold date_formats in Hf. simpl in Hf.
  unfold strptime.
  destruct Hf as [<-|[<-|[<-|[<-|[<-|[]]]]]]; cbn [parse_format option_map].
  - rewrite match_format_day_first_short_year;
      [reflexivity|lia|reflexivity|assumption|assumption|cbn; lia].
  - rewrite match_format_day_first_short_year;
      [reflexivity|lia|reflexivity|assumption|assumption|cbn; lia].
  - rewrite match_format_day_first_short_year;
      [reflexivity|lia|reflexivity|assumption|assumption|cbn; lia].
  - rewrite match_format_year_separator;
      [reflexivity|apply unpadded_short_length; lia|reflexivity].
  - rewrite match_format_year_separator;
      [reflexivity|apply unpadded_short_length; lia|reflexivity].
Qed.


Lemma strptime_valid (s fmt : string) (dt : datetime) :
  strptime s fmt = Some dt ->
  valid_date (year dt) (month dt) (day dt) = true.
Proof.
  unfold strptime. destruct (parse_format fmt) as [ds|]; [|discriminate].
  destruct (match_format ds s _) as [[dt' [|c r]]|]; try discriminate.
  destruct (valid_date _ _ _) eqn:E; [|discriminate].
  now intros [= <-].
Qed.

Lemma first_some_strptime_valid (s : string) (fmts : list string)
      (dt : datetime) :
  first_some (fun fmt => strptime s fmt) fmts = Some dt ->
  valid_date (year dt) (month dt) (day dt) = true.
Proof.
  induction fmts as [|fmt fmts IH]; simpl; [discriminate|].
  destruct (strptime s fmt) as [dt'|] eqn:E.
  - intros [= <-]. exact (strptime_valid s fmt dt' E).
  - exact IH.
Qed.


(** * Further properties of the program *)

(** ** The error list of one invoice *)

(** Case analysis on a position in an explicit list. *)
Ltac rule_at Hj j :=
  destruct j as [|j]; simpl in Hj;
  [ first [discriminate Hj | injection Hj as <-]
  | first [discriminate Hj | rule_at Hj j] ].

Section ErrorList.

Variable float_repr : PyFloat.float -> string.
Variable float_sum : list PyFloat.float -> PyFloat.float.
Variable now_year : Z.

(** The message of the rule at position [j] of the rule list is worded
    the way of that position. *)
Lemma rule_message_family (invoice : Invoice) (j : nat) (rule : ValidationRule)
      (e : string) :
  nth_error rules j = Some rule ->
  validate float_repr float_sum now_year rule invoice = Some e ->
  rule_family e = j.
Proof.
  intros Hj He. unfold rules in Hj.
  rule_at Hj j; simpl in He.
  1-4: unfold CompletenessRule_validate in He;
    destruct (getattr_str invoice _) as [[|c v]|];
    try destruct (strip (String c v));
    inversion He; reflexivity.
  1-2: unfold DateFormatRule_validate in He;
    destruct (getattr_str invoice _) as [[|c v]|]; cbn [truthy negb] in He;
    try discriminate;
    destruct (strptime (String c v) "%Y-%m-%d") as [dt|];
    try destruct ((year dt <? now_year - 50) || (year dt >? now_year + 10));
    inversion He; reflexivity.
  - unfold CurrencyRule_validate in He.
    destruct (currency invoice) as [[|c v]|]; cbn [truthy negb] in He;
      try discriminate.
    destruct (negb (str_in (upper (String c v)) ALLOWED_CURRENCIES));
      inversion He; reflexivity.
  - unfold AmountSignRule_validate in He.
    destruct (getattr_float invoice _) as [x|]; try discriminate.
    destruct (PyFloat.ltb x PyFloat.zero); inversion He; reflexivity.
  - unfold AmountSignRule_validate in He.
    destruct (getattr_float invoice _) as [x|]; try discriminate.
    destruct (PyFloat.ltb x PyFloat.zero); inversion He; reflexivity.
  - unfold AmountSignRule_validate in He.
    destruct (getattr_float invoice _) as [x|]; try discriminate.
    destruct (PyFloat.ltb x PyFloat.zero); inversion He; reflexivity.
  - unfold TotalConsistencyRule_validate in He.
    destruct (net_total invoice), (tax_amount invoice), (gross_total invoice);
      try discriminate.
    destruct (PyFloat.gtb _ _); inversion He; reflexivity.
  - unfold DueDateRule_validate in He.
    destruct (truthy (invoice_date invoice) && truthy (due_date invoice));
      try discriminate.
    destruct (invoice_date invoice), (due_date invoice); try discriminate.
    destruct (strptime _ _) as [a|]; try discriminate.
    destruct (strptime _ _) as [b|]; try discriminate.
    destruct (datetime_ltb b a); inversion He; reflexivity.
  - unfold LineItemsConsistencyRule_validate in He.
    destruct (line_items invoice), (net_total invoice); try discriminate.
    destruct (_ && _); inversion He; reflexivity.
  - unfold PartyNamesRule_validate in He.
    destruct (seller_name invoice), (buyer_name invoice); try discriminate.
    destruct (_ && _); inversion He; reflexivity.
Qed.

(** No rule of the validator returns the empty message. *)
Lemma rule_message_not_empty (invoice : Invoice) (rule : ValidationRule) :
  In rule rules ->
  validate float_repr float_sum now_year rule invoice <> Some "".
Proof.
  intros Hr He. apply In_nth_error in Hr as [j Hj].
  pose proof (rule_message_family invoice j rule "" Hj He) as Hf.
  assert (Hlt : (j < List.length rules)%nat)
    by (apply nth_error_Some; congruence).
  rewrite <- Hf in Hlt. vm_compute in Hlt. lia.
Qed.

Lemma rule_errors_family (invoice : Invoice) (rs : list ValidationRule)
      (k : nat) :
  (forall j rule e,
      nth_error rs j = Some rule ->
      validate float_repr float_sum now_year rule invoice = Some e ->
      rule_family e = (k + j)%nat) ->
  StronglySorted (fun a b => (rule_family a < rule_family b)%nat)
                 (flat_map (rule_errors float_repr float_sum now_year invoice)
                           rs)
  /\ Forall (fun e => (k <= rule_family e)%nat)
            (flat_map (rule_errors float_repr float_sum now_year invoice) rs).
Proof.
  revert k. induction rs as [|r rs IH]; intros k H; simpl.
  - split; constructor.
  - destruct (IH (S k)) as [Hs Hf].
    { intros j rule e Hj He. rewrite (H (S j) rule e Hj He). lia. }
    unfold rule_errors at 1 3.
    destruct (validate float_repr float_sum now_year r invoice)
      as [[|c e]|] eqn:Hv; simpl.
    + split; [exact Hs|].
      eapply Forall_impl; [|exact Hf]. simpl. intros; lia.
    + pose proof (H 0%nat r (String c e) eq_refl Hv) as H0.
      rewrite Nat.add_0_r in H0. split.
      * constructor; [exact Hs|].
        eapply Forall_impl; [|exact Hf]. simpl. intros a Ha. lia.
      * constructor; [lia|].
        eapply Forall_impl; [|exact Hf]. simpl. intros; lia.
    + split; [exact Hs|].
      eapply Forall_impl; [|exact Hf]. simpl. intros; lia.
Qed.

Lemma errors_sorted_by_rule (invoice : Invoice) :
  StronglySorted (fun a b => (rule_family a < rule_family b)%nat)
                 (errors (validate_invoice float_repr float_sum now_year
                                           invoice)).
Proof.
  rewrite errors_flat_map.
  apply (rule_errors_family invoice rules 0).
  intros j rule e Hj He. exact (rule_message_family invoice j rule e Hj He).
Qed.

Lemma strongly_sorted_NoDup {A : Type} (f : A -> nat) (l : list A) :
  StronglySorted (fun a b => (f a < f b)%nat) l -> NoDup l.
Proof.
  induction 1 as [|a l Hs IH Hf]; constructor; [|exact IH].
  intros Hin. rewrite Forall_forall in Hf. specialize (Hf a Hin). lia.
Qed.

Lemma flat_map_length_le {A B : Type} (f : A -> list B) (l : list A) :
  (forall x, (List.length (f x) <= 1)%nat) ->
  (List.length (flat_map f l) <= List.length l)%nat.
Proof.
  intros H. induction l as [|x l IH]; simpl; [lia|].
  rewrite length_app. specialize (H x). lia.
Qed.

End ErrorList.

Section ErrorListProperties.

Variable float_repr : PyFloat.float -> string.
Variable float_sum : list PyFloat.float -> PyFloat.float.
Variable now_year : Z.

Lemma errors_and_validity (invoice : Invoice) :
  errors (validate_invoice float_repr float_sum now_year invoice)
  = flat_map (fun rule =>
                match validate float_repr float_sum now_year rule invoice with
                | Some e => [e]
                | None => []
                end) rules
  /\ (is_valid (validate_invoice float_repr float_sum now_year invoice) = true
      <-> forall rule, In rule rules ->
                       validate float_repr float_sum now_year rule invoice
                       = None).
Proof.
  assert (E : errors (validate_invoice float_repr float_sum now_year invoice)
              = flat_map (fun rule =>
                            match validate float_repr float_sum now_year rule
                                           invoice with
                            | Some e => [e]
                            | None => []
                            end) rules).
  { rewrite errors_flat_map.
    assert (G : forall rs, (forall r, In r rs -> In r rules) ->
                flat_map (rule_errors float_repr float_sum now_year invoice) rs
                = flat_map (fun rule =>
                              match validate float_repr float_sum now_year rule
                                             invoice with
                              | Some e => [e]
                              | None => []
                              end) rs).
    { induction rs as [|r rs IH]; intros Hin; simpl; [reflexivity|].
      rewrite IH by (intros x Hx; apply Hin; now right).
      f_equal. unfold rule_errors.
      pose proof (rule_message_not_empty float_repr float_sum now_year
                    invoice r (Hin r (or_introl eq_refl))) as Hne.
      destruct (validate float_repr float_sum now_year r invoice)
        as [[|c e]|]; [congruence|reflexivity|reflexivity]. }
    apply G. auto. }
  split; [exact E|].
  rewrite is_valid_errors, E. split.
  - intros H rule Hr.
    destruct (validate float_repr float_sum now_year rule invoice)
      as [e|] eqn:Hv; [|reflexivity].
    assert (Hin : In e (flat_map (fun rule =>
                          match validate float_repr float_sum now_year rule
                                         invoice with
                          | Some e => [e]
                          | None => []
                          end) rules)).
    { apply in_flat_map. exists rule. split; [exact Hr|].
      rewrite Hv. now left. }
    destruct (flat_map _ rules); [contradiction|discriminate].
  - intros H.
    assert (Hnil : flat_map (fun rule =>
                     match validate float_repr float_sum now_year rule
                                    invoice with
                     | Some e => [e]
                     | None => []
                     end) rules = []).
    { assert (G : forall rs, (forall r, In r rs -> In r rules) ->
                  flat_map (fun rule =>
                     match validate float_repr float_sum now_year rule
                                    invoice with
                     | Some e => [e]
                     | None => []
                     end) rs = []).
      { induction rs as [|r rs IH]; intros Hin; simpl; [reflexivity|].
        rewrite (H r) by (apply Hin; now left).
        apply IH. intros x Hx. apply Hin. now right. }
      apply G. auto. }
    now rewrite Hnil.
Qed.

(** X1: the errors of an invoice are the messages of the rules that
    return one, in the order of the rule list: no message is lost to the
    truthiness test of the loop.  So an invoice is valid exactly when every
    rule of the validator returns [None]. *)
Theorem errors_are_rule_messages (invoice : Invoice) :
  errors (validate_invoice float_repr float_sum now_year invoice)
  = flat_map (fun rule =>
                match validate float_repr float_sum now_year rule invoice with
                | Some e => [e]
                | None => []
                end) rules
  /\ (is_valid (validate_invoice float_repr float_sum now_year invoice) = true
      <-> forall rule, In rule rules ->
                       validate float_repr float_sum now_year rule invoice
                       = None).
Proof.
  destruct (errors_and_validity invoice) as [Herrors Hvalid].
  split.
  - exact Herrors.
  - exact Hvalid.
Qed.

Lemma errors_NoDup (invoice : Invoice) :
  NoDup (errors (validate_invoice float_repr float_sum now_year invoice)).
Proof.
  exact (strongly_sorted_NoDup rule_family _
           (errors_sorted_by_rule float_repr float_sum now_year invoice)).
Qed.

(** X2: the errors of an invoice are listed in the order of the rules
    that word them, no error is listed twice, and there are at most 14. *)
Theorem errors_in_rule_order (invoice : Invoice) :
  let errs := errors (validate_invoice float_repr float_sum now_year invoice) in
  StronglySorted (fun a b => (rule_family a < rule_family b)%nat) errs
  /\ NoDup errs
  /\ (List.length errs <= 14)%nat.
Proof.
  intros errs.
  pose proof (errors_sorted_by_rule float_repr float_sum now_year invoice)
    as Hs.
  split; [exact Hs|]. split.
  - exact (strongly_sorted_NoDup rule_family errs Hs).
  - subst errs. rewrite errors_flat_map.
    change 14%nat with (List.length rules).
    apply flat_map_length_le. intros rule. unfold rule_errors.
    destruct (validate float_repr float_sum now_year rule invoice)
      as [[|c e]|]; simpl; lia.
Qed.

End ErrorListProperties.

(** ** The dictionary of error counts *)

Lemma get_count_incr (e e' : string) (counts : list (string * Z)) :
  get_count e (incr_count e' counts)
  = get_count e counts + (if String.eqb e' e then 1 else 0).
Proof.
  induction counts as [|[k n] r IH]; simpl.
  - destruct (String.eqb e' e); reflexivity.
  - destruct (String.eqb_spec k e') as [->|Hk]; simpl.
    + destruct (String.eqb_spec e' e); lia.
    + rewrite IH. destruct (String.eqb_spec k e) as [->|_]; [|reflexivity].
      destruct (String.eqb_spec e' e); [congruence|lia].
Qed.

Lemma incr_count_keys (e : string) (counts : list (string * Z)) :
  map fst (incr_count e counts)
  = if str_in e (map fst counts) then map fst counts
    else (map fst counts ++ [e])%list.
Proof.
  unfold str_in. induction counts as [|[k n] r IH]; simpl; [reflexivity|].
  rewrite (String.eqb_sym e k).
  destruct (String.eqb k e); simpl; [reflexivity|].
  rewrite IH. now destruct (existsb (String.eqb e) (map fst r)).
Qed.

Lemma str_in_In (x : string) (l : list string) :
  str_in x l = true <-> In x l.
Proof.
  unfold str_in. rewrite existsb_exists. split.
  - intros [y [Hy E]]. apply String.eqb_eq in E. now subst.
  - intros H. exists x. split; [exact H|apply String.eqb_refl].
Qed.

Lemma incr_count_NoDup (e : string) (counts : list (string * Z)) :
  NoDup (map fst counts) -> NoDup (map fst (incr_count e counts)).
Proof.
  intros H. rewrite incr_count_keys.
  destruct (str_in e (map fst counts)) eqn:E; [exact H|].
  apply NoDup_app; [exact H|repeat constructor; intros []|].
  intros x Hx [<-|[]].
  apply str_in_In in Hx. congruence.
Qed.

Lemma incr_count_positive (e : string) (counts : list (string * Z)) :
  Forall (fun kv => 1 <= snd kv) counts ->
  Forall (fun kv => 1 <= snd kv) (incr_count e counts).
Proof.
  induction counts as [|[k n] r IH]; intros H; simpl.
  - constructor; [simpl; lia|constructor].
  - inversion H as [|? ? H1 H2]; subst. simpl in H1.
    destruct (String.eqb k e); constructor; simpl; auto; lia.
Qed.

Lemma incr_count_sum (e : string) (counts : list (string * Z)) :
  sum_counts (incr_count e counts) = sum_counts counts + 1.
Proof.
  unfold sum_counts.
  induction counts as [|[k n] r IH]; simpl; [reflexivity|].
  destruct (String.eqb k e); simpl; [lia|]. rewrite IH. lia.
Qed.

Lemma fold_incr_count (e : string) (errs : list string)
      (counts : list (string * Z)) :
  get_count e (fold_left (fun c x => incr_count x c) errs counts)
  = get_count e counts + Z.of_nat (count_occ string_dec errs e).
Proof.
  revert counts. induction errs as [|x errs IH]; intros counts; simpl.
  - lia.
  - rewrite IH, get_count_incr.
    destruct (string_dec x e) as [->|Hx].
    + rewrite String.eqb_refl, Nat2Z.inj_succ. lia.
    + apply String.eqb_neq in Hx. rewrite Hx. lia.
Qed.

Lemma fold_incr_count_invariants (errs : list string)
      (counts : list (string * Z)) :
  NoDup (map fst counts) -> Forall (fun kv => 1 <= snd kv) counts ->
  let counts' := fold_left (fun c x => incr_count x c) errs counts in
  NoDup (map fst counts') /\ Forall (fun kv => 1 <= snd kv) counts'
  /\ sum_counts counts' = sum_counts counts + Z.of_nat (List.length errs).
Proof.
  revert counts. induction errs as [|x errs IH]; intros counts Hn Hp; simpl.
  - repeat split; try assumption. lia.
  - destruct (IH (incr_count x counts) (incr_count_NoDup x counts Hn)
                 (incr_count_positive x counts Hp)) as (H1 & H2 & H3).
    repeat split; try assumption.
    rewrite H3, incr_count_sum. lia.
Qed.

Lemma positive_counts_keys (e : string) (counts : list (string * Z)) :
  Forall (fun kv => 1 <= snd kv) counts ->
  (In e (map fst counts) <-> 0 < get_count e counts).
Proof.
  induction counts as [|[k n] r IH]; intros H; simpl.
  - split; [intros []|lia].
  - inversion H as [|? ? H1 H2]; subst. simpl in H1.
    destruct (String.eqb_spec k e) as [->|Hk].
    + split; [intros _; lia|now left].
    + rewrite <- (IH H2). split; [intros [E|E]; [congruence|exact E]|now right].
Qed.

Lemma count_occ_NoDup (e : string) (l : list string) :
  NoDup l ->
  count_occ string_dec l e = if str_in e l then 1%nat else 0%nat.
Proof.
  intros Hn. destruct (str_in e l) eqn:E.
  - apply str_in_In in E.
    pose proof (proj1 (NoDup_count_occ string_dec l) Hn e).
    pose proof (proj1 (count_occ_In string_dec l e) E). lia.
  - apply count_occ_not_In. intros Hin. apply str_in_In in Hin. congruence.
Qed.

Lemma count_occ_flat_map_NoDup {A : Type} (f : A -> list string) (e : string)
      (l : list A) :
  (forall x, In x l -> NoDup (f x)) ->
  count_occ string_dec (flat_map f l) e
  = List.length (filter (fun x => str_in e (f x)) l).
Proof.
  induction l as [|x l IH]; intros H; simpl; [reflexivity|].
  rewrite count_occ_app, IH by (intros y Hy; apply H; now right).
  rewrite (count_occ_NoDup e (f x)) by (apply H; now left).
  destruct (str_in e (f x)); reflexivity.
Qed.

Lemma filter_length_implies {A : Type} (p q : A -> bool) (l : list A) :
  (forall x, In x l -> p x = true -> q x = true) ->
  (List.length (filter p l) <= List.length (filter q l))%nat.
Proof.
  induction l as [|x l IH]; intros H; simpl; [lia|].
  assert (IH' : (List.length (filter p l) <= List.length (filter q l))%nat)
    by (apply IH; intros y Hy; apply H; now right).
  destruct (p x) eqn:Hp.
  - rewrite (H x (or_introl eq_refl) Hp). simpl. lia.
  - destruct (q x); simpl; lia.
Qed.

Section ErrorCounts.

Variable float_repr : PyFloat.float -> string.
Variable float_sum : list PyFloat.float -> PyFloat.float.
Variable now_year : Z.

Lemma snd_validate_step (st : list ValidationResult * list (string * Z))
      (i : Invoice) :
  snd (validate_step float_repr float_sum now_year st i)
  = fold_left (fun c x => incr_count x c)
              (errors (validate_invoice float_repr float_sum now_year i))
              (snd st).
Proof. reflexivity. Qed.

Lemma validate_step_counts (e : string) (invoices : list Invoice)
      (st : list ValidationResult * list (string * Z)) :
  get_count e (snd (fold_left (validate_step float_repr float_sum now_year)
                              invoices st))
  = get_count e (snd st)
    + Z.of_nat (count_occ string_dec
                  (flat_map errors
                     (map (validate_invoice float_repr float_sum now_year)
                          invoices)) e).
Proof.
  revert st. induction invoices as [|i invoices IH]; intros st;
    cbn [fold_left map flat_map].
  - cbn [count_occ]. lia.
  - rewrite IH, snd_validate_step, fold_incr_count, count_occ_app,
      Nat2Z.inj_add. lia.
Qed.

Lemma validate_step_invariants (invoices : list Invoice)
      (st : list ValidationResult * list (string * Z)) :
  NoDup (map fst (snd st)) -> Forall (fun kv => 1 <= snd kv) (snd st) ->
  let st' := fold_left (validate_step float_repr float_sum now_year)
                       invoices st in
  NoDup (map fst (snd st')) /\ Forall (fun kv => 1 <= snd kv) (snd st')
  /\ sum_counts (snd st')
     = sum_counts (snd st)
       + Z.of_nat (List.length
                     (flat_map errors
                        (map (validate_invoice float_repr float_sum now_year)
                             invoices))).
Proof.
  revert st. induction invoices as [|i invoices IH]; intros st Hn Hp;
    cbn zeta; cbn [fold_left map flat_map].
  - repeat split; try assumption. cbn [List.length]. lia.
  - destruct (fold_incr_count_invariants
                (errors (validate_invoice float_repr float_sum now_year i))
                (snd st) Hn Hp) as (H1 & H2 & H3).
    rewrite <- snd_validate_step in H1, H2, H3.
    destruct (IH (validate_step float_repr float_sum now_year st i) H1 H2)
      as (G1 & G2 & G3).
    repeat split; try assumption.
    rewrite G3, H3, length_app, Nat2Z.inj_add. lia.
Qed.

Lemma error_counts_fold (invoices : list Invoice) :
  error_counts (validate_invoices float_repr float_sum now_year invoices)
  = snd (fold_left (validate_step float_repr float_sum now_year)
                   invoices ([], [])).
Proof.
  unfold validate_invoices.
  destruct (fold_left (validate_step float_repr float_sum now_year)
                      invoices ([], [])) as [rs cs].
  reflexivity.
Qed.

(** X3: the count stored for an error is the number of invoices of the
    batch whose result lists that error, and it never exceeds
    [invalid_invoices]; an error that no invoice has counts as 0. *)
Theorem error_count_is_number_of_invoices (invoices : list Invoice)
        (e : string) :
  let summary := validate_invoices float_repr float_sum now_year invoices in
  get_count e (error_counts summary)
  = Z.of_nat (List.length
                (filter (fun r => str_in e (errors r)) (results summary)))
  /\ get_count e (error_counts summary) <= invalid_invoices summary.
Proof.
  intros summary.
  assert (E : get_count e (error_counts summary)
              = Z.of_nat (List.length
                            (filter (fun r => str_in e (errors r))
                                    (results summary)))).
  { subst summary. rewrite error_counts_fold, validate_step_counts, results_map.
    cbn [snd get_count]. rewrite Z.add_0_l. f_equal.
    apply count_occ_flat_map_NoDup.
    intros r Hr. apply in_map_iff in Hr as [i [<- _]].
    apply (errors_NoDup float_repr float_sum now_year i). }
  split; [exact E|]. rewrite E.
  destruct (summary_counts float_repr float_sum now_year invoices)
    as (_ & Hv & Hi).
  fold summary in Hv, Hi. rewrite Hi, Hv.
  pose proof (filter_length is_valid (results summary)) as Hfl.
  assert (Hle : (List.length (filter (fun r => str_in e (errors r))
                                     (results summary))
                 <= List.length (filter (fun r => negb (is_valid r))
                                        (results summary)))%nat).
  { apply filter_length_implies. intros r Hr Hin.
    subst summary. rewrite results_map in Hr.
    apply in_map_iff in Hr as [i [<- _]].
    rewrite is_valid_errors. apply str_in_In in Hin.
    destruct (errors (validate_invoice float_repr float_sum now_year i));
      [contradiction|reflexivity]. }
  lia.
Qed.

(** X4: the dictionary of error counts has distinct keys, which are
    exactly the errors that some result lists; every stored count is at
    least 1, and the counts add up to the number of errors of all
    results. *)
Theorem error_counts_keys_and_total (invoices : list Invoice) :
  let summary := validate_invoices float_repr float_sum now_year invoices in
  NoDup (map fst (error_counts summary))
  /\ (forall e : string,
         In e (map fst (error_counts summary))
         <-> exists r, In r (results summary) /\ In e (errors r))
  /\ Forall (fun kv => 1 <= snd kv) (error_counts summary)
  /\ sum_counts (error_counts summary)
     = Z.of_nat (List.length (flat_map errors (results summary))).
Proof.
  intros summary. subst summary.
  rewrite error_counts_fold, results_map.
  destruct (validate_step_invariants invoices ([], []))
    as (Hn & Hp & Hs); [constructor|constructor|].
  split; [exact Hn|]. split; [|split; [exact Hp|exact Hs]].
  intros e. rewrite (positive_counts_keys e _ Hp), validate_step_counts.
  cbn [snd get_count]. rewrite Z.add_0_l, <- in_flat_map.
  rewrite (count_occ_In string_dec). lia.
Qed.

End ErrorCounts.

(** ** What the errors of an invoice say about it *)

Lemma strip_head_not_space (c : ascii) (r : string) :
  is_space c = false -> strip (String c r) <> "".
Proof.
  intros Hc. unfold strip. cbn [lstrip]. rewrite Hc. cbn [rstrip].
  destruct (rstrip r); [rewrite Hc|]; discriminate.
Qed.

Lemma strip_blank_head (c : ascii) (r : string) :
  strip (String c r) = "" -> is_space c = true.
Proof.
  intros H. destruct (is_space c) eqn:Hc; [reflexivity|].
  now apply strip_head_not_space in H.
Qed.

Lemma space_not_digit (c : ascii) : is_space c = true -> is_digit c = false.
Proof.
  unfold is_space, is_digit. intros H.
  destruct ((48 <=? ascii_code c) && (ascii_code c <=? 57)) eqn:E;
    [|reflexivity].
  apply andb_true_iff in E as [E1 E2].
  apply Z.leb_le in E1. apply Z.leb_le in E2.
  apply orb_true_iff in H as [H|H]; apply andb_true_iff in H as [H1 H2];
    apply Z.leb_le in H1; apply Z.leb_le in H2; lia.
Qed.

(** A string that parses with [%Y-%m-%d] starts with a digit. *)
Lemma strptime_iso_head (s : string) (dt : datetime) :
  strptime s "%Y-%m-%d" = Some dt ->
  exists c r, s = String c r /\ is_digit c = true.
Proof.
  unfold strptime. change (parse_format "%Y-%m-%d") with (Some iso_directives).
  cbv beta iota. unfold iso_directives. rewrite match_format_cons.
  destruct s as [|c r]; [discriminate|].
  destruct (is_digit c) eqn:Hc; [eauto|].
  assert (E : directive_matches dir_Y (String c r) = []).
  { cbn [directive_matches]. destruct r as [|c2 [|c3 [|c4 r]]]; try reflexivity.
    now rewrite Hc. }
  rewrite E. discriminate.
Qed.

Lemma strptime_iso_not_blank (s : string) (dt : datetime) :
  strptime s "%Y-%m-%d" = Some dt -> strip s <> "".
Proof.
  intros H. destruct (strptime_iso_head s dt H) as (c & r & -> & Hc).
  apply strip_head_not_space.
  destruct (is_space c) eqn:Hs; [|reflexivity].
  apply space_not_digit in Hs. congruence.
Qed.

Section ErrorMeaning.

Variable float_repr : PyFloat.float -> string.
Variable float_sum : list PyFloat.float -> PyFloat.float.
Variable now_year : Z.

(** An error is listed exactly when the rule at the position of its
    wording returns it. *)
Lemma error_from_rule (invoice : Invoice) (e : string) (rule : ValidationRule) :
  nth_error rules (rule_family e) = Some rule ->
  In e (errors (validate_invoice float_repr float_sum now_year invoice)) ->
  validate float_repr float_sum now_year rule invoice = Some e.
Proof.
  intros Hn Hin. apply in_errors_inv in Hin as [rule' [Hr Hv]].
  apply In_nth_error in Hr as [j Hj].
  pose proof (rule_message_family float_repr float_sum now_year invoice j
                rule' _ Hj Hv) as Hf.
  rewrite Hf in Hn. congruence.
Qed.

Lemma rule_to_error (invoice : Invoice) (e : string) (rule : ValidationRule) :
  nth_error rules (rule_family e) = Some rule ->
  validate float_repr float_sum now_year rule invoice = Some e ->
  In e (errors (validate_invoice float_repr float_sum now_year invoice)).
Proof.
  intros Hn Hv. pose proof (nth_error_In _ _ Hn) as Hr.
  destruct e as [|c e].
  - exact (False_ind _ (rule_message_not_empty float_repr float_sum now_year
                          invoice rule Hr Hv)).
  - exact (in_errors_intro float_repr float_sum now_year invoice rule c e
                           Hr Hv).
Qed.

(** X5: an unparseable date is not reported a second time by the
    due-date rule.  When the errors contain
    [business_rule_failed: due_date_before_invoice_date], they contain
    neither [invalid_date_format] for one of the two dates nor
    [missing_field: invoice_date]. *)
Theorem due_date_error_excludes_format_errors (invoice : Invoice) :
  let errs := errors (validate_invoice float_repr float_sum now_year invoice) in
  In "business_rule_failed: due_date_before_invoice_date" errs ->
  ~ In "invalid_date_format: invoice_date" errs
  /\ ~ In "invalid_date_format: due_date" errs
  /\ ~ In "missing_field: invoice_date" errs.
Proof.
  intros errs Hdue. subst errs.
  apply (error_from_rule invoice "business_rule_failed: due_date_before_invoice_date"
             DueDateRule eq_refl) in Hdue.
  cbn [validate] in Hdue. unfold DueDateRule_validate in Hdue.
  destruct (truthy (invoice_date invoice) && truthy (due_date invoice));
    [|discriminate].
  destruct (invoice_date invoice) as [i|] eqn:Hi; [|discriminate].
  destruct (due_date invoice) as [d|] eqn:Hd; [|discriminate].
  destruct (strptime i "%Y-%m-%d") as [a|] eqn:Ha; [|discriminate].
  destruct (strptime d "%Y-%m-%d") as [b|] eqn:Hb; [|discriminate].
  pose proof (strptime_truthy i a Ha) as Hti.
  pose proof (strptime_truthy d b Hb) as Htd.
  split; [|split]; intros Hin.
  - apply (error_from_rule invoice "invalid_date_format: invoice_date"
             (DateFormatRule "invoice_date") eq_refl) in Hin.
    cbn [validate] in Hin. unfold DateFormatRule_validate in Hin.
    change (getattr_str invoice "invoice_date") with (invoice_date invoice)
      in Hin.
    rewrite Hi, Hti, Ha in Hin. cbn [negb] in Hin.
    destruct ((year a <? now_year - 50) || (year a >? now_year + 10));
      discriminate.
  - apply (error_from_rule invoice "invalid_date_format: due_date"
             (DateFormatRule "due_date") eq_refl) in Hin.
    cbn [validate] in Hin. unfold DateFormatRule_validate in Hin.
    change (getattr_str invoice "due_date") with (due_date invoice) in Hin.
    rewrite Hd, Htd, Hb in Hin. cbn [negb] in Hin.
    destruct ((year b <? now_year - 50) || (year b >? now_year + 10));
      discriminate.
  - apply (error_from_rule invoice "missing_field: invoice_date"
             (CompletenessRule "invoice_date") eq_refl) in Hin.
    cbn [validate] in Hin. unfold CompletenessRule_validate in Hin.
    change (getattr_str invoice "invoice_date") with (invoice_date invoice)
      in Hin.
    rewrite Hi in Hin.
    destruct i as [|c r]; [discriminate|].
    pose proof (strptime_iso_not_blank _ a Ha) as Hns.
    destruct (strip (String c r)); [congruence|discriminate].
Qed.

(** X6: a date that is set but blank is reported twice.  When
    [invoice_date] is a non-empty string of white space only, the errors
    contain both [missing_field: invoice_date] and
    [invalid_date_format: invoice_date]; the empty string gets the first
    one only. *)
Theorem blank_invoice_date_reported_twice (invoice : Invoice) (s : string) :
  let errs := errors (validate_invoice float_repr float_sum now_year invoice) in
  invoice_date invoice = Some s -> strip s = "" ->
  In "missing_field: invoice_date" errs
  /\ (s <> "" -> In "invalid_date_format: invoice_date" errs)
  /\ (s = "" -> ~ In "invalid_date_format: invoice_date" errs
                /\ ~ In "date_out_of_range: invoice_date" errs).
Proof.
  intros errs Hi Hs. subst errs. split; [|split].
  - apply (rule_to_error invoice "missing_field: invoice_date"
             (CompletenessRule "invoice_date") eq_refl).
    cbn [validate]. unfold CompletenessRule_validate.
    change (getattr_str invoice "invoice_date") with (invoice_date invoice).
    rewrite Hi. destruct s as [|c r]; [reflexivity|]. now rewrite Hs.
  - intros Hne.
    apply (rule_to_error invoice "invalid_date_format: invoice_date"
             (DateFormatRule "invoice_date") eq_refl).
    cbn [validate]. unfold DateFormatRule_validate.
    change (getattr_str invoice "invoice_date") with (invoice_date invoice).
    rewrite Hi. destruct s as [|c r]; [congruence|]. cbn [truthy negb].
    destruct (strptime (String c r) "%Y-%m-%d") as [dt|] eqn:Hp;
      [|reflexivity].
    apply strptime_iso_not_blank in Hp. congruence.
  - intros ->. split; intros Hin;
      [ apply (error_from_rule invoice "invalid_date_format: invoice_date"
             (DateFormatRule "invoice_date") eq_refl) in Hin
      | apply (error_from_rule invoice "date_out_of_range: invoice_date"
             (DateFormatRule "invoice_date") eq_refl) in Hin ];
      cbn [validate] in Hin; unfold DateFormatRule_validate in Hin;
      change (getattr_str invoice "invoice_date") with (invoice_date invoice)
        in Hin;
      rewrite Hi in Hin; discriminate.
Qed.

End ErrorMeaning.

Lemma due_date_error_excludes_format_errors_witness :
  (forall float_repr float_sum now_year,
      In "business_rule_failed: due_date_before_invoice_date"
         (errors (validate_invoice float_repr float_sum now_year
                                   invoice_INV_1)))
  /\ forall float_repr float_sum now_year,
      ~ In "invalid_date_format: invoice_date"
           (errors (validate_invoice float_repr float_sum now_year
                                     invoice_INV_1)).
Proof.
  assert (H : forall float_repr float_sum now_year,
             In "business_rule_failed: due_date_before_invoice_date"
                (errors (validate_invoice float_repr float_sum now_year
                                          invoice_INV_1))).
  { intros. apply (rule_to_error float_repr float_sum now_year invoice_INV_1
                     "business_rule_failed: due_date_before_invoice_date"
                     DueDateRule eq_refl).
    vm_compute. reflexivity. }
  split; [exact H|].
  intros float_repr float_sum now_year.
  exact (proj1 (due_date_error_excludes_format_errors
                  float_repr float_sum now_year invoice_INV_1
                  (H float_repr float_sum now_year))).
Defined.

Lemma blank_invoice_date_reported_twice_witness :
  (invoice_date invoice_blank_date = Some " " /\ strip " " = "")
  /\ forall float_repr float_sum now_year,
      In "missing_field: invoice_date"
         (errors (validate_invoice float_repr float_sum now_year
                                   invoice_blank_date)).
Proof.
  split; [split; reflexivity|].
  intros float_repr float_sum now_year.
  exact (proj1 (blank_invoice_date_reported_twice
                  float_repr float_sum now_year invoice_blank_date " "
                  eq_refl eq_refl)).
Defined.

Section ValidVerdict.

Variable float_repr : PyFloat.float -> string.
Variable float_sum : list PyFloat.float -> PyFloat.float.
Variable now_year : Z.

Lemma completeness_passes (invoice : Invoice) (f : string) :
  CompletenessRule_validate f invoice = None ->
  exists v, getattr_str invoice f = Some v /\ strip v <> "".
Proof.
  unfold CompletenessRule_validate.
  destruct (getattr_str invoice f) as [[|c v]|]; try discriminate.
  destruct (strip (String c v)) eqn:E; [discriminate|].
  intros _. exists (String c v). split; [reflexivity|]. rewrite E. discriminate.
Qed.

Lemma date_format_passes (invoice : Invoice) (f s : string) :
  DateFormatRule_validate now_year f invoice = None ->
  getattr_str invoice f = Some s -> s <> "" ->
  exists dt, strptime s "%Y-%m-%d" = Some dt
             /\ now_year - 50 <= year dt <= now_year + 10.
Proof.
  unfold DateFormatRule_validate. intros H Hs Hne. rewrite Hs in H.
  destruct s as [|c r]; [congruence|]. cbn [truthy negb] in H.
  destruct (strptime (String c r) "%Y-%m-%d") as [dt|]; [|discriminate].
  exists dt. split; [reflexivity|].
  destruct ((year dt <? now_year - 50) || (year dt >? now_year + 10)) eqn:E;
    [discriminate|].
  apply orb_false_iff in E as [E1 E2].
  apply Z.ltb_ge in E1. rewrite Z.gtb_ltb in E2. apply Z.ltb_ge in E2. lia.
Qed.

(** X7: what a valid verdict guarantees.  When [is_valid] is true, the
    four required fields are present and not blank; the invoice date
    parses with [%Y-%m-%d] and its year lies between the current year
    minus 50 and plus 10; a non-empty due date parses, lies in the same
    range and is not before the invoice date; a non-empty currency is,
    in upper case, one of the allowed codes; no total compares below
    zero; and the seller and buyer names differ after lower-casing and
    trimming. *)
Theorem valid_invoice_guarantees (invoice : Invoice) :
  is_valid (validate_invoice float_repr float_sum now_year invoice) = true ->
  (exists n, invoice_number invoice = Some n /\ strip n <> "")
  /\ (exists s b, seller_name invoice = Some s /\ strip s <> ""
                  /\ buyer_name invoice = Some b /\ strip b <> ""
                  /\ strip (lower s) <> strip (lower b))
  /\ (exists i dt, invoice_date invoice = Some i
                   /\ strptime i "%Y-%m-%d" = Some dt
                   /\ now_year - 50 <= year dt <= now_year + 10
                   /\ forall d, due_date invoice = Some d -> d <> "" ->
                        exists dt', strptime d "%Y-%m-%d" = Some dt'
                                    /\ now_year - 50 <= year dt' <= now_year + 10
                                    /\ ~ strictly_before dt' dt)
  /\ (forall c, currency invoice = Some c -> c <> "" ->
                In (upper c) ALLOWED_CURRENCIES)
  /\ (forall x, net_total invoice = Some x \/ tax_amount invoice = Some x
                \/ gross_total invoice = Some x ->
                PyFloat.ltb x PyFloat.zero = false).
Proof.
  intros Hvalid0.
  pose proof (proj1 (proj2 (errors_and_validity float_repr float_sum now_year
                                               invoice)) Hvalid0) as Hvalid.
  clear Hvalid0.
  assert (R : forall j rule, nth_error rules j = Some rule ->
                validate float_repr float_sum now_year rule invoice = None).
  { intros j rule Hj. apply Hvalid. exact (nth_error_In _ _ Hj). }
  pose proof (R 0%nat (CompletenessRule "invoice_number") eq_refl) as H0.
  pose proof (R 1%nat (CompletenessRule "invoice_date") eq_refl) as H1.
  pose proof (R 2%nat (CompletenessRule "seller_name") eq_refl) as H2.
  pose proof (R 3%nat (CompletenessRule "buyer_name") eq_refl) as H3.
  pose proof (R 4%nat (DateFormatRule "invoice_date") eq_refl) as H4.
  pose proof (R 5%nat (DateFormatRule "due_date") eq_refl) as H5.
  pose proof (R 6%nat CurrencyRule eq_refl) as H6.
  pose proof (R 7%nat (AmountSignRule "net_total") eq_refl) as H7.
  pose proof (R 8%nat (AmountSignRule "tax_amount") eq_refl) as H8.
  pose proof (R 9%nat (AmountSignRule "gross_total") eq_refl) as H9.
  pose proof (R 11%nat DueDateRule eq_refl) as H11.
  pose proof (R 13%nat PartyNamesRule eq_refl) as H13.
  clear R Hvalid. cbn [validate] in *.
  apply completeness_passes in H0 as (n & Hn & Hn').
  apply completeness_passes in H1 as (i & Hi & Hi').
  apply completeness_passes in H2 as (s & Hs & Hs').
  apply completeness_passes in H3 as (b & Hb & Hb').
  change (getattr_str invoice "invoice_number") with (invoice_number invoice)
    in Hn.
  change (getattr_str invoice "invoice_date") with (invoice_date invoice) in Hi.
  change (getattr_str invoice "seller_name") with (seller_name invoice) in Hs.
  change (getattr_str invoice "buyer_name") with (buyer_name invoice) in Hb.
  assert (Hine : i <> "") by (intros ->; now apply Hi').
  destruct (date_format_passes invoice "invoice_date" i H4 Hi Hine)
    as (dt & Hdt & Hrange).
  split; [eauto|]. split; [|split; [|split]].
  - exists s, b. repeat split; try assumption.
    unfold PartyNamesRule_validate in H13. rewrite Hs, Hb in H13.
    destruct s as [|cs s]; [now elim Hs'|].
    destruct b as [|cb b]; [now elim Hb'|].
    cbn [truthy andb] in H13.
    destruct (String.eqb_spec (strip (lower (String cs s)))
                              (strip (lower (String cb b)))) as [E|E];
      [discriminate|exact E].
  - exists i, dt. repeat split; try assumption; try lia.
    intros d Hd Hdne.
    destruct (date_format_passes invoice "due_date" d H5 Hd Hdne)
      as (dt' & Hdt' & Hrange').
    exists dt'. repeat split; try assumption; try lia.
    unfold DueDateRule_validate in H11. rewrite Hi, Hd, Hdt, Hdt' in H11.
    rewrite (strptime_truthy i dt Hdt), (strptime_truthy d dt' Hdt') in H11.
    cbn [andb] in H11. intros Hlt. apply datetime_ltb_spec in Hlt.
    rewrite Hlt in H11. discriminate.
  - intros c Hc Hcne. unfold CurrencyRule_validate in H6. rewrite Hc in H6.
    destruct c as [|cc c]; [congruence|]. cbn [truthy negb] in H6.
    destruct (str_in (upper (String cc c)) ALLOWED_CURRENCIES) eqn:E;
      [|discriminate].
    now apply str_in_In.
  - intros x [Hx|[Hx|Hx]].
    + unfold AmountSignRule_validate in H7.
      change (getattr_float invoice "net_total") with (net_total invoice) in H7.
      rewrite Hx in H7. destruct (PyFloat.ltb x PyFloat.zero);
        [discriminate|reflexivity].
    + unfold AmountSignRule_validate in H8.
      change (getattr_float invoice "tax_amount") with (tax_amount invoice)
        in H8.
      rewrite Hx in H8. destruct (PyFloat.ltb x PyFloat.zero);
        [discriminate|reflexivity].
    + unfold AmountSignRule_validate in H9.
      change (getattr_float invoice "gross_total") with (gross_total invoice)
        in H9.
      rewrite Hx in H9. destruct (PyFloat.ltb x PyFloat.zero);
        [discriminate|reflexivity].
Qed.

End ValidVerdict.

Lemma valid_invoice_guarantees_witness :
  (forall float_repr float_sum,
      is_valid (validate_invoice float_repr float_sum 2024 invoice_INV_9)
      = true)
  /\ forall (float_repr : PyFloat.float -> string)
            (float_sum : list PyFloat.float -> PyFloat.float),
      exists n, invoice_number invoice_INV_9 = Some n /\ strip n <> "".
Proof.
  assert (H : forall float_repr float_sum,
             is_valid (validate_invoice float_repr float_sum 2024
                                        invoice_INV_9) = true)
    by (intros; vm_compute; reflexivity).
  split; [exact H|].
  intros float_repr float_sum.
  exact (proj1 (valid_invoice_guarantees float_repr float_sum 2024
                  invoice_INV_9 (H float_repr float_sum))).
Defined.

(** ** Rules on amounts and currency *)

Lemma add_nan_l (y : PyFloat.float) : PyFloat.add S754_nan y = S754_nan.
Proof. reflexivity. Qed.

Lemma add_nan_r (x : PyFloat.float) : PyFloat.add x S754_nan = S754_nan.
Proof. destruct x; reflexivity. Qed.

Lemma sub_nan_l (y : PyFloat.float) : PyFloat.sub S754_nan y = S754_nan.
Proof. reflexivity. Qed.

Lemma sub_nan_r (x : PyFloat.float) : PyFloat.sub x S754_nan = S754_nan.
Proof. destruct x; reflexivity. Qed.

(** A float is never more than [0.01] away from itself: the difference
    is a zero, or a NaN for an infinity or a NaN. *)
Lemma gtb_abs_sub_diag (z : PyFloat.float) :
  PyFloat.gtb (PyFloat.abs (PyFloat.sub z z)) PyFloat.lit_0_01 = false.
Proof.
  destruct z as [s|s| |s m e].
  - destruct s; reflexivity.
  - destruct s; reflexivity.
  - reflexivity.
  - unfold PyFloat.sub, SFsub. rewrite Z.sub_diag. reflexivity.
Qed.

(** X8: [TotalConsistencyRule] is silent when [gross_total] is the float
    sum of [net_total] and [tax_amount], whatever the two are, and when
    one of the three totals is a NaN: a NaN total is never reported as a
    mismatch. *)
Theorem total_consistency_silent (float_repr : PyFloat.float -> string) :
  (forall net tax : PyFloat.float,
      TotalConsistencyRule_validate float_repr
        (invoice_with_totals net tax (PyFloat.add net tax)) = None)
  /\ (forall net tax gross : PyFloat.float,
         net = S754_nan \/ tax = S754_nan \/ gross = S754_nan ->
         TotalConsistencyRule_validate float_repr
           (invoice_with_totals net tax gross) = None).
Proof.
  split.
  - intros net tax. rewrite total_consistency_iff.
    now rewrite gtb_abs_sub_diag.
  - intros net tax gross H. rewrite total_consistency_iff.
    assert (E : PyFloat.sub (PyFloat.round2 (PyFloat.add net tax))
                            (PyFloat.round2 gross) = S754_nan).
    { destruct H as [-> | [-> | ->]].
      - rewrite add_nan_l. apply sub_nan_l.
      - rewrite add_nan_r. apply sub_nan_l.
      - apply sub_nan_r. }
    rewrite E. reflexivity.
Qed.

Lemma total_consistency_silent_witness :
  (S754_nan = S754_nan \/ f20 = S754_nan \/ f120 = S754_nan)
  /\ forall float_repr : PyFloat.float -> string,
      TotalConsistencyRule_validate float_repr
        (invoice_with_totals S754_nan f20 f120) = None.
Proof.
  split; [now left|]. intros float_repr.
  apply (proj2 (total_consistency_silent float_repr)). now left.
Defined.

Lemma ltb_zero_below_zero (x : PyFloat.float) :
  PyFloat.ltb x PyFloat.zero = below_zero x.
Proof. destruct x as [s|s| |s m e]; try destruct s; reflexivity. Qed.

(** X9: [AmountSignRule] reports a field exactly when its value is a
    negative infinity or a negative finite number.  A NaN and the negative
    zero pass. *)
Theorem amount_sign_rule_iff (invoice : Invoice) (field_name : string)
        (x : PyFloat.float) :
  getattr_float invoice field_name = Some x ->
  (AmountSignRule_validate field_name invoice
   = Some ("negative_amount: " ++ field_name)%string
   <-> below_zero x = true)
  /\ (AmountSignRule_validate field_name invoice = None
      <-> below_zero x = false).
Proof.
  intros Hx. unfold AmountSignRule_validate. rewrite Hx, ltb_zero_below_zero.
  destruct (below_zero x); split; split; intros H;
    try reflexivity; discriminate.
Qed.

Lemma amount_sign_rule_iff_witness :
  getattr_float (invoice_with_totals S754_nan (S754_zero true) f120)
                "tax_amount" = Some (S754_zero true)
  /\ (AmountSignRule_validate "tax_amount"
        (invoice_with_totals S754_nan (S754_zero true) f120) = None
      <-> below_zero (S754_zero true) = false).
Proof.
  split; [reflexivity|].
  exact (proj2 (amount_sign_rule_iff
                  (invoice_with_totals S754_nan (S754_zero true) f120)
                  "tax_amount" (S754_zero true) eq_refl)).
Defined.

Lemma to_upper_to_lower (c : ascii) : to_upper (to_lower c) = to_upper c.
Proof. destruct c as [[] [] [] [] [] [] [] []]; reflexivity. Qed.

Lemma to_upper_idempotent (c : ascii) : to_upper (to_upper c) = to_upper c.
Proof. destruct c as [[] [] [] [] [] [] [] []]; reflexivity. Qed.

Lemma upper_lower (s : string) : upper (lower s) = upper s.
Proof.
  unfold upper, lower. induction s as [|c s IH]; simpl; [reflexivity|].
  now rewrite IH, to_upper_to_lower.
Qed.

Lemma upper_upper (s : string) : upper (upper s) = upper s.
Proof.
  unfold upper. induction s as [|c s IH]; simpl; [reflexivity|].
  now rewrite IH, to_upper_idempotent.
Qed.

Lemma currency_rule_result (c : string) :
  CurrencyRule_validate (invoice_with_currency (Some c))
  = if String.eqb c "" then None
    else if str_in (upper c) ALLOWED_CURRENCIES then None
         else Some ("invalid_currency: " ++ c)%string.
Proof.
  unfold CurrencyRule_validate. cbn [currency invoice_with_currency].
  destruct c as [|a c]; [reflexivity|]. cbn [truthy negb String.eqb].
  now destruct (str_in (upper (String a c)) ALLOWED_CURRENCIES).
Qed.

(** X10: [CurrencyRule] does not look at letter case: an invoice passes
    with a currency exactly when it passes with the same currency in lower
    case or in upper case.  When the rule reports, the message carries the
    currency as it was written. *)
Theorem currency_rule_case_insensitive (c : string) :
  (CurrencyRule_validate (invoice_with_currency (Some (lower c))) = None
   <-> CurrencyRule_validate (invoice_with_currency (Some c)) = None)
  /\ (CurrencyRule_validate (invoice_with_currency (Some (upper c))) = None
      <-> CurrencyRule_validate (invoice_with_currency (Some c)) = None)
  /\ (forall m, CurrencyRule_validate (invoice_with_currency (Some c)) = Some m
                -> m = ("invalid_currency: " ++ c)%string).
Proof.
  rewrite !currency_rule_result, upper_lower, upper_upper.
  assert (El : String.eqb (lower c) "" = String.eqb c "")
    by (destruct c; reflexivity).
  assert (Eu : String.eqb (upper c) "" = String.eqb c "")
    by (destruct c; reflexivity).
  rewrite El, Eu.
  destruct (String.eqb c ""); [repeat split; intros; congruence|].
  destruct (str_in (upper c) ALLOWED_CURRENCIES);
    repeat split; intros; congruence.
Qed.

(** ** The currency extractor *)

Lemma extract_currency_cases (text : string) :
  _extract_currency text
  = if occurs "EUR" text || (occurs "€" text || false) then Some "EUR"
    else if occurs "USD" text || (occurs "$" text || false) then Some "USD"
    else if occurs "GBP" text || (occurs "£" text || false) then Some "GBP"
    else if occurs "INR" text || (occurs "₹" text || false) then Some "INR"
    else if occurs "CHF" text || false then Some "CHF"
    else if occurs "JPY" text || (occurs "¥" text || false) then Some "JPY"
    else None.
Proof.
  unfold _extract_currency, currencies. cbn [first_some existsb fst snd].
  repeat match goal with
         | |- context [if ?b then _ else _] => destruct b
         end; reflexivity.
Qed.

(** X11: [_extract_currency] returns one of the six codes of its table,
    and the code it returns always passes [CurrencyRule]; [AUD] and [CAD],
    which the rule allows, are never extracted.  The table order decides:
    a text in which [EUR] occurs gives [EUR] whatever else occurs.  The
    result is [None] exactly when no pattern of the table occurs. *)
Theorem extract_currency_result (text : string) :
  (forall c, _extract_currency text = Some c ->
             In c ["EUR"; "USD"; "GBP"; "INR"; "CHF"; "JPY"]
             /\ CurrencyRule_validate (invoice_with_currency (Some c)) = None)
  /\ (occurs "EUR" text = true -> _extract_currency text = Some "EUR")
  /\ (_extract_currency text = None
      <-> forall entry p, In entry currencies -> In p (snd entry) ->
                          occurs p text = false).
Proof.
  rewrite extract_currency_cases. split; [|split].
  - intros c.
    repeat match goal with
           | |- context [if ?b then _ else _] => destruct b
           end; intros [= <-]; (split; [simpl; tauto|reflexivity]).
  - intros ->. reflexivity.
  - split.
    + intros H entry p He Hp.
      destruct (occurs "EUR" text) eqn:E1; [discriminate|].
      destruct (occurs "€" text) eqn:E2; [discriminate|].
      destruct (occurs "USD" text) eqn:E3; [discriminate|].
      destruct (occurs "$" text) eqn:E4; [discriminate|].
      destruct (occurs "GBP" text) eqn:E5; [discriminate|].
      destruct (occurs "£" text) eqn:E6; [discriminate|].
      destruct (occurs "INR" text) eqn:E7; [discriminate|].
      destruct (occurs "₹" text) eqn:E8; [discriminate|].
      destruct (occurs "CHF" text) eqn:E9; [discriminate|].
      destruct (occurs "JPY" text) eqn:E10; [discriminate|].
      destruct (occurs "¥" text) eqn:E11; [discriminate|].
      unfold currencies in He. simpl in He.
      repeat (destruct He as [<-|He]; [simpl in Hp|]); try contradiction;
        repeat (destruct Hp as [<-|Hp]; [assumption|]); contradiction.
    + intros H.
      rewrite (H ("EUR", ["EUR"; "€"]) "EUR"), (H ("EUR", ["EUR"; "€"]) "€"),
        (H ("USD", ["USD"; "$"]) "USD"), (H ("USD", ["USD"; "$"]) "$"),
        (H ("GBP", ["GBP"; "£"]) "GBP"), (H ("GBP", ["GBP"; "£"]) "£"),
        (H ("INR", ["INR"; "₹"]) "INR"), (H ("INR", ["INR"; "₹"]) "₹"),
        (H ("CHF", ["CHF"]) "CHF"),
        (H ("JPY", ["JPY"; "¥"]) "JPY"), (H ("JPY", ["JPY"; "¥"]) "¥");
        try reflexivity; unfold currencies; simpl; tauto.
Qed.

Lemma extract_currency_result_witness :
  occurs "EUR" "Total: 120.00 USD (EUR 110.00)" = true
  /\ _extract_currency "Total: 120.00 USD (EUR 110.00)" = Some "EUR".
Proof.
  split; [reflexivity|].
  exact (proj1 (proj2 (extract_currency_result
                         "Total: 120.00 USD (EUR 110.00)")) eq_refl).
Defined.

(** ** The five date formats *)

(** After a day at the head of a string, the rest starts with the second
    or the third character of the string. *)
Lemma day_rest_head (c1 c2 c3 : ascii) (r : string) (x : Z * string) :
  is_digit c1 = true ->
  In x (directive_matches dir_d (String c1 (String c2 (String c3 r)))) ->
  exists c r', snd x = String c r' /\ (c = c2 \/ c = c3).
Proof.
  intros H1 Hx. cbn [directive_matches] in Hx.
  repeat (apply in_app_or in Hx as [Hx|Hx]).
  - apply alt2_rest in Hx. eauto.
  - apply alt2_rest in Hx. eauto.
  - apply alt2_rest in Hx. eauto.
  - apply alt1_rest in Hx. eauto.
  - unfold alt_space_digit in Hx.
    rewrite (is_digit_not_literal c1 " " H1 eq_refl) in Hx.
    contradiction.
Qed.

(** A day-first format does not match a day followed by another
    separator. *)
Lemma match_format_other_separator (sep sep' : ascii) (fmt : list directive)
      (d : Z) (r : string) (dt : datetime) :
  1 <= d <= 31 -> is_digit sep' = false -> Ascii.eqb sep sep' = false ->
  match_format (dir_d :: dir_lit sep' :: fmt) (pad2 d ++ String sep r) dt
  = None.
Proof.
  intros Hd Hs Hne. destruct (pad2_digits d ltac:(lia)) as [H1 H2].
  unfold pad2. cbn [append]. rewrite match_format_cons.
  apply first_some_none. intros x Hx.
  destruct (day_rest_head _ _ _ _ x H1 Hx) as (c & r' & E & Hc).
  rewrite match_format_cons, E. cbn [directive_matches].
  destruct Hc as [-> | ->].
  - now rewrite (is_digit_not_literal _ sep' H2 Hs).
  - now rewrite Hne.
Qed.

(** Reading a printed date with the format that printed it. *)
Lemma match_format_dmy (sep : ascii) (y m d : Z) (dt : datetime) :
  valid_date y m d = true ->
  match_format [dir_d; dir_lit sep; dir_m; dir_lit sep; dir_Y]
    (pad2 d ++ String sep (pad2 m ++ String sep (pad4 y ++ ""))) dt
  = Some (mk_datetime y m d, "").
Proof.
  intros Hv. destruct (valid_date_bounds y m d Hv) as (Hy & Hm & Hd).
  rewrite match_format_cons.
  destruct (day_matches_pad2 d (String sep (pad2 m ++ String sep (pad4 y ++ "")))
                             Hd) as [tl ->].
  apply first_some_head. cbn [fst snd].
  rewrite match_format_cons, directive_matches_lit.
  apply first_some_head. cbn [fst snd].
  rewrite match_format_cons.
  destruct (month_matches_pad2 m (String sep (pad4 y ++ "")) Hm) as [tl' ->].
  apply first_some_head. cbn [fst snd].
  rewrite match_format_cons, directive_matches_lit.
  apply first_some_head. cbn [fst snd].
  rewrite match_format_cons, (year_matches_pad4 y _ Hy).
  apply first_some_head. reflexivity.
Qed.

Lemma match_format_ymd (sep : ascii) (y m d : Z) (dt : datetime) :
  valid_date y m d = true ->
  match_format [dir_Y; dir_lit sep; dir_m; dir_lit sep; dir_d]
    (pad4 y ++ String sep (pad2 m ++ String sep (pad2 d ++ ""))) dt
  = Some (mk_datetime y m d, "").
Proof.
  intros Hv. destruct (valid_date_bounds y m d Hv) as (Hy & Hm & Hd).
  rewrite match_format_cons, (year_matches_pad4 y _ Hy).
  apply first_some_head. cbn [fst snd].
  rewrite match_format_cons, directive_matches_lit.
  apply first_some_head. cbn [fst snd].
  rewrite match_format_cons.
  destruct (month_matches_pad2 m (String sep (pad2 d ++ "")) Hm) as [tl ->].
  apply first_some_head. cbn [fst snd].
  rewrite match_format_cons, directive_matches_lit.
  apply first_some_head. cbn [fst snd].
  rewrite match_format_cons.
  destruct (day_matches_pad2 d "" Hd) as [tl' ->].
  apply first_some_head. reflexivity.
Qed.

(** A year-first format does not match a year followed by another
    separator. *)
Lemma match_format_year_other_separator (sep sep' : ascii)
      (fmt : list directive) (y : Z) (r : string) (dt : datetime) :
  1 <= y <= 9999 -> Ascii.eqb sep sep' = false ->
  match_format (dir_Y :: dir_lit sep' :: fmt) (pad4 y ++ String sep r) dt
  = None.
Proof.
  intros Hy Hne. rewrite match_format_cons, (year_matches_pad4 y _ Hy).
  cbn [first_some fst snd]. rewrite match_format_cons.
  cbn [directive_matches]. now rewrite Hne.
Qed.

Lemma strptime_result (s : string) (ds : list directive) (y m d : Z) :
  valid_date y m d = true ->
  match_format ds s (mk_datetime 1900 1 1) = Some (mk_datetime y m d, "") ->
  match match_format ds s (mk_datetime 1900 1 1) with
  | Some (dt, EmptyString) =>
      if valid_date (year dt) (month dt) (day dt) then Some dt else None
  | _ => None
  end = Some (mk_datetime y m d).
Proof. intros Hv ->. cbn [year month day]. now rewrite Hv. Qed.

(** What [strftime] prints with each of the other four formats. *)
Lemma strftime_day_first (y m d : Z) :
  strftime (mk_datetime y m d) "%d.%m.%Y"
  = (pad2 d ++ String "." (pad2 m ++ String "." (unpadded y)))%string
  /\ strftime (mk_datetime y m d) "%d/%m/%Y"
     = (pad2 d ++ String "/" (pad2 m ++ String "/" (unpadded y)))%string
  /\ strftime (mk_datetime y m d) "%d-%m-%Y"
     = (pad2 d ++ String "-" (pad2 m ++ String "-" (unpadded y)))%string.
Proof. repeat split. Qed.

Lemma strftime_year_slash (y m d : Z) :
  strftime (mk_datetime y m d) "%Y/%m/%d"
  = (unpadded y ++ String "/" (pad2 m ++ String "/" (pad2 d ++ "")))%string.
Proof. reflexivity. Qed.

Lemma strptime_own_format (y m d : Z) (fmt : string) :
  valid_date y m d = true -> 1000 <= y -> In fmt date_formats ->
  strptime (strftime (mk_datetime y m d) fmt) fmt = Some (mk_datetime y m d).
Proof.
  intros Hv Hy Hf. unfold date_formats in Hf. simpl in Hf.
  destruct (strftime_day_first y m d) as (S1 & S2 & S3).
  destruct Hf as [<-|[<-|[<-|[<-|[<-|[]]]]]];
    rewrite ?S1, ?S2, ?S3, ?strftime_iso, ?strftime_year_slash,
      (unpadded_pad4 y Hy);
    unfold strptime; cbn [parse_format option_map];
    apply (strptime_result _ _ y m d Hv);
    first [ exact (match_format_dmy _ y m d _ Hv)
          | exact (match_format_ymd _ y m d _ Hv) ].
Qed.

Lemma normalize_date_day_first (y m d : Z) (fmt : string) :
  valid_date y m d = true -> 1000 <= y ->
  fmt = "%d.%m.%Y" \/ fmt = "%d/%m/%Y" \/ fmt = "%d-%m-%Y" ->
  _normalize_date (strftime (mk_datetime y m d) fmt)
  = strftime (mk_datetime y m d) "%Y-%m-%d".
Proof.
  intros Hv Hy4 Hf. destruct (valid_date_bounds y m d Hv) as (Hy & Hm & Hd).
  destruct (strftime_day_first y m d) as (S1 & S2 & S3).
  unfold _normalize_date, date_formats. cbn [first_some].
  destruct Hf as [-> | [-> | ->]].
  - rewrite (strptime_own_format y m d "%d.%m.%Y" Hv Hy4) by (simpl; tauto).
    reflexivity.
  - assert (E1 : strptime (strftime (mk_datetime y m d) "%d/%m/%Y") "%d.%m.%Y"
                 = None).
    { rewrite S2. unfold strptime. cbn [parse_format option_map].
      now rewrite (match_format_other_separator "/" "." _ d _ _ Hd). }
    rewrite E1.
    rewrite (strptime_own_format y m d "%d/%m/%Y" Hv Hy4) by (simpl; tauto).
    reflexivity.
  - assert (E1 : strptime (strftime (mk_datetime y m d) "%d-%m-%Y") "%d.%m.%Y"
                 = None).
    { rewrite S3. unfold strptime. cbn [parse_format option_map].
      now rewrite (match_format_other_separator "-" "." _ d _ _ Hd). }
    assert (E2 : strptime (strftime (mk_datetime y m d) "%d-%m-%Y") "%d/%m/%Y"
                 = None).
    { rewrite S3. unfold strptime. cbn [parse_format option_map].
      now rewrite (match_format_other_separator "-" "/" _ d _ _ Hd). }
    rewrite E1, E2.
    rewrite (strptime_own_format y m d "%d-%m-%Y" Hv Hy4) by (simpl; tauto).
    reflexivity.
Qed.

Lemma normalize_date_year_slash (y m d : Z) :
  valid_date y m d = true -> 1000 <= y ->
  _normalize_date (strftime (mk_datetime y m d) "%Y/%m/%d")
  = strftime (mk_datetime y m d) "%Y-%m-%d".
Proof.
  intros Hv Hy4. destruct (valid_date_bounds y m d Hv) as (Hy & Hm & Hd).
  destruct (year_digits y Hy) as (H1 & H2 & H3 & _ & _).
  unfold _normalize_date, date_formats. cbn [first_some].
  assert (S : strftime (mk_datetime y m d) "%Y/%m/%d"
              = (pad4 y ++ String "/" (pad2 m ++ String "/" (pad2 d ++ "")))%string)
    by (now rewrite strftime_year_slash, (unpadded_pad4 y Hy4)).
  assert (D : forall sep rest,
             is_digit sep = false ->
             match_format (dir_d :: dir_lit sep :: rest)
               (pad4 y ++ String "/" (pad2 m ++ String "/" (pad2 d ++ "")))
               (mk_datetime 1900 1 1) = None).
  { intros sep rest Hsep. unfold pad4. cbn [append].
    apply match_format_day_first; try assumption;
      apply digit_char_is_digit; assumption. }
  assert (E1 : strptime (strftime (mk_datetime y m d) "%Y/%m/%d") "%d.%m.%Y"
               = None).
  { rewrite S. unfold strptime. cbn [parse_format option_map].
    now rewrite D. }
  assert (E2 : strptime (strftime (mk_datetime y m d) "%Y/%m/%d") "%d/%m/%Y"
               = None).
  { rewrite S. unfold strptime. cbn [parse_format option_map].
    now rewrite D. }
  assert (E3 : strptime (strftime (mk_datetime y m d) "%Y/%m/%d") "%d-%m-%Y"
               = None).
  { rewrite S. unfold strptime. cbn [parse_format option_map].
    now rewrite D. }
  assert (E4 : strptime (strftime (mk_datetime y m d) "%Y/%m/%d") "%Y-%m-%d"
               = None).
  { rewrite S. unfold strptime. cbn [parse_format option_map].
    now rewrite (match_format_year_other_separator "/" "-" _ y _ _ Hy). }
  rewrite E1, E2, E3, E4.
  rewrite (strptime_own_format y m d "%Y/%m/%d" Hv Hy4) by (simpl; tauto).
  reflexivity.
Qed.

(** A date of a year below 1000, printed year first with [/], is read by
    none of the five formats. *)
Lemma strptime_short_year_slash (y m d : Z) (fmt : string) :
  valid_date y m d = true -> y < 1000 -> In fmt date_formats ->
  strptime (strftime (mk_datetime y m d) "%Y/%m/%d") fmt = None.
Proof.
  intros Hv Hy Hf. destruct (valid_date_bounds y m d Hv) as (Hy' & Hm & Hd).
  destruct (pad2_digits m ltac:(lia)) as [M1 M2].
  rewrite strftime_year_slash. unfold pad2. cbn [append].
  unfold date_formats in Hf. simpl in Hf.
  unfold strptime.
  destruct Hf as [<-|[<-|[<-|[<-|[<-|[]]]]]]; cbn [parse_format option_map].
  - rewrite match_format_day_first_short_year;
      [reflexivity|lia|reflexivity|assumption|assumption|cbn; lia].
  - rewrite match_format_day_first_short_year;
      [reflexivity|lia|reflexivity|assumption|assumption|cbn; lia].
  - rewrite match_format_day_first_short_year;
      [reflexivity|lia|reflexivity|assumption|assumption|cbn; lia].
  - rewrite match_format_year_separator;
      [reflexivity|apply unpadded_short_length; lia|reflexivity].
  - rewrite match_format_year_separator;
      [reflexivity|apply unpadded_short_length; lia|reflexivity].
Qed.

(** A date of a year below 1000, printed day first, is read by none of
    the five formats. *)
Lemma strptime_short_year_day_first (sep : ascii) (y m d : Z) (fmt : string) :
  valid_date y m d = true -> y < 1000 -> In fmt date_formats ->
  sep = "."%char \/ sep = "/"%char \/ sep = "-"%char ->
  strptime (pad2 d ++ String sep (pad2 m ++ String sep (unpadded y))) fmt
  = None.
Proof.
  intros Hv Hy Hf Hsep.
  destruct (valid_date_bounds y m d Hv) as (Hy' & Hm & Hd).
  destruct (pad2_digits m ltac:(lia)) as [M1 M2].
  destruct (pad2_digits d ltac:(lia)) as [D1 D2].
  assert (Hl : (String.length (unpadded y) < 4)%nat)
    by (apply unpadded_short_length; lia).
  assert (Hp : (String.length (pad2 d) < 4)%nat) by (cbn; lia).
  unfold date_formats in Hf. simpl in Hf.
  unfold strptime.
  destruct Hf as [<-|[<-|[<-|[<-|[<-|[]]]]]]; cbn [parse_format option_map];
    try (rewrite match_format_year_separator;
         [reflexivity|assumption
         |destruct Hsep as [-> | [-> | ->]]; reflexivity]);
    destruct Hsep as [-> | [-> | ->]];
    first [ rewrite (match_format_other_separator _ _ _ d _ _ Hd);
            reflexivity
          | unfold pad2; cbn [append];
            rewrite match_format_day_first_own_short_year;
            solve [reflexivity | assumption] ].
Qed.

(** None of the five formats reads back a date of a year below 1000,
    whichever of the five formats printed it. *)
Lemma strptime_short_year (y m d : Z) (fmt fmt' : string) :
  valid_date y m d = true -> y < 1000 ->
  In fmt date_formats -> In fmt' date_formats ->
  strptime (strftime (mk_datetime y m d) fmt) fmt' = None.
Proof.
  intros Hv Hy Hf Hf'.
  destruct (strftime_day_first y m d) as (S1 & S2 & S3).
  unfold date_formats in Hf. simpl in Hf.
  destruct Hf as [<-|[<-|[<-|[<-|[<-|[]]]]]].
  - rewrite S1. apply strptime_short_year_day_first; auto.
  - rewrite S2. apply strptime_short_year_day_first; auto.
  - rewrite S3. apply strptime_short_year_day_first; auto.
  - now apply strptime_short_year_iso.
  - now apply strptime_short_year_slash.
Qed.

(** X12: a valid date printed with any of the five formats of
    [_normalize_date].  From the year 1000 on, the printed string is read
    back by that format, and [_normalize_date] turns it into the
    [YYYY-MM-DD] rendering of the same date: day-first with [.], [/] or
    [-], and year-first with [-] or [/].  Below the year 1000 the year is
    printed on fewer than four digits: none of the five formats reads the
    printed string, and [_normalize_date] returns it as it is. *)
Theorem normalize_date_of_each_format (y m d : Z) (fmt : string) :
  valid_date y m d = true -> In fmt date_formats ->
  (1000 <= y ->
   strptime (strftime (mk_datetime y m d) fmt) fmt = Some (mk_datetime y m d)
   /\ _normalize_date (strftime (mk_datetime y m d) fmt)
      = strftime (mk_datetime y m d) "%Y-%m-%d")
  /\ (y < 1000 ->
      (forall fmt' : string,
          In fmt' date_formats ->
          strptime (strftime (mk_datetime y m d) fmt) fmt' = None)
      /\ _normalize_date (strftime (mk_datetime y m d) fmt)
         = strftime (mk_datetime y m d) fmt).
Proof.
  intros Hv Hf. split.
  - intros Hy. split; [exact (strptime_own_format y m d fmt Hv Hy Hf)|].
    unfold date_formats in Hf. simpl in Hf.
    destruct Hf as [<-|[<-|[<-|[<-|[<-|[]]]]]].
    + apply normalize_date_day_first; auto.
    + apply normalize_date_day_first; auto.
    + apply normalize_date_day_first; auto.
    + exact (normalize_date_strftime y m d Hv Hy).
    + exact (normalize_date_year_slash y m d Hv Hy).
  - intros Hy.
    assert (H : forall fmt' : string,
               In fmt' date_formats ->
               strptime (strftime (mk_datetime y m d) fmt) fmt' = None)
      by (intros fmt' Hf'; exact (strptime_short_year y m d fmt fmt' Hv Hy Hf Hf')).
    split; [exact H|]. unfold _normalize_date.
    assert (E : first_some
                  (fun fmt' => strptime (strftime (mk_datetime y m d) fmt) fmt')
                  date_formats = None)
      by (apply first_some_none; exact H).
    now rewrite E.
Qed.

Lemma normalize_date_of_each_format_witness :
  ((valid_date 2024 2 29 = true /\ In "%d/%m/%Y" date_formats /\ 1000 <= 2024)
   /\ _normalize_date "29/02/2024" = "2024-02-29")
  /\ ((valid_date 999 3 5 = true /\ In "%d.%m.%Y" date_formats /\ 999 < 1000)
      /\ strptime "05.03.999" "%d.%m.%Y" = None
      /\ _normalize_date "05.03.999" = "05.03.999").
Proof.
  split.
  - split; [split; [reflexivity|split; [simpl; tauto|lia]]|].
    apply (proj1 (normalize_date_of_each_format 2024 2 29 "%d/%m/%Y"
                    eq_refl (or_intror (or_introl eq_refl)))).
    lia.
  - split; [split; [reflexivity|split; [simpl; tauto|lia]]|].
    destruct (proj2 (normalize_date_of_each_format 999 3 5 "%d.%m.%Y"
                       eq_refl (or_introl eq_refl)) ltac:(lia)) as [H1 H2].
    split; [|exact H2].
    exact (H1 "%d.%m.%Y" (or_introl eq_refl)).
Defined.

Lemma strftime_iso_length (y m d : Z) :
  (1000 <= y ->
   String.length (strftime (mk_datetime y m d) "%Y-%m-%d") = 10%nat)
  /\ (1 <= y < 1000 ->
      (String.length (strftime (mk_datetime y m d) "%Y-%m-%d") < 10)%nat).
Proof.
  rewrite strftime_iso. split.
  - intros Hy. now rewrite (unpadded_pad4 y Hy).
  - intros Hy.
    destruct (unpadded_short y Hy)
      as [(c1 & -> & _) | [(c1 & c2 & -> & _) | (c1 & c2 & c3 & -> & _)]];
      cbn; lia.
Qed.

Lemma strftime_iso_truthy (y m d : Z) :
  truthy (Some (strftime (mk_datetime y m d) "%Y-%m-%d")) = true.
Proof.
  rewrite strftime_iso. destruct (unpadded y); reflexivity.
Qed.

(** X13: what [_normalize_date] returns, seen by [DateFormatRule].
    Whenever one of the five formats reads the input, the output is the
    [YYYY-MM-DD] rendering of a valid date.  From the year 1000 on it has
    ten characters and [%Y-%m-%d] reads it back, so that [DateFormatRule]
    cannot report [invalid_date_format] on it.  Below the year 1000 it has
    fewer than ten characters, [%Y-%m-%d] does not read it, and
    [DateFormatRule] reports [invalid_date_format] on the normalised date.
    When no format reads the input, the input is returned as it is. *)
Theorem normalized_date_and_date_format_rule (s : string) :
  (forall fmt dt, In fmt date_formats -> strptime s fmt = Some dt ->
      exists dt',
        valid_date (year dt') (month dt') (day dt') = true
        /\ _normalize_date s = strftime dt' "%Y-%m-%d"
        /\ (1000 <= year dt' ->
            strptime (_normalize_date s) "%Y-%m-%d" = Some dt'
            /\ String.length (_normalize_date s) = 10%nat
            /\ forall invoice now_year,
                 invoice_date invoice = Some (_normalize_date s) ->
                 DateFormatRule_validate now_year "invoice_date" invoice
                 <> Some "invalid_date_format: invoice_date")
        /\ (year dt' < 1000 ->
            strptime (_normalize_date s) "%Y-%m-%d" = None
            /\ (String.length (_normalize_date s) < 10)%nat
            /\ forall invoice now_year,
                 invoice_date invoice = Some (_normalize_date s) ->
                 DateFormatRule_validate now_year "invoice_date" invoice
                 = Some "invalid_date_format: invoice_date"))
  /\ ((forall fmt, In fmt date_formats -> strptime s fmt = None) ->
      _normalize_date s = s).
Proof.
  split.
  - intros fmt dt Hf Hp. unfold _normalize_date.
    destruct (first_some (fun fmt => strptime s fmt) date_formats)
      as [[y m d]|] eqn:E.
    + pose proof (first_some_strptime_valid s date_formats _ E) as Hv.
      cbn [year month day] in Hv.
      destruct (valid_date_bounds y m d Hv) as (Hy & _ & _).
      exists (mk_datetime y m d). cbn [year month day].
      split; [exact Hv|]. split; [reflexivity|]. split.
      * intros Hy4.
        pose proof (strptime_strftime_iso y m d Hv Hy4) as Hiso.
        split; [exact Hiso|].
        split; [exact (proj1 (strftime_iso_length y m d) Hy4)|].
        intros invoice now_year Hi. unfold DateFormatRule_validate.
        change (getattr_str invoice "invoice_date") with (invoice_date invoice).
        rewrite Hi, Hiso, strftime_iso_truthy. cbn [negb].
        destruct (_ || _); discriminate.
      * intros Hy3.
        assert (Hn : strptime (strftime (mk_datetime y m d) "%Y-%m-%d")
                              "%Y-%m-%d" = None).
        { apply strptime_short_year_iso; [exact Hv|exact Hy3|].
          simpl; tauto. }
        split; [exact Hn|].
        split; [apply (proj2 (strftime_iso_length y m d)); lia|].
        intros invoice now_year Hi. unfold DateFormatRule_validate.
        change (getattr_str invoice "invoice_date") with (invoice_date invoice).
        rewrite Hi, Hn, strftime_iso_truthy. reflexivity.
    + exfalso. revert Hf E. clear -Hp. generalize date_formats.
      induction l as [|f l IH]; simpl; [tauto|].
      intros [->|Hf]; [now rewrite Hp|].
      destruct (strptime s f); [discriminate|]. now apply IH.
  - intros H. unfold _normalize_date.
    assert (E : first_some (fun fmt => strptime s fmt) date_formats = None)
      by (apply first_some_none; exact H).
    now rewrite E.
Qed.

Lemma normalized_date_and_date_format_rule_witness :
  (In "%d.%m.%Y" date_formats
   /\ strptime "05.03.0999" "%d.%m.%Y" = Some (mk_datetime 999 3 5))
  /\ exists dt',
       _normalize_date "05.03.0999" = strftime dt' "%Y-%m-%d"
       /\ year dt' < 1000
       /\ strptime (_normalize_date "05.03.0999") "%Y-%m-%d" = None.
Proof.
  split; [split; [simpl; tauto|reflexivity]|].
  destruct (proj1 (normalized_date_and_date_format_rule "05.03.0999")
                  "%d.%m.%Y" (mk_datetime 999 3 5) (or_introl eq_refl) eq_refl)
    as (dt' & _ & H1 & H2 & H3).
  exists dt'. split; [exact H1|].
  destruct (Z.ltb_spec (year dt') 1000) as [Hy|Hy].
  - split; [exact Hy|]. exact (proj1 (H3 Hy)).
  - destruct (H2 Hy) as (_ & Hl & _). discriminate Hl.
Defined.

(** ** Amounts with a repeated decimal point *)

Lemma count_char_contains (c : ascii) (s : string) :
  (1 <= count_char c s)%nat -> contains c s = true.
Proof.
  induction s as [|a s IH]; simpl; [lia|].
  destruct (Ascii.eqb a c); simpl; [reflexivity|exact IH].
Qed.

Lemma count_char_app (c : ascii) (a b : string) :
  count_char c (a ++ b) = (count_char c a + count_char c b)%nat.
Proof.
  induction a as [|x a IH]; simpl; [reflexivity|]. rewrite IH. lia.
Qed.

Lemma count_char_replace_other (c c' : ascii) (s : string) :
  Ascii.eqb c' c = false ->
  count_char c (replace c' "" s) = count_char c s.
Proof.
  intros Hne. induction s as [|a s IH]; simpl; [reflexivity|].
  destruct (Ascii.eqb_spec a c') as [->|Ha]; simpl.
  - now rewrite Hne, IH.
  - now rewrite IH.
Qed.

Lemma count_dots_after_commas_to_dots (s : string) :
  count_char "." (replace "," "." s)
  = (count_char "," s + count_char "." s)%nat.
Proof.
  induction s as [|a s IH]; simpl; [reflexivity|].
  destruct (Ascii.eqb_spec a ",") as [->|Ha]; simpl.
  - rewrite IH. lia.
  - rewrite IH. lia.
Qed.

Lemma count_char_lstrip_c (c : ascii) (s : string) :
  is_c_space c = false -> count_char c (lstrip_c s) = count_char c s.
Proof.
  intros Hc. induction s as [|x s IH]; simpl; [reflexivity|].
  destruct (is_c_space x) eqn:Hx; simpl; [|reflexivity].
  destruct (Ascii.eqb_spec x c) as [->|_]; [congruence|exact IH].
Qed.

Lemma count_char_rstrip_c (c : ascii) (s : string) :
  is_c_space c = false -> count_char c (rstrip_c s) = count_char c s.
Proof.
  intros Hc. induction s as [|x s IH]; simpl; [reflexivity|].
  destruct (rstrip_c s) as [|y r] eqn:Hr.
  - simpl in IH. rewrite <- IH.
    destruct (is_c_space x) eqn:Hx; simpl.
    + destruct (Ascii.eqb_spec x c) as [->|_]; [congruence|reflexivity].
    + lia.
  - simpl. simpl in IH. now rewrite IH.
Qed.

Lemma count_dots_drop_underscores (prev : option ascii) (s u : string) :
  drop_underscores prev s = Some u ->
  count_char "." u = count_char "." s.
Proof.
  revert prev u. induction s as [|c s IH]; intros prev u; simpl.
  - destruct prev as [p|]; [|now intros [= <-]].
    destruct (Ascii.eqb_spec p "_") as [->|Hp].
    + discriminate.
    + intros H. assert (E : u = "").
      { destruct p as [[] [] [] [] [] [] [] []]; try congruence;
          now injection H as <-. }
      now subst.
  - destruct (Ascii.eqb_spec c "_") as [->|Hc].
    + destruct prev as [p|]; [|discriminate].
      destruct (is_digit p); [|discriminate].
      intros H. simpl. exact (IH _ _ H).
    + assert (G : option_map (String c) (drop_underscores (Some c) s) = Some u
                  -> count_char "." u
                     = ((if Ascii.eqb c "." then 1 else 0)
                        + count_char "." s)%nat).
      { destruct (drop_underscores (Some c) s) as [u'|] eqn:E; [|discriminate].
        intros [= <-]. simpl. now rewrite (IH _ _ E). }
      destruct prev as [p|]; [|exact G].
      destruct p as [[] [] [] [] [] [] [] []]; try exact G;
        destruct (is_digit c); try exact G; discriminate.
Qed.

Lemma count_dots_split_sign (s : string) :
  count_char "." (snd (split_sign s)) = count_char "." s.
Proof.
  destruct s as [|c s]; [reflexivity|].
  destruct c as [[] [] [] [] [] [] [] []]; reflexivity.
Qed.

Lemma to_lower_dot (c : ascii) :
  Ascii.eqb (to_lower c) "." = Ascii.eqb c ".".
Proof. destruct c as [[] [] [] [] [] [] [] []]; reflexivity. Qed.

Lemma count_dots_lower (s : string) :
  count_char "." (lower s) = count_char "." s.
Proof.
  unfold lower. induction s as [|c s IH]; simpl; [reflexivity|].
  now rewrite to_lower_dot, IH.
Qed.

Lemma digit_not_dot (c : ascii) :
  is_digit c = true -> Ascii.eqb c "." = false.
Proof. intros H. now apply is_digit_not_literal. Qed.

Lemma span_digits_rest (s : string) (acc n : Z) :
  count_char "." (snd (span_digits s acc n)) = count_char "." s.
Proof.
  revert acc n. induction s as [|c s IH]; intros acc n; simpl; [reflexivity|].
  destruct (is_digit c) eqn:Hc; simpl; [|reflexivity].
  now rewrite IH, (digit_not_dot c Hc).
Qed.

Lemma parse_exponent_with_dot (s : string) :
  (1 <= count_char "." s)%nat -> parse_exponent s = None.
Proof.
  intros H. destruct s as [|c s]; [simpl in H; lia|].
  unfold parse_exponent.
  destruct (Ascii.eqb c "e" || Ascii.eqb c "E") eqn:E; [|reflexivity].
  assert (Hc : Ascii.eqb c "." = false).
  { apply orb_true_iff in E as [E|E]; apply Ascii.eqb_eq in E; now subst. }
  simpl in H. rewrite Hc in H.
  pose proof (count_dots_split_sign s) as Hs.
  destruct (split_sign s) as [neg r1]. cbn [snd] in Hs.
  pose proof (span_digits_rest r1 0 0) as Hr.
  destruct (span_digits r1 0 0) as [[v k] rest]. cbn [snd] in Hr.
  destruct rest; [simpl in Hr; lia|reflexivity].
Qed.

Lemma parse_decimal_two_dots (s : string) :
  (2 <= count_char "." s)%nat -> parse_decimal s = None.
Proof.
  intros H. unfold parse_decimal.
  pose proof (span_digits_rest s 0 0) as H1.
  destruct (span_digits s 0 0) as [[ip ni] r1]. cbn [snd] in H1.
  destruct r1 as [|c r].
  - simpl in H1. lia.
  - destruct (Ascii.eqb_spec c ".") as [->|Hc].
    + pose proof (span_digits_rest r ip 0) as H2.
      destruct (span_digits r ip 0) as [[v nd] r']. cbn [snd] in H2.
      simpl in H1.
      rewrite parse_exponent_with_dot by lia.
      now destruct (0 <? ni + nd).
    + assert (E : parse_exponent (String c r) = None)
        by (apply parse_exponent_with_dot; lia).
      destruct c as [[] [] [] [] [] [] [] []]; try congruence;
        rewrite E; now destruct (0 <? ni).
Qed.

Lemma parse_inf_or_nan_two_dots (neg : bool) (s : string) :
  (2 <= count_char "." s)%nat -> parse_inf_or_nan neg s = None.
Proof.
  intros H. unfold parse_inf_or_nan. rewrite <- count_dots_lower in H.
  destruct (String.eqb_spec (lower s) "inf") as [E|_];
    [rewrite E in H; simpl in H; lia|].
  destruct (String.eqb_spec (lower s) "infinity") as [E|_];
    [rewrite E in H; simpl in H; lia|].
  destruct (String.eqb_spec (lower s) "nan") as [E|_];
    [rewrite E in H; simpl in H; lia|].
  reflexivity.
Qed.

(** [float] refuses a string with two decimal points. *)
Lemma py_float_two_dots (s : string) :
  (2 <= count_char "." s)%nat -> py_float s = None.
Proof.
  intros H. unfold py_float.
  destruct (if contains "_" s then drop_underscores None s else Some s)
    as [u|] eqn:E; [|reflexivity].
  assert (Hu : (2 <= count_char "." u)%nat).
  { destruct (contains "_" s).
    - now rewrite (count_dots_drop_underscores _ _ _ E).
    - now injection E as <-. }
  unfold float_from_string_inner.
  assert (Ht : (2 <= count_char "." (rstrip_c (lstrip_c u)))%nat)
    by (rewrite count_char_rstrip_c, count_char_lstrip_c by reflexivity;
        exact Hu).
  destruct (rstrip_c (lstrip_c u)) as [|c t] eqn:Et; [reflexivity|].
  pose proof (count_dots_split_sign (String c t)) as Hs.
  destruct (split_sign (String c t)) as [neg body]. cbn [snd] in Hs.
  rewrite parse_inf_or_nan_two_dots, parse_decimal_two_dots by lia.
  reflexivity.
Qed.

Lemma rfind_from_bounds (c : ascii) (s : string) (i f : Z) :
  f < i ->
  (contains c s = false -> rfind_from c s i f = f)
  /\ (contains c s = true -> i <= rfind_from c s i f)
  /\ ((2 <= count_char c s)%nat -> i < rfind_from c s i f).
Proof.
  revert i f. induction s as [|a s IH]; intros i f Hf; simpl.
  - repeat split; try discriminate; try reflexivity. lia.
  - destruct (Ascii.eqb a c) eqn:E; simpl.
    + destruct (IH (i + 1) i ltac:(lia)) as (H1 & H2 & H3).
      split; [discriminate|]. split.
      * intros _. destruct (contains c s) eqn:Hc.
        -- specialize (H2 eq_refl). lia.
        -- rewrite (H1 eq_refl). lia.
      * intros Hn. assert (Hc : contains c s = true)
          by (apply count_char_contains; lia).
        specialize (H2 Hc). lia.
    + destruct (IH (i + 1) f ltac:(lia)) as (H1 & H2 & H3).
      split; [exact H1|]. split.
      * intros Hc. specialize (H2 Hc). lia.
      * intros Hn. specialize (H3 Hn). lia.
Qed.

(** X14: [_parse_amount] raises [ValueError] when the separator it takes
    for the decimal point occurs twice.  With [t] the stripped input: two
    dots and no comma after the last dot (so ["1.234.567"] fails); two
    commas with the last comma after the last dot; two commas, no dot, and
    exactly two characters after the last comma (so ["1,234,56"]
    fails). *)
Theorem parse_amount_repeated_decimal_point (s : string) :
  let t := strip s in
  ((2 <= count_char "." t)%nat -> rfind "," t < rfind "." t ->
   _parse_amount s = None)
  /\ ((2 <= count_char "," t)%nat -> contains "." t = true ->
      rfind "." t < rfind "," t -> _parse_amount s = None)
  /\ ((2 <= count_char "," t)%nat -> contains "." t = false ->
      len t - rfind "," t = 3 -> _parse_amount s = None).
Proof.
  intros t. subst t. split; [|split].
  - intros Hn Hlt.
    assert (Hd : contains "." (strip s) = true)
      by (apply count_char_contains; lia).
    destruct (contains "," (strip s)) eqn:Hc.
    + rewrite (parse_amount_both s Hc Hd).
      replace (rfind "," (strip s) >? rfind "." (strip s)) with false
        by (symmetry; rewrite Z.gtb_ltb; apply Z.ltb_ge; lia).
      apply py_float_two_dots.
      now rewrite count_char_replace_other.
    + unfold _parse_amount. rewrite Hc. cbn [andb].
      now apply py_float_two_dots.
  - intros Hn Hd Hlt.
    assert (Hc : contains "," (strip s) = true)
      by (apply count_char_contains; lia).
    rewrite (parse_amount_both s Hc Hd).
    replace (rfind "," (strip s) >? rfind "." (strip s)) with true
      by (symmetry; rewrite Z.gtb_ltb; apply Z.ltb_lt; lia).
    apply py_float_two_dots.
    rewrite count_dots_after_commas_to_dots, count_char_replace_other
      by reflexivity. lia.
  - intros Hn Hd Hlen.
    assert (Hc : contains "," (strip s) = true)
      by (apply count_char_contains; lia).
    rewrite (parse_amount_commas s Hc Hd).
    destruct (rfind_from_bounds "," (strip s) 0 (-1) ltac:(lia))
      as (_ & _ & Hpos).
    specialize (Hpos Hn). fold (rfind "," (strip s)) in Hpos.
    replace (rfind "," (strip s) >? 0) with true
      by (symmetry; rewrite Z.gtb_ltb; apply Z.ltb_lt; lia).
    rewrite Hlen. cbn [andb Z.eqb Pos.eqb].
    apply py_float_two_dots.
    rewrite count_dots_after_commas_to_dots. lia.
Qed.

Lemma parse_amount_repeated_decimal_point_witness :
  ((2 <= count_char "." (strip "1.234.567"))%nat
   /\ rfind "," (strip "1.234.567") < rfind "." (strip "1.234.567"))
  /\ _parse_amount "1.234.567" = None.
Proof.
  split; [split; [vm_compute; lia|reflexivity]|].
  apply (proj1 (parse_amount_repeated_decimal_point "1.234.567"));
    [vm_compute; lia|reflexivity].
Defined.

(** ** The endpoint and the command line *)

Lemma filter_length_all {A : Type} (p : A -> bool) (l : list A) :
  List.length (filter p l) = List.length l <-> forallb p l = true.
Proof.
  induction l as [|x l IH]; simpl; [tauto|].
  pose proof (filter_length_le p l) as Hle.
  destruct (p x); simpl.
  - rewrite <- IH. split; intros H; lia.
  - split; [intros H; lia|discriminate].
Qed.

Lemma forallb_of_map {A B : Type} (p : B -> bool) (f : A -> B) (l : list A) :
  forallb p (map f l) = forallb (fun x => p (f x)) l.
Proof.
  induction l as [|x l IH]; simpl; [reflexivity|]. now rewrite IH.
Qed.

Section EndpointAndCli.

Variable float_repr : PyFloat.float -> string.
Variable float_sum : list PyFloat.float -> PyFloat.float.
Variable now_year : Z.

Lemma invoice_id_value (invoice : Invoice) :
  invoice_id (validate_invoice float_repr float_sum now_year invoice)
  = match invoice_number invoice with
    | Some (String c n) => String c n
    | _ => "UNKNOWN"
    end.
Proof.
  unfold validate_invoice. cbn [invoice_id].
  now destruct (invoice_number invoice) as [[|c n]|].
Qed.

(** X15: when [validate_json] returns a summary, the posted list was not
    empty, [total_invoices] is its length and is positive, and the result
    at each index belongs to the model posted at that index: its
    [invoice_id] is the number of that model, or [UNKNOWN] when the number
    is absent or empty. *)
Theorem validate_json_summary (invoices : list Api.InvoiceModel)
        (summary : ValidationSummary) :
  Api.validate_json float_repr float_sum now_year invoices = inr summary ->
  invoices <> []
  /\ total_invoices summary = Z.of_nat (List.length invoices)
  /\ 0 < total_invoices summary
  /\ List.length (results summary) = List.length invoices
  /\ forall (i : nat) (m : Api.InvoiceModel),
       nth_error invoices i = Some m ->
       exists r, nth_error (results summary) i = Some r
                 /\ r = validate_invoice float_repr float_sum now_year
                                         (Api.to_Invoice m)
                 /\ invoice_id r
                    = match Api.invoice_number m with
                      | Some (String c n) => String c n
                      | _ => "UNKNOWN"
                      end.
Proof.
  unfold Api.validate_json. destruct invoices as [|m0 ms]; [discriminate|].
  remember (m0 :: ms) as l eqn:El. intros H. injection H as <-.
  destruct (summary_counts float_repr float_sum now_year
              (map Api.to_Invoice l)) as (Ht & _ & _).
  pose proof (results_map float_repr float_sum now_year
                (map Api.to_Invoice l)) as Hr.
  cbv zeta in Ht. rewrite length_map in Ht.
  split; [subst l; discriminate|]. split; [exact Ht|]. split.
  - rewrite Ht, El. cbn [List.length]. lia.
  - split; [rewrite Hr, !length_map; reflexivity|].
    intros i m Hi. rewrite Hr, map_map.
    exists (validate_invoice float_repr float_sum now_year (Api.to_Invoice m)).
    split; [|split].
    + rewrite nth_error_map, Hi. reflexivity.
    + reflexivity.
    + rewrite invoice_id_value. reflexivity.
Qed.

(** X16: the exit status of [cmd_validate] and of [cmd_full_run] is 0
    exactly when the path exists and every invoice is valid, and 1
    otherwise; with an existing path and no invoice at all it is 0. *)
Theorem cli_exit_status (path_exists : bool) (invoices : list Invoice) :
  Cli.cmd_validate float_repr float_sum now_year path_exists invoices
  = (if path_exists
        && forallb (fun inv =>
                      is_valid (validate_invoice float_repr float_sum now_year
                                                 inv)) invoices
     then 0 else 1)
  /\ Cli.cmd_full_run float_repr float_sum now_year path_exists invoices
     = Cli.cmd_validate float_repr float_sum now_year path_exists invoices
  /\ Cli.cmd_validate float_repr float_sum now_year true [] = 0.
Proof.
  split; [|split; reflexivity].
  unfold Cli.cmd_validate, Cli.exit_status.
  destruct path_exists; [|reflexivity]. cbn [negb andb].
  destruct (summary_counts float_repr float_sum now_year invoices)
    as (_ & Hv & Hi).
  pose proof (results_map float_repr float_sum now_year invoices) as Hr.
  cbv zeta in Hv, Hi. rewrite Hi, Hv, Hr.
  pose proof (filter_length_le is_valid
                (map (validate_invoice float_repr float_sum now_year)
                     invoices)) as Hle.
  pose proof (filter_length_all is_valid
                (map (validate_invoice float_repr float_sum now_year)
                     invoices)) as Hall.
  rewrite forallb_of_map in Hall.
  destruct (forallb _ invoices).
  - rewrite (proj2 Hall eq_refl), Z.sub_diag. reflexivity.
  - destruct (Z.gtb_spec
                (Z.of_nat (List.length
                             (map (validate_invoice float_repr float_sum
                                                    now_year) invoices))
                 - Z.of_nat (List.length
                               (filter is_valid
                                  (map (validate_invoice float_repr float_sum
                                                         now_year) invoices))))
                0) as [_|Hz]; [reflexivity|].
    assert (E : List.length (filter is_valid
                  (map (validate_invoice float_repr float_sum now_year)
                       invoices))
                = List.length (map (validate_invoice float_repr float_sum
                                                     now_year) invoices))
      by lia.
    apply Hall in E. discriminate.
Qed.

End EndpointAndCli.

Lemma validate_json_summary_witness :
  (forall float_repr float_sum now_year,
      Api.validate_json float_repr float_sum now_year
        [model_with_number (Some "INV-7")]
      = inr (validate_invoices float_repr float_sum now_year
               [Api.to_Invoice (model_with_number (Some "INV-7"))]))
  /\ forall float_repr float_sum now_year,
      total_invoices
        (validate_invoices float_repr float_sum now_year
           [Api.to_Invoice (model_with_number (Some "INV-7"))]) = 1.
Proof.
  split; [reflexivity|].
  intros float_repr float_sum now_year.
  exact (proj1 (proj2 (validate_json_summary float_repr float_sum now_year
                         [model_with_number (Some "INV-7")] _ eq_refl))).
Defined.

(** ** The interchange format *)

Lemma load_line_items (items : list LineItem) :
  map_or_raise LineItem_of_kwargs
    (map (fun item => VDict (LineItem_to_dict item)) items)
  = Some (map raw_of_LineItem items).
Proof.
  induction items as [|item items IH]; [reflexivity|].
  cbn [map map_or_raise]. rewrite IH. reflexivity.
Qed.

Lemma load_invoice_to_dict (invoice : Invoice) :
  load_invoice (VDict (to_dict invoice)) = Some (raw_of_Invoice invoice).
Proof.
  unfold load_invoice.
  change (dict_get "line_items" (to_dict invoice))
    with (Some (VList (map (fun item => VDict (LineItem_to_dict item))
                           (line_items invoice)))).
  cbn [iterate]. rewrite load_line_items. reflexivity.
Qed.

Lemma of_opt_str_inj (a b : option string) :
  of_opt_str a = of_opt_str b -> a = b.
Proof. destruct a, b; simpl; congruence. Qed.

Lemma of_opt_float_inj (a b : option PyFloat.float) :
  of_opt_float a = of_opt_float b -> a = b.
Proof. destruct a, b; simpl; congruence. Qed.

Lemma raw_of_LineItem_inj (a b : LineItem) :
  raw_of_LineItem a = raw_of_LineItem b -> a = b.
Proof.
  destruct a, b. unfold raw_of_LineItem. cbn. intros [= H1 H2 H3 H4].
  apply of_opt_str_inj in H1. apply of_opt_float_inj in H2.
  apply of_opt_float_inj in H3. apply of_opt_float_inj in H4.
  subst. reflexivity.
Qed.

Lemma map_raw_of_LineItem_inj (a b : list LineItem) :
  map raw_of_LineItem a = map raw_of_LineItem b -> a = b.
Proof.
  revert b. induction a as [|x a IH]; intros [|y b]; cbn [map];
    try discriminate; [reflexivity|].
  intros H.
  pose proof (f_equal (hd (raw_of_LineItem x)) H) as E. cbn [hd] in E.
  pose proof (f_equal (@tl _) H) as H2. cbn [tl] in H2.
  apply raw_of_LineItem_inj in E. apply IH in H2.
  subst. reflexivity.
Qed.

Lemma raw_of_Invoice_inj (a b : Invoice) :
  raw_of_Invoice a = raw_of_Invoice b -> a = b.
Proof.
  destruct a, b. unfold raw_of_Invoice. cbn.
  intros [= H1 H2 H3 H4 H5 H6 H7 H8 H9 H10 H11 H12 H13 H14 H15 H16].
  apply of_opt_str_inj in H1, H2, H3, H4, H5, H6, H7, H8, H9, H10, H11.
  apply of_opt_float_inj in H12, H13, H14, H15.
  apply map_raw_of_LineItem_inj in H16.
  subst. reflexivity.
Qed.

(** X17: the round trip of the interchange format.  Loading what
    [save_invoices_to_json] wrote gives back, in order, the invoices that
    were saved, equal on every field and line item; an empty list of line
    items is written as an empty list and read back as one.  Two invoices
    that are written the same are equal. *)
Theorem save_then_load (invoices : list Invoice) :
  load_invoices (save_invoices invoices) = Some (map raw_of_Invoice invoices)
  /\ (forall other : list Invoice,
         load_invoices (save_invoices other)
         = load_invoices (save_invoices invoices) ->
         other = invoices)
  /\ dict_get "line_items" (to_dict Invoice_default) = Some (VList []).
Proof.
  assert (L : forall l, load_invoices (save_invoices l)
                        = Some (map raw_of_Invoice l)).
  { intros l. unfold load_invoices, save_invoices. cbn [iterate].
    induction l as [|i l IH]; [reflexivity|].
    cbn [map map_or_raise]. rewrite load_invoice_to_dict, IH. reflexivity. }
  split; [apply L|]. split; [|reflexivity].
  intros other. rewrite !L. intros [= H].
  revert invoices H. induction other as [|x other IH]; intros [|y invoices];
    cbn [map]; try discriminate; [reflexivity|].
  intros H.
  pose proof (f_equal (hd (raw_of_Invoice x)) H) as E. cbn [hd] in E.
  pose proof (f_equal (@tl _) H) as H2. cbn [tl] in H2.
  apply raw_of_Invoice_inj in E. apply IH in H2.
  subst. reflexivity.
Qed.

Lemma keys_among_In (fields : list string) (d : list (string * pyval))
      (k : string) (v : pyval) :
  keys_among fields d = true -> In (k, v) d -> In k fields.
Proof.
  unfold keys_among. rewrite forallb_forall. intros H Hin.
  apply str_in_In. exact (H (k, v) Hin).
Qed.

(** X18: what [load_invoices_from_json] refuses and what it fills in.
    An element that is not a dictionary, a dictionary with a key that is
    not a field of [Invoice], and a [line_items] value that is [null] or
    holds something else than dictionaries of [LineItem] fields all end
    the loading with a [TypeError].  A dictionary without [line_items]
    gives an invoice with no line item, and a missing field is [None]. *)
Theorem load_invoice_errors_and_defaults :
  (forall v : pyval, (forall d, v <> VDict d) -> load_invoice v = None)
  /\ (forall (d : list (string * pyval)) (k : string) (v : pyval),
         In (k, v) d -> ~ In k Invoice_fields -> load_invoice (VDict d) = None)
  /\ (forall d : list (string * pyval),
         dict_get "line_items" d = Some VNone -> load_invoice (VDict d) = None)
  /\ (forall (d : list (string * pyval)) (items : list pyval) (x : pyval),
         dict_get "line_items" d = Some (VList items) -> In x items ->
         LineItem_of_kwargs x = None -> load_invoice (VDict d) = None)
  /\ (forall (d : list (string * pyval)) (r : RawInvoice),
         load_invoice (VDict d) = Some r ->
         (dict_get "line_items" d = None -> raw_line_items r = [])
         /\ (dict_get "invoice_number" d = None ->
             raw_invoice_number r = VNone)
         /\ (dict_get "currency" d = None -> raw_currency r = VNone)).
Proof.
  split; [|split; [|split; [|split]]].
  - intros v H. destruct v; try reflexivity. now elim (H d).
  - intros d k v Hin Hk. unfold load_invoice.
    destruct (keys_among Invoice_fields d) eqn:E.
    + elim Hk. exact (keys_among_In _ _ _ _ E Hin).
    + now destruct (match dict_get "line_items" d with
                    | Some raw_items =>
                        match iterate raw_items with
                        | Some items => map_or_raise LineItem_of_kwargs items
                        | None => None
                        end
                    | None => Some []
                    end).
  - intros d H. unfold load_invoice. now rewrite H.
  - intros d items x H Hin Hx. unfold load_invoice. rewrite H. cbn [iterate].
    assert (E : map_or_raise LineItem_of_kwargs items = None).
    { clear H. induction items as [|y items IH]; [contradiction|].
      cbn [map_or_raise]. destruct Hin as [->|Hin].
      - now rewrite Hx.
      - destruct (LineItem_of_kwargs y); [|reflexivity].
        now rewrite (IH Hin). }
    now rewrite E.
  - intros d r H. unfold load_invoice in H.
    destruct (dict_get "line_items" d) as [raw_items|] eqn:El.
    + destruct (match iterate raw_items with
                | Some items => map_or_raise LineItem_of_kwargs items
                | None => None
                end) as [objs|]; [|discriminate].
      destruct (keys_among Invoice_fields d); [|discriminate].
      injection H as <-. cbn [raw_line_items raw_invoice_number raw_currency].
      unfold kwarg. split; [discriminate|].
      split; intros ->; reflexivity.
    + destruct (keys_among Invoice_fields d); [|discriminate].
      injection H as <-. cbn [raw_line_items raw_invoice_number raw_currency].
      unfold kwarg. split; [reflexivity|].
      split; intros ->; reflexivity.
Qed.

(** ** The format of a tax id *)

Lemma ascii_code_bounds (c : ascii) : 0 <= ascii_code c < 256.
Proof.
  unfold ascii_code. pose proof (nat_ascii_bounded c). lia.
Qed.

Lemma ascii_of_code_code (c : ascii) : ascii_of_code (ascii_code c) = c.
Proof.
  unfold ascii_of_code, ascii_code. rewrite Nat2Z.id.
  apply ascii_nat_embedding.
Qed.

Lemma ascii_code_of_code (n : Z) :
  0 <= n < 256 -> ascii_code (ascii_of_code n) = n.
Proof.
  intros H. unfold ascii_of_code, ascii_code.
  rewrite nat_ascii_embedding by lia. lia.
Qed.

Ltac div_lia := Z.div_mod_to_equations; lia.

(** Settle the comparisons of the goal by arithmetic. *)
Ltac decide_comparisons :=
  repeat match goal with
    | |- context [?a <? ?b] =>
        first [ rewrite (proj2 (Z.ltb_lt a b)) by div_lia
              | rewrite (proj2 (Z.ltb_ge a b)) by div_lia ]
    | |- context [?a <=? ?b] =>
        first [ rewrite (proj2 (Z.leb_le a b)) by div_lia
              | rewrite (proj2 (Z.leb_gt a b)) by div_lia ]
    end.

(** Decoding undoes encoding. *)
Lemma utf8_head_utf8 (cp : Z) (r : string) :
  0 <= cp < 1114112 -> utf8_head (utf8 cp ++ r) = Some (cp, r).
Proof.
  intros H. unfold utf8.
  destruct (Z.ltb_spec cp 128); [|destruct (Z.ltb_spec cp 2048);
                                  [|destruct (Z.ltb_spec cp 65536)]];
    cbn [append]; unfold utf8_head, is_continuation; cbv zeta;
    rewrite !ascii_code_of_code by div_lia;
    decide_comparisons; cbv [andb];
    f_equal; f_equal; div_lia.
Qed.

Lemma some_pair_inv {A B : Type} (a a' : A) (b b' : B) :
  Some (a, b) = Some (a', b') -> a = a' /\ b = b'.
Proof. intros [= -> ->]. now split. Qed.

Lemma ascii_of_code_eq (c : ascii) (n : Z) :
  n = ascii_code c -> ascii_of_code n = c.
Proof. intros ->. apply ascii_of_code_code. Qed.

(** The bytes of the goal are those of the code point. *)
Ltac same_bytes :=
  symmetry;
  repeat match goal with
    | |- String _ _ = String _ _ => f_equal
    end;
  apply ascii_of_code_eq; div_lia.

(** Encoding undoes decoding. *)
Lemma utf8_head_inv (s : string) (cp : Z) (r : string) :
  utf8_head s = Some (cp, r) ->
  s = (utf8 cp ++ r)%string /\ 0 <= cp < 1114112.
Proof.
  destruct s as [|a s]; [discriminate|].
  unfold utf8_head, is_continuation. cbv zeta.
  pose proof (ascii_code_bounds a) as Ba.
  destruct (Z.ltb_spec (ascii_code a) 128).
  { intros E. apply some_pair_inv in E as [<- <-].
    split; [|lia]. unfold utf8.
    decide_comparisons. cbn [append]. same_bytes. }
  destruct (Z.ltb_spec (ascii_code a) 194); [discriminate|].
  destruct (Z.ltb_spec (ascii_code a) 224).
  { destruct s as [|b s]; [discriminate|].
    pose proof (ascii_code_bounds b) as Bb.
    destruct (Z.leb_spec 128 (ascii_code b)); [|discriminate].
    destruct (Z.leb_spec (ascii_code b) 191); [|discriminate].
    cbv [andb]. intros E. apply some_pair_inv in E as [<- <-].
    split; [|lia]. unfold utf8.
    decide_comparisons. cbn [append].
    same_bytes. }
  destruct (Z.ltb_spec (ascii_code a) 240).
  { destruct s as [|b [|c s]]; try discriminate.
    pose proof (ascii_code_bounds b) as Bb.
    pose proof (ascii_code_bounds c) as Bc.
    destruct (Z.leb_spec 128 (ascii_code b)); [|discriminate].
    destruct (Z.leb_spec (ascii_code b) 191); [|discriminate].
    destruct (Z.leb_spec 128 (ascii_code c)); [|discriminate].
    destruct (Z.leb_spec (ascii_code c) 191); [|discriminate].
    cbv [andb].
    destruct (Z.leb_spec 2048 (4096 * (ascii_code a - 224)
                               + 64 * (ascii_code b - 128)
                               + (ascii_code c - 128))); [|discriminate].
    intros E. apply some_pair_inv in E as [<- <-].
    split; [|lia]. unfold utf8.
    decide_comparisons. cbn [append].
    same_bytes. }
  destruct (Z.ltb_spec (ascii_code a) 245); [|discriminate].
  destruct s as [|b [|c [|d s]]]; try discriminate.
  pose proof (ascii_code_bounds b) as Bb.
  pose proof (ascii_code_bounds c) as Bc.
  pose proof (ascii_code_bounds d) as Bd.
  destruct (Z.leb_spec 128 (ascii_code b)); [|discriminate].
  destruct (Z.leb_spec (ascii_code b) 191); [|discriminate].
  destruct (Z.leb_spec 128 (ascii_code c)); [|discriminate].
  destruct (Z.leb_spec (ascii_code c) 191); [|discriminate].
  destruct (Z.leb_spec 128 (ascii_code d)); [|discriminate].
  destruct (Z.leb_spec (ascii_code d) 191); [|discriminate].
  cbv [andb].
  destruct (Z.leb_spec 65536 (262144 * (ascii_code a - 240)
                              + 4096 * (ascii_code b - 128)
                              + 64 * (ascii_code c - 128)
                              + (ascii_code d - 128))); [|discriminate].
  destruct (Z.ltb_spec (262144 * (ascii_code a - 240)
                        + 4096 * (ascii_code b - 128)
                        + 64 * (ascii_code c - 128)
                        + (ascii_code d - 128)) 1114112); [|discriminate].
  cbv [andb]. intros E. apply some_pair_inv in E as [<- <-].
    split; [|lia]. unfold utf8.
  decide_comparisons. cbn [append].
  same_bytes.
Qed.

Lemma length_app (a b : string) :
  String.length (a ++ b) = (String.length a + String.length b)%nat.
Proof.
  induction a as [|x a IH]; cbn [append String.length Nat.add];
    [reflexivity|]. now rewrite IH.
Qed.

Lemma utf8_not_empty (cp : Z) : (1 <= String.length (utf8 cp))%nat.
Proof.
  unfold utf8.
  destruct (cp <? 128); [|destruct (cp <? 2048); [|destruct (cp <? 65536)]];
    cbn [String.length]; lia.
Qed.

Lemma utf8_head_shorter (s : string) (cp : Z) (r : string) :
  utf8_head s = Some (cp, r) -> (String.length r < String.length s)%nat.
Proof.
  intros H. apply utf8_head_inv in H as [-> _].
  rewrite length_app. pose proof (utf8_not_empty cp). lia.
Qed.

Lemma is_decimal_range (cp : Z) :
  is_decimal cp = true -> 0 <= cp < 1114112.
Proof.
  unfold is_decimal. intros H.
  apply existsb_exists in H as (zero & Hin & H).
  apply andb_true_iff in H as [H1 H2].
  apply Z.leb_le in H1. apply Z.ltb_lt in H2.
  assert (F : Forall (fun z => 48 <= z <= 130032) decimal_digit_runs)
    by (unfold decimal_digit_runs; repeat constructor; lia).
  rewrite Forall_forall in F. specialize (F zero Hin). cbv beta in F. lia.
Qed.

(** What [span_decimals] finds: the decimal digits at the head of the
    text, all of them. *)
Lemma span_decimals_spec (fuel : nat) (s : string) (n : Z) :
  (String.length s <= fuel)%nat ->
  exists (ds : list Z) (rest : string),
    span_decimals fuel s n = (n + Z.of_nat (List.length ds), rest)
    /\ s = (utf8_text ds ++ rest)%string
    /\ forallb is_decimal ds = true
    /\ forall cp r, utf8_head rest = Some (cp, r) -> is_decimal cp = false.
Proof.
  revert s n. induction fuel as [|fuel IH]; intros s n Hl.
  - destruct s as [|c s]; [|cbn [String.length] in Hl; lia].
    exists [], "". cbn [span_decimals List.length utf8_text append forallb].
    rewrite Z.add_0_r. repeat split. discriminate.
  - cbn [span_decimals].
    destruct (utf8_head s) as [[cp r]|] eqn:E.
    + destruct (is_decimal cp) eqn:D.
      * pose proof (utf8_head_shorter s cp r E) as Hr.
        destruct (IH r (n + 1) ltac:(lia)) as (ds & rest & H1 & H2 & H3 & H4).
        exists (cp :: ds), rest. rewrite H1.
        cbn [List.length utf8_text forallb]. rewrite D, H3.
        split; [f_equal; lia|]. split; [|split; [reflexivity|exact H4]].
        apply utf8_head_inv in E as [-> _].
        now rewrite H2, append_assoc.
      * exists [], s. cbn [List.length utf8_text append forallb].
        rewrite Z.add_0_r. repeat split.
        intros cp' r' E'. rewrite E in E'. now injection E' as <- _.
    + exists [], s. cbn [List.length utf8_text append forallb].
      rewrite Z.add_0_r. repeat split.
      intros cp' r' E'. rewrite E in E'. discriminate.
Qed.

Lemma span_decimals_text (fuel : nat) (ds : list Z) (tail : string) (n : Z) :
  forallb is_decimal ds = true ->
  (forall cp r, utf8_head tail = Some (cp, r) -> is_decimal cp = false) ->
  (String.length (utf8_text ds ++ tail) <= fuel)%nat ->
  span_decimals fuel (utf8_text ds ++ tail) n
  = (n + Z.of_nat (List.length ds), tail).
Proof.
  revert fuel n. induction ds as [|cp ds IH]; intros fuel n Hd Ht Hl.
  - cbn [utf8_text append List.length]. rewrite Z.add_0_r.
    destruct fuel as [|fuel]; [reflexivity|]. cbn [span_decimals].
    destruct (utf8_head tail) as [[cp r]|]; [|reflexivity].
    now rewrite (Ht cp r eq_refl).
  - cbn [forallb] in Hd. apply andb_true_iff in Hd as [D Hd].
    cbn [utf8_text] in *. rewrite <- append_assoc in *.
    rewrite length_app in Hl. pose proof (utf8_not_empty cp) as Hc.
    destruct fuel as [|fuel]; [lia|]. cbn [span_decimals].
    rewrite (utf8_head_utf8 cp _ (is_decimal_range cp D)), D.
    rewrite (IH fuel (n + 1) Hd Ht ltac:(lia)).
    f_equal. cbn [List.length]. lia.
Qed.

(** X19: the format that [TaxIDFormatRule] accepts.  A value matches
    exactly when it is two capital letters of ASCII followed by nine to
    twelve decimal digits, with nothing after them or one final line feed.
    The digits are those of any script, so a tax id written with
    Arabic-Indic digits is accepted, and so is one that ends in a line
    feed. *)
Theorem vat_id_format (value : string) :
  (matches_vat_id value = true
   <-> exists (a b : ascii) (ds : list Z) (tail : string),
         value = String a (String b (utf8_text ds ++ tail))
         /\ is_upper a = true /\ is_upper b = true
         /\ forallb is_decimal ds = true
         /\ (9 <= List.length ds <= 12)%nat
         /\ (tail = "" \/ tail = String "010" ""))
  /\ (forall c : ascii,
         is_digit c = true ->
         is_decimal (ascii_code c) = true
         /\ utf8 (ascii_code c) = String c "")
  /\ matches_vat_id "DE123456789" = true
  /\ matches_vat_id ("DE" ++ utf8_text (repeat 1632 9)) = true
  /\ matches_vat_id ("DE123456789" ++ String "010" "") = true
  /\ matches_vat_id "de123456789" = false.
Proof.
  split; [|split; [|repeat split]].
  - split.
    + destruct value as [|a [|b r]]; try discriminate.
      unfold matches_vat_id.
      destruct (is_upper a) eqn:Ha; [|discriminate].
      destruct (is_upper b) eqn:Hb; [|discriminate]. cbv [andb].
      destruct (span_decimals_spec (String.length r) r 0 (le_n _))
        as (ds & rest & H1 & H2 & H3 & H4).
      rewrite H1. intros H.
      apply andb_true_iff in H as [H Ht].
      apply andb_true_iff in H as [Hlo Hhi].
      apply Z.leb_le in Hlo. apply Z.leb_le in Hhi.
      exists a, b, ds, rest. repeat split; try assumption; try lia.
      * now rewrite H2.
      * apply orb_true_iff in Ht as [Ht|Ht]; apply String.eqb_eq in Ht; auto.
    + intros (a & b & ds & tail & -> & Ha & Hb & Hd & Hlen & Ht).
      unfold matches_vat_id. rewrite Ha, Hb. cbv [andb].
      rewrite (span_decimals_text _ ds tail 0 Hd).
      * replace (9 <=? 0 + Z.of_nat (List.length ds)) with true
          by (symmetry; apply Z.leb_le; lia).
        replace (0 + Z.of_nat (List.length ds) <=? 12) with true
          by (symmetry; apply Z.leb_le; lia).
        destruct Ht as [-> | ->]; reflexivity.
      * intros cp r E. destruct Ht as [-> | ->]; [discriminate|].
        vm_compute in E. injection E as <- _. reflexivity.
      * apply le_n.
  - intros c Hc. unfold is_digit in Hc. cbv zeta in Hc.
    apply andb_true_iff in Hc as [H1 H2].
    apply Z.leb_le in H1. apply Z.leb_le in H2.
    split.
    + unfold is_decimal, decimal_digit_runs. cbn [existsb].
      apply orb_true_iff. left.
      apply andb_true_iff. split; [apply Z.leb_le|apply Z.ltb_lt]; lia.
    + unfold utf8. decide_comparisons. now rewrite ascii_of_code_code.
Qed.

(** ** White space around an amount, and the two parties *)

Lemma rstrip_cons (c : ascii) (r : string) :
  rstrip (String c r)
  = match rstrip r with
    | EmptyString => if is_space c then EmptyString else String c EmptyString
    | String y r' => String c (String y r')
    end.
Proof. reflexivity. Qed.

Lemma rstrip_idempotent (s : string) : rstrip (rstrip s) = rstrip s.
Proof.
  induction s as [|c s IH]; [reflexivity|]. rewrite rstrip_cons.
  destruct (rstrip s) as [|y r] eqn:E.
  - destruct (is_space c) eqn:Hc; [reflexivity|].
    rewrite rstrip_cons. cbn [rstrip]. now rewrite Hc.
  - rewrite rstrip_cons, IH. reflexivity.
Qed.

Lemma rstrip_head (c : ascii) (r : string) :
  is_space c = false -> exists r', rstrip (String c r) = String c r'.
Proof.
  intros Hc. cbn [rstrip]. destruct (rstrip r) as [|y r'].
  - rewrite Hc. eauto.
  - eauto.
Qed.

Lemma lstrip_head (s : string) :
  lstrip s = "" \/ exists c r, lstrip s = String c r /\ is_space c = false.
Proof.
  induction s as [|c s IH]; [now left|]. cbn [lstrip].
  destruct (is_space c) eqn:Hc; [exact IH|]. right. eauto.
Qed.

Lemma strip_idempotent (s : string) : strip (strip s) = strip s.
Proof.
  unfold strip. destruct (lstrip_head s) as [E|(c & r & E & Hc)].
  - rewrite E. reflexivity.
  - rewrite E. destruct (rstrip_head c r Hc) as [r' Hr].
    assert (L : lstrip (rstrip (String c r)) = rstrip (String c r))
      by (rewrite Hr; cbn [lstrip]; now rewrite Hc).
    rewrite L. apply rstrip_idempotent.
Qed.

(** X20: white space around an amount does not count: [_parse_amount]
    gives the same result on a string and on the string stripped, so also
    on two strings that differ only by surrounding white space. *)
Theorem parse_amount_ignores_surrounding_space (s : string) :
  _parse_amount (strip s) = _parse_amount s
  /\ forall s' : string, strip s' = strip s ->
                         _parse_amount s' = _parse_amount s.
Proof.
  assert (H : forall a b, strip a = strip b ->
                          _parse_amount a = _parse_amount b).
  { intros a b E. unfold _parse_amount. now rewrite E. }
  split.
  - apply H. apply strip_idempotent.
  - intros s' E. now apply H.
Qed.

(** X21: [PartyNamesRule] treats the two parties alike: exchanging the
    seller name and the buyer name does not change its result. *)
Theorem party_names_rule_symmetric (invoice swapped : Invoice) :
  seller_name swapped = buyer_name invoice ->
  buyer_name swapped = seller_name invoice ->
  PartyNamesRule_validate swapped = PartyNamesRule_validate invoice.
Proof.
  intros Hs Hb. unfold PartyNamesRule_validate. rewrite Hs, Hb.
  destruct (seller_name invoice) as [s|], (buyer_name invoice) as [b|];
    try reflexivity.
  rewrite (String.eqb_sym (strip (lower b)) (strip (lower s))).
  now rewrite (andb_comm (truthy (Some b)) (truthy (Some s))).
Qed.

Lemma party_names_rule_symmetric_witness :
  (seller_name (invoice_with_parties (Some "acme ") (Some " ACME"))
   = buyer_name (invoice_with_parties (Some " ACME") (Some "acme "))
   /\ buyer_name (invoice_with_parties (Some "acme ") (Some " ACME"))
      = seller_name (invoice_with_parties (Some " ACME") (Some "acme ")))
  /\ PartyNamesRule_validate (invoice_with_parties (Some "acme ") (Some " ACME"))
     = PartyNamesRule_validate (invoice_with_parties (Some " ACME") (Some "acme "))
  /\ seller_name (invoice_with_parties (Some " ACME") (Some "acme "))
     <> buyer_name (invoice_with_parties (Some " ACME") (Some "acme ")).
Proof.
  split; [split; reflexivity|]. split; [|discriminate].
  exact (party_names_rule_symmetric
           (invoice_with_parties (Some " ACME") (Some "acme "))
           (invoice_with_parties (Some "acme ") (Some " ACME"))
           eq_refl eq_refl).
Defined.
